(** * planningcenter_toolkit: the command-line client of cli.py

    A shallow embedding of [planningcenter_toolkit/cli.py] and the
    properties of its pagination, flattening, deletion and credential
    code, and of the table that the people command prints.

    - JSON values are the inductive [value]; a JSON object used through
      [.get] and [[...]] is a [gmap string value].
    - A Python exception is a value of [exn]; a call either [Returns] or
      [Raises] ([outcome]).
    - The network is the sequence of responses the server gives to the
      successive requests of one run ([incoming]); every request is
      logged in [sent].  When the sequence is used up, [requests.get]
      raises [ConnectionError].
    - Texts that Python's libraries produce ([str] of an exception the
      program did not raise itself, [str] of a list) are fields of
      [rendering]; the properties hold whatever they are. *)

From Stdlib Require Import ZArith.
From stdpp Require Import base strings gmap list pretty.

Open Scope Z_scope.

(** ** Python values and exceptions *)

(** Values that reach this program from JSON and YAML documents: null,
    booleans, integers, strings and lists. *)
#[warnings="-register-all"]
Inductive value :=
  | VNone
  | VBool (b : bool)
  | VInt (z : Z)
  | VStr (s : string)
  | VList (items : list value).

Inductive exn :=
  | KeyError (key : string)
  | TypeError (msg : string)
  | AttributeError (msg : string)
  | ValueError (msg : string)
  | FileNotFoundError (msg : string)
  | HTTPError (status : Z)
  | ConnectionError
  | JSONDecodeError
  | YAMLError.

Inductive outcome (A : Type) :=
  | Returns (a : A)
  | Raises (e : exn).
Arguments Returns {A} a.
Arguments Raises {A} e.

#[global] Instance outcome_ret : MRet outcome := @Returns.
#[global] Instance outcome_bind : MBind outcome := fun A B f m =>
  match m with
  | Returns a => f a
  | Raises e => Raises e
  end.

(** [for x in xs: acc = body(x, acc)], stopping at the first exception. *)
Fixpoint for_each {A S : Type} (xs : list A) (body : A → S → outcome S)
    (acc : S) : outcome S :=
  match xs with
  | [] => Returns acc
  | x :: rest => acc' ← body x acc; for_each rest body acc'
  end.

(** Python truthiness, [bool(v)]. *)
Definition truthy (v : value) : bool :=
  match v with
  | VNone => false
  | VBool b => b
  | VInt z => negb (z =? 0)
  | VStr s => negb (String.eqb s "")
  | VList items => negb (bool_decide (items = []))
  end.

(** [v == s] for a string literal [s]. *)
Definition eq_str (v : value) (s : string) : bool :=
  match v with
  | VStr t => String.eqb t s
  | _ => false
  end.

(** [d.get(k)]: the value, [None] when the key is absent. *)
Definition dict_get (d : gmap string value) (k : string) : value :=
  default VNone (d !! k).

(** [d.get(k, dflt)]. *)
Definition dict_get_default (d : gmap string value) (k : string)
    (dflt : value) : value :=
  default dflt (d !! k).

(** [d[k]]: raises [KeyError] when the key is absent. *)
Definition dict_item (d : gmap string value) (k : string) : outcome value :=
  match d !! k with
  | Some v => Returns v
  | None => Raises (KeyError k)
  end.

(** [a + b] with [a] an integer, as in [count += member_count]:
    a boolean counts as 0 or 1, anything else is a [TypeError]. *)
Definition int_add (a : Z) (b : value) : outcome Z :=
  match b with
  | VInt z => Returns (a + z)
  | VBool true => Returns (a + 1)
  | VBool false => Returns a
  | _ => Raises (TypeError "unsupported operand type(s) for +=")
  end.

(** [d[k].append(x)]. *)
Definition dict_append (d : gmap string value) (k : string) (x : value)
    : outcome (gmap string value) :=
  match d !! k with
  | Some (VList items) => Returns (<[k := VList (items ++ [x])]> d)
  | Some _ => Raises (AttributeError "append")
  | None => Raises (KeyError k)
  end.

(** ** JSON:API documents *)

(** A relationship pointer [{"id": ..., "type": ...}]. *)
Record ref := { ref_id : string; ref_type : string }.

(** A resource object; an absent ["relationships"] is the empty list.
    [r_relationships] keeps the order of the JSON object; each entry is
    the relationship's name and its ["data"] array. *)
Record resource := {
  r_id : string;
  r_type : string;
  r_attributes : gmap string value;
  r_relationships : list (string * list ref)
}.

(** One page of a collection; an absent ["included"] is the empty list;
    [p_links = None] is a document without ["links"], and
    [Some None] one whose links have no (or a null) ["next"]. *)
Record page := {
  p_data : list resource;
  p_included : list resource;
  p_links : option (option string)
}.

(** ** Flattening one person (cli.py, lines 53-128) *)

(** [{item["id"]: item for item in included}]: a later item replaces an
    earlier one with the same id. *)
Definition included_index (included : list resource) : gmap string resource :=
  foldl (fun m item => <[r_id item := item]> m) ∅ included.

(** The dictionary literal of lines 54-89. *)
Definition new_person_info (person : resource) : gmap string value :=
  let attributes := r_attributes person in
  list_to_map [
    ("id", VStr (r_id person));
    ("first_name", dict_get attributes "first_name");
    ("last_name", dict_get attributes "last_name");
    ("nickname", dict_get attributes "nickname");
    ("birthday", dict_get attributes "birthdate");
    ("anniversary", dict_get attributes "anniversary");
    ("gender", dict_get attributes "gender");
    ("marital_status", dict_get attributes "marital_status");
    ("child", dict_get attributes "child");
    ("avatar", dict_get attributes "avatar");
    ("status", dict_get attributes "status");
    ("inactivated_at", dict_get attributes "inactivated_at");
    ("inactive_reason", dict_get attributes "inactive_reason");
    ("membership", dict_get attributes "membership");
    ("created_at", dict_get attributes "created_at");
    ("updated_at", dict_get attributes "updated_at");
    ("graduation_year", dict_get attributes "graduation_year");
    ("medical_notes", dict_get attributes "medical_notes");
    ("school_type", dict_get attributes "school_type");
    ("login_identifier", dict_get attributes "login_identifier");
    ("household_count", VInt 0);
    ("home_street", VNone);
    ("home_city", VNone);
    ("home_state", VNone);
    ("home_zip", VNone);
    ("work_street", VNone);
    ("work_city", VNone);
    ("work_state", VNone);
    ("work_zip", VNone);
    ("phone_numbers", VList []);
    ("emails", VList [])
  ].

(** Body of [for phone_id in rel_data["data"]] (lines 96-98). *)
Definition phone_step (included_data : gmap string resource) (phone_id : ref)
    (person_info : gmap string value) : outcome (gmap string value) :=
  match included_data !! ref_id phone_id with
  | Some phone =>
      number ← dict_item (r_attributes phone) "number";
      dict_append person_info "phone_numbers" number
  | None => Returns person_info
  end.

(** Body of [for email_id in rel_data["data"]] (lines 102-104). *)
Definition email_step (included_data : gmap string resource) (email_id : ref)
    (person_info : gmap string value) : outcome (gmap string value) :=
  match included_data !! ref_id email_id with
  | Some email =>
      address ← dict_item (r_attributes email) "address";
      dict_append person_info "emails" address
  | None => Returns person_info
  end.

(** Body of [for address_id in rel_data["data"]] (lines 108-120). *)
Definition address_step (included_data : gmap string resource)
    (address_id : ref) (person_info : gmap string value)
    : outcome (gmap string value) :=
  match included_data !! ref_id address_id with
  | Some address =>
      address_type ← dict_item (r_attributes address) "location";
      if eq_str address_type "Home" then
        Returns (<["home_zip" := dict_get (r_attributes address) "zip"]>
                (<["home_state" := dict_get (r_attributes address) "state"]>
                (<["home_city" := dict_get (r_attributes address) "city"]>
                (<["home_street" := dict_get (r_attributes address) "street"]>
                 person_info))))
      else if eq_str address_type "Work" then
        Returns (<["work_zip" := dict_get (r_attributes address) "zip"]>
                (<["work_state" := dict_get (r_attributes address) "state"]>
                (<["work_city" := dict_get (r_attributes address) "city"]>
                (<["work_street" := dict_get (r_attributes address) "street"]>
                 person_info))))
      else Returns person_info
  | None => Returns person_info
  end.

(** Body of [for household in rel_data["data"]] (lines 124-128). *)
Definition household_step (included_data : gmap string resource)
    (household : ref) (person_info : gmap string value)
    : outcome (gmap string value) :=
  let household_id := ref_id household in
  match included_data !! household_id with
  | Some household_data =>
      if String.eqb (r_type household_data) "Household" then
        let member_count :=
          dict_get_default (r_attributes household_data) "member_count" (VInt 0) in
        match person_info !! "household_count" with
        | Some (VInt count) =>
            total ← int_add count member_count;
            Returns (<["household_count" := VInt total]> person_info)
        | Some _ => Raises (TypeError "unsupported operand type(s) for +=")
        | None => Raises (KeyError "household_count")
        end
      else Returns person_info
  | None => Returns person_info
  end.

(** Body of [for rel_type, rel_data in ...items()] (lines 94-128). *)
Definition relationship_step (included_data : gmap string resource)
    (rel : string * list ref) (person_info : gmap string value)
    : outcome (gmap string value) :=
  let '(rel_type, rel_data) := rel in
  if String.eqb rel_type "phone_numbers" then
    for_each rel_data (phone_step included_data) person_info
  else if String.eqb rel_type "emails" then
    for_each rel_data (email_step included_data) person_info
  else if String.eqb rel_type "addresses" then
    for_each rel_data (address_step included_data) person_info
  else if String.eqb rel_type "households" then
    for_each rel_data (household_step included_data) person_info
  else Returns person_info.

(** Lines 53-128: the flattened record of one person of a page. *)
Definition flatten_person (person : resource) (included : list resource)
    : outcome (gmap string value) :=
  let person_info := new_person_info person in
  let included_data := included_index included in
  for_each (r_relationships person) (relationship_step included_data)
    person_info.

(** ** What the flattening claims speak of *)

(** The ["data"] array of the relationship called [name]; a JSON object
    has a key at most once, so this is that one array, and [[]] when the
    relationship is absent. *)
Definition rel_refs (rels : list (string * list ref)) (name : string)
    : list ref :=
  concat (map snd (filter (fun rel => String.eqb (fst rel) name = true) rels)).

(** The records that a list of pointers resolves to in the included set,
    in the order of the pointers; a pointer whose id is absent gives
    nothing. *)
Definition resolve (included_data : gmap string resource) (refs : list ref)
    : list resource :=
  omap (fun r => included_data !! ref_id r) refs.

(** The values of attribute [attr] of a list of records, in order. *)
Definition attr_values (attr : string) (recs : list resource) : list value :=
  map (fun rec => dict_get (r_attributes rec) attr) recs.

Definition sum_Z (zs : list Z) : Z := foldr Z.add 0 zs.

(** The number a record adds to the household count: its
    ["member_count"], 0 when the attribute is absent. *)
Definition member_count_of (household_data : resource) : Z :=
  match dict_get_default (r_attributes household_data) "member_count" (VInt 0) with
  | VInt z => z
  | VBool true => 1
  | _ => 0
  end.

Definition is_household (rec : resource) : bool :=
  String.eqb (r_type rec) "Household".

Definition household_total (included_data : gmap string resource)
    (refs : list ref) : Z :=
  sum_Z (map member_count_of (filter (fun rec => is_household rec = true)
                                     (resolve included_data refs))).

(** The four address fields of a record, as [.get] reads them. *)
Record address_fields := {
  a_street : value; a_city : value; a_state : value; a_zip : value
}.

Definition fields_of (address : resource) : address_fields :=
  {| a_street := dict_get (r_attributes address) "street";
     a_city := dict_get (r_attributes address) "city";
     a_state := dict_get (r_attributes address) "state";
     a_zip := dict_get (r_attributes address) "zip" |}.

Definition no_fields : address_fields :=
  {| a_street := VNone; a_city := VNone; a_state := VNone; a_zip := VNone |}.

Definition located (loc : string) (address : resource) : bool :=
  eq_str (dict_get (r_attributes address) "location") loc.

(** The last record, in pointer order, whose location is [loc]. *)
Definition last_located (loc : string) (resolved : list resource)
    : option resource :=
  last (filter (fun address => located loc address = true) resolved).

Definition home_fields (person_info : gmap string value) : address_fields :=
  {| a_street := dict_get person_info "home_street";
     a_city := dict_get person_info "home_city";
     a_state := dict_get person_info "home_state";
     a_zip := dict_get person_info "home_zip" |}.

Definition work_fields (person_info : gmap string value) : address_fields :=
  {| a_street := dict_get person_info "work_street";
     a_city := dict_get person_info "work_city";
     a_state := dict_get person_info "work_state";
     a_zip := dict_get person_info "work_zip" |}.

(** A resolved record has what the code indexes without a default:
    ["number"], ["address"] and ["location"]; a household's
    ["member_count"], when present, can be added to an integer. *)
Definition resolved_ok (rel_type : string) (rec : resource) : bool :=
  if String.eqb rel_type "phone_numbers" then
    bool_decide (is_Some (r_attributes rec !! "number"))
  else if String.eqb rel_type "emails" then
    bool_decide (is_Some (r_attributes rec !! "address"))
  else if String.eqb rel_type "addresses" then
    bool_decide (is_Some (r_attributes rec !! "location"))
  else if String.eqb rel_type "households" then
    if is_household rec then
      match dict_get_default (r_attributes rec) "member_count" (VInt 0) with
      | VInt _ | VBool _ => true
      | _ => false
      end
    else true
  else true.

Definition rel_ok (included_data : gmap string resource)
    (rel : string * list ref) : bool :=
  forallb (resolved_ok (fst rel)) (resolve included_data (snd rel)).

(** No record that one of the person's pointers resolves to makes the
    flattening raise. *)
Definition flattenable (person : resource) (included : list resource) : bool :=
  forallb (rel_ok (included_index included)) (r_relationships person).

(** ** The world: network, standard output, files *)

Inductive method := GET | DELETE.

(** One call of [requests.get] or [requests.delete]; [rq_auth] is the
    pair given to [HTTPBasicAuth]. *)
Record request := {
  rq_method : method;
  rq_url : string;
  rq_auth : value * value;
  rq_params : list (string * value)
}.

(** A response: its status and, when the body is a JSON document,
    the parsed document ([response.json()] raises otherwise). *)
Record response := {
  status_code : Z;
  body : option page
}.

(** What [yaml.safe_load] makes of a file: a mapping, another value
    (an empty file gives [None]), or an error when the text is not YAML. *)
Inductive document :=
  | YamlMapping (config : gmap string value)
  | YamlOther (v : value)
  | NotYaml.

Record world := {
  incoming : list response;
  sent : list request;
  stdout : list string;
  files : gmap string document
}.

Definition set_incoming (pending : list response) (w : world) : world :=
  {| incoming := pending; sent := sent w; stdout := stdout w; files := files w |}.

Definition log_request (rq : request) (w : world) : world :=
  {| incoming := incoming w; sent := sent w ++ [rq];
     stdout := stdout w; files := files w |}.

Definition print_line (line : string) (w : world) : world :=
  {| incoming := incoming w; sent := sent w;
     stdout := stdout w ++ [line]; files := files w |}.

Definition write_file (path : string) (doc : document) (w : world) : world :=
  {| incoming := incoming w; sent := sent w;
     stdout := stdout w; files := <[path := doc]> (files w) |}.

(** A command: it runs in a world and returns or raises in a new one. *)
Definition io (A : Type) : Type := world → outcome A * world.

#[global] Instance io_ret : MRet io := fun A a w => (Returns a, w).
#[global] Instance io_bind : MBind io := fun A B f m w =>
  match m w with
  | (Returns a, w') => f a w'
  | (Raises e, w') => (Raises e, w')
  end.

Definition raise {A : Type} (e : exn) : io A := fun w => (Raises e, w).

Definition print (line : string) : io unit :=
  fun w => (Returns tt, print_line line w).

(** [response.raise_for_status()] of the requests library: an
    [HTTPError] exactly for the client and server error statuses,
    400 to 599. *)
Definition raise_for_status (r : response) : outcome unit :=
  if (400 <=? status_code r) && (status_code r <? 600)
  then Raises (HTTPError (status_code r))
  else Returns tt.

(** [response.json()]. *)
Definition json (r : response) : outcome page :=
  match body r with
  | Some data => Returns data
  | None => Raises JSONDecodeError
  end.

(** [while url:] on a URL that may be null. *)
Definition url_truthy (url : option string) : bool :=
  match url with
  | Some u => negb (String.eqb u "")
  | None => false
  end.

Definition url_text (url : option string) : string := default "" url.

(** ** load_authentication (lines 11-27) *)

Definition load_authentication (config_path : string) : io (value * value) :=
  fun w =>
  match files w !! config_path with
  | None =>
      (Raises (FileNotFoundError
         ("Configuration file not found at " +:+ config_path +:+ ". Please create it.")), w)
  | Some NotYaml => (Raises YAMLError, w)
  | Some (YamlOther _) =>
      (Raises (AttributeError "object has no attribute 'get'"), w)
  | Some (YamlMapping config) =>
      let client_id := dict_get config "client_id" in
      let client_secret := dict_get config "client_secret" in
      if negb (truthy client_id) || negb (truthy client_secret) then
        (Raises (ValueError
           "The YAML file must contain both 'client_id' and 'client_secret'."), w)
      else (Returns (client_id, client_secret), w)
  end.

(** ** fetch_people (lines 30-138) *)

Definition people_params : list (string * value) :=
  [("include", VStr "phone_numbers,emails,addresses,households");
   ("per_page", VInt 100)].

(** [for person in data["data"]] (lines 49-130): stops at the limit,
    flattens and appends otherwise. *)
Fixpoint people_page_loop (limit : Z) (data : page) (persons : list resource)
    (people_list : list (gmap string value))
    : outcome (list (gmap string value)) :=
  match persons with
  | [] => Returns people_list
  | person :: rest =>
      if Z.of_nat (length people_list) >=? limit then Returns people_list
      else
        person_info ← flatten_person person (p_included data);
        people_page_loop limit data rest (people_list ++ [person_info])
  end.

(** [data.get("links", {}).get("next")]. *)
Definition people_next (data : page) : option string :=
  match p_links data with
  | Some next => next
  | None => None
  end.

(** [while next_page:] (lines 43-136); [pending] are the responses the
    server has yet to give. *)
Fixpoint fetch_people_loop (auth : value * value) (limit : Z)
    (pending : list response) (next_page : option string)
    (people_list : list (gmap string value)) (w : world)
    : outcome (list (gmap string value)) * world :=
  if url_truthy next_page then
    let rq := {| rq_method := GET; rq_url := url_text next_page;
                 rq_auth := auth; rq_params := people_params |} in
    match pending with
    | [] => (Raises ConnectionError, log_request rq (set_incoming [] w))
    | response :: rest =>
        let w := log_request rq (set_incoming rest w) in
        match raise_for_status response with
        | Raises e => (Raises e, w)
        | Returns _ =>
        match json response with
        | Raises e => (Raises e, w)
        | Returns data =>
        match people_page_loop limit data (p_data data) people_list with
        | Raises e => (Raises e, w)
        | Returns people_list =>
            if Z.of_nat (length people_list) >=? limit then (Returns people_list, w)
            else fetch_people_loop auth limit rest (people_next data) people_list w
        end end end
    end
  else (Returns people_list, set_incoming pending w).

Definition fetch_people (client_id client_secret : value) (limit : Z)
    : io (list (gmap string value)) :=
  fun w =>
  fetch_people_loop (client_id, client_secret) limit (incoming w)
    (Some "https://api.planningcenteronline.com/people/v2/people") [] w.

(** ** fetch_teams (lines 294-305) *)

(** [l[:limit]]: a negative limit counts from the end. *)
Definition slice_to {A : Type} (l : list A) (limit : Z) : list A :=
  if 0 <=? limit then take (Z.to_nat limit) l
  else take (Z.to_nat (Z.of_nat (length l) + limit)) l.

Definition team_entry (team : resource) : outcome (gmap string value) :=
  name ← dict_item (r_attributes team) "name";
  Returns (list_to_map [
    ("id", VStr (r_id team));
    ("name", name);
    ("positions", dict_get_default (r_attributes team) "positions" (VList []))
  ]).

Fixpoint team_entries (teams : list resource)
    : outcome (list (gmap string value)) :=
  match teams with
  | [] => Returns []
  | team :: rest =>
      entry ← team_entry team;
      entries ← team_entries rest;
      Returns (entry :: entries)
  end.

Definition fetch_teams (client_id client_secret : value) (limit : Z)
    : io (list (gmap string value)) :=
  fun w =>
  let rq := {| rq_method := GET;
               rq_url := "https://api.planningcenteronline.com/services/v2/teams";
               rq_auth := (client_id, client_secret); rq_params := [] |} in
  match incoming w with
  | [] => (Raises ConnectionError, log_request rq w)
  | response :: rest =>
      let w := log_request rq (set_incoming rest w) in
      match raise_for_status response with
      | Raises e => (Raises e, w)
      | Returns _ =>
      match json response with
      | Raises e => (Raises e, w)
      | Returns data =>
      match team_entries (p_data data) with
      | Raises e => (Raises e, w)
      | Returns entries => (Returns (slice_to entries limit), w)
      end end end
  end.

(** ** get_paginated_results (lines 375-385) *)

Fixpoint get_paginated_results_loop (auth : value * value)
    (pending : list response) (url : option string)
    (results : list resource) (w : world)
    : outcome (list resource) * world :=
  if url_truthy url then
    let rq := {| rq_method := GET; rq_url := url_text url;
                 rq_auth := auth; rq_params := [] |} in
    match pending with
    | [] => (Raises ConnectionError, log_request rq (set_incoming [] w))
    | response :: rest =>
        let w := log_request rq (set_incoming rest w) in
        if negb (status_code response =? 200) then
          (Returns results,
           print_line ("Error fetching data: Status code "
                       +:+ pretty (status_code response)) w)
        else
          match json response with
          | Raises e => (Raises e, w)
          | Returns data =>
              match p_links data with
              | None => (Raises (KeyError "links"), w)
              | Some next =>
                  get_paginated_results_loop auth rest next
                    (results ++ p_data data) w
              end
          end
    end
  else (Returns results, set_incoming pending w).

Definition get_paginated_results (url : string) (auth : value * value)
    : io (list resource) :=
  fun w => get_paginated_results_loop auth (incoming w) (Some url) [] w.

(** ** clear team-position (lines 409-448) *)

(** [requests.delete(url, auth=auth)]. *)
Definition requests_delete (url : string) (auth : value * value) : io response :=
  fun w =>
  let rq := {| rq_method := DELETE; rq_url := url;
               rq_auth := auth; rq_params := [] |} in
  match incoming w with
  | [] => (Raises ConnectionError, log_request rq w)
  | response :: rest => (Returns response, log_request rq (set_incoming rest w))
  end.

(** How an f-string shows an option that was not given. *)
Definition show_name (name : option string) : string := default "None" name.

(** [v == name] for an option value that may be [None]. *)
Definition eq_name (v : value) (name : option string) : bool :=
  match name with
  | Some s => eq_str v s
  | None => match v with VNone => true | _ => false end
  end.

(** [next((r["id"] for r in rs if r["attributes"]["name"] == name), None)]. *)
Fixpoint first_id_named (rs : list resource) (name : option string)
    : outcome (option string) :=
  match rs with
  | [] => Returns None
  | r :: rest =>
      n ← dict_item (r_attributes r) "name";
      if eq_name n name then Returns (Some (r_id r))
      else first_id_named rest name
  end.

Definition lift {A : Type} (o : outcome A) : io A := fun w => (o, w).

Definition base_url : string := "https://api.planningcenteronline.com/services/v2".

Definition success_message (assignment_id : string)
    (team_position_name : option string) (service_type_name : string) : string :=
  "Successfully removed assignment " +:+ assignment_id +:+ " from "
    +:+ show_name team_position_name +:+ " in " +:+ service_type_name.

Definition failure_message (assignment_id : string) (status : Z) : string :=
  "Failed to remove assignment " +:+ assignment_id +:+ ". Status code: "
    +:+ pretty status.

Definition summary_message (team_position_name : option string)
    (service_type_name : string) : string :=
  "All assignments have been removed from " +:+ show_name team_position_name
    +:+ " in " +:+ service_type_name +:+ ".".

(** Step 4, [for assignment in assignments] (lines 438-446). *)
Fixpoint remove_assignments (auth : value * value)
    (service_type_id team_position_id : string)
    (team_position_name : option string) (service_type_name : string)
    (assignments : list resource) : io unit :=
  match assignments with
  | [] => mret tt
  | assignment :: rest =>
      let assignment_id := r_id assignment in
      let delete_url :=
        base_url +:+ "/service_types/" +:+ service_type_id
          +:+ "/team_positions/" +:+ team_position_id
          +:+ "/person_team_position_assignments/" +:+ assignment_id in
      delete_response ← requests_delete delete_url auth;
      (if status_code delete_response =? 204 then
         print (success_message assignment_id team_position_name service_type_name)
       else
         print (failure_message assignment_id (status_code delete_response)));;
      remove_assignments auth service_type_id team_position_id
        team_position_name service_type_name rest
  end.

Definition team_position (config : string) (service_type_name : string)
    (team_position_name : option string) : io unit :=
  '(client_id, client_secret) ← load_authentication config;
  let auth := (client_id, client_secret) in
  let service_types_url := base_url +:+ "/service_types" in
  service_types ← get_paginated_results service_types_url auth;
  service_type_id ← lift (first_id_named service_types (Some service_type_name));
  match service_type_id with
  | None | Some "" =>
      print ("Service type '" +:+ service_type_name +:+ "' not found.")
  | Some service_type_id =>
      let team_positions_url :=
        base_url +:+ "/service_types/" +:+ service_type_id +:+ "/team_positions" in
      team_positions ← get_paginated_results team_positions_url auth;
      team_position_id ← lift (first_id_named team_positions team_position_name);
      match team_position_id with
      | None | Some "" =>
          print ("Team position '" +:+ show_name team_position_name
                 +:+ "' not found in service type '" +:+ service_type_name +:+ "'.")
      | Some team_position_id =>
          let assignments_url :=
            base_url +:+ "/service_types/" +:+ service_type_id
              +:+ "/team_positions/" +:+ team_position_id
              +:+ "/person_team_position_assignments" in
          assignments ← get_paginated_results assignments_url auth;
          remove_assignments auth service_type_id team_position_id
            team_position_name service_type_name assignments;;
          print (summary_message team_position_name service_type_name)
      end
  end.

(** ** init (lines 262-291) *)

(** [os.path.expanduser("~/.planningcenter_toolkit/pat.yaml")] for a
    user whose home directory is [home]. *)
Definition DEFAULT_CONFIG_PATH (home : string) : string :=
  home +:+ "/.planningcenter_toolkit/pat.yaml".

(** Calling a Python function declared with [arity] positional
    parameters: any other number of arguments is a [TypeError] and the
    body does not run. *)
Definition call {A : Type} (name : string) (arity : nat)
    (fn_body : list value → io A) (args : list value) : io A :=
  if bool_decide (length args = arity) then fn_body args
  else raise (TypeError
    (name +:+ "() takes " +:+ pretty (Z.of_nat arity)
       +:+ " positional arguments but " +:+ pretty (Z.of_nat (length args))
       +:+ (if bool_decide (length args = 1%nat) then " was given" else " were given"))).

(** [def create_default_config():] (lines 262-279), declared without
    parameters.  The file system is a map from paths to documents, so
    [os.makedirs] has nothing to do here. *)
Definition create_default_config (home : string) : list value → io unit :=
  call "create_default_config" 0 (fun _ =>
    let default_config : gmap string value :=
      list_to_map [("client_id", VStr "your_client_id_here");
                   ("client_secret", VStr "your_client_secret_here")] in
    (fun w => (Returns tt,
               write_file (DEFAULT_CONFIG_PATH home) (YamlMapping default_config) w));;
    print ("Default configuration created at " +:+ DEFAULT_CONFIG_PATH home
           +:+ ". Please update it with your credentials.")).

(** [def init(config): create_default_config(config)] (lines 287-291). *)
Definition init (home : string) (config : string) : io unit :=
  create_default_config home [VStr config].

(** ** The mutable part of a person record, as a pure value

    The relationship loops write eleven keys of [person_info].  [view]
    holds what those keys contain, [view_step] is what one resolved
    record does to them, and [observes] ties a dictionary to a view. *)

Record view := {
  v_count : Z;
  v_home : address_fields;
  v_work : address_fields;
  v_phones : list value;
  v_emails : list value
}.

Definition initial_view : view :=
  {| v_count := 0; v_home := no_fields; v_work := no_fields;
     v_phones := []; v_emails := [] |}.

Definition observes (person_info : gmap string value) (v : view) : Prop :=
  person_info !! "household_count" = Some (VInt (v_count v))
  ∧ person_info !! "phone_numbers" = Some (VList (v_phones v))
  ∧ person_info !! "emails" = Some (VList (v_emails v))
  ∧ home_fields person_info = v_home v
  ∧ work_fields person_info = v_work v.

Definition view_step (rel_type : string) (rec : resource) (v : view) : view :=
  if String.eqb rel_type "phone_numbers" then
    {| v_count := v_count v; v_home := v_home v; v_work := v_work v;
       v_phones := v_phones v ++ [dict_get (r_attributes rec) "number"];
       v_emails := v_emails v |}
  else if String.eqb rel_type "emails" then
    {| v_count := v_count v; v_home := v_home v; v_work := v_work v;
       v_phones := v_phones v;
       v_emails := v_emails v ++ [dict_get (r_attributes rec) "address"] |}
  else if String.eqb rel_type "addresses" then
    if located "Home" rec then
      {| v_count := v_count v; v_home := fields_of rec; v_work := v_work v;
         v_phones := v_phones v; v_emails := v_emails v |}
    else if located "Work" rec then
      {| v_count := v_count v; v_home := v_home v; v_work := fields_of rec;
         v_phones := v_phones v; v_emails := v_emails v |}
    else v
  else if String.eqb rel_type "households" then
    if is_household rec then
      {| v_count := v_count v + member_count_of rec; v_home := v_home v;
         v_work := v_work v; v_phones := v_phones v; v_emails := v_emails v |}
    else v
  else v.

Definition ref_ok (included_data : gmap string resource) (rel_type : string)
    (r : ref) : bool :=
  match included_data !! ref_id r with
  | Some rec => resolved_ok rel_type rec
  | None => true
  end.

Definition ref_view (included_data : gmap string resource) (rel_type : string)
    (r : ref) (v : view) : view :=
  match included_data !! ref_id r with
  | Some rec => view_step rel_type rec v
  | None => v
  end.

Definition rel_view (included_data : gmap string resource)
    (rel : string * list ref) (v : view) : view :=
  foldl (flip (view_step (fst rel))) v (resolve included_data (snd rel)).

(** ** Reading the outcome of a run *)

Definition returned {A : Type} (o : outcome A) : bool :=
  match o with
  | Returns _ => true
  | Raises _ => false
  end.

Definition result_or {A : Type} (dflt : A) (o : outcome A) : A :=
  match o with
  | Returns a => a
  | Raises _ => dflt
  end.

(** ** Sample documents *)

Definition sample_resource (id type : string) (attrs : list (string * value))
    (rels : list (string * list ref)) : resource :=
  {| r_id := id; r_type := type; r_attributes := list_to_map attrs;
     r_relationships := rels |}.

Definition pointer (id type : string) : ref := {| ref_id := id; ref_type := type |}.

Definition sample_included : list resource := [
  sample_resource "h1" "Household" [("member_count", VInt 3)] [];
  sample_resource "h2" "Household" [("member_count", VInt 4)] [];
  sample_resource "h3" "Household" [("name", VStr "Doe")] [];
  sample_resource "c1" "Campus" [("member_count", VInt 50)] [];
  sample_resource "p1" "PhoneNumber" [("number", VStr "555-0100")] [];
  sample_resource "p2" "PhoneNumber" [("number", VStr "555-0199")] [];
  sample_resource "e1" "Email" [("address", VStr "ann@example.org")] [];
  sample_resource "a1" "Address"
    [("location", VStr "Home"); ("street", VStr "1 Main St");
     ("city", VStr "Springfield"); ("state", VStr "IL"); ("zip", VStr "62701")] [];
  sample_resource "a2" "Address"
    [("location", VStr "Work"); ("street", VStr "9 Office Rd");
     ("city", VStr "Peoria"); ("state", VStr "IL"); ("zip", VStr "61602")] [];
  sample_resource "a3" "Address"
    [("location", VStr "Home"); ("street", VStr "2 Oak Ave");
     ("zip", VStr "62702")] [];
  sample_resource "a4" "Address"
    [("location", VStr "home"); ("street", VStr "lower case")] []
].

Definition sample_person : resource :=
  sample_resource "1" "Person" [("first_name", VStr "Ann")] [
    ("households", [pointer "h1" "Household"; pointer "gone" "Household";
                    pointer "c1" "Household"; pointer "h2" "Household";
                    pointer "h3" "Household"]);
    ("primary_campus", []);
    ("phone_numbers", [pointer "p2" "PhoneNumber"; pointer "missing" "PhoneNumber";
                       pointer "p1" "PhoneNumber"]);
    ("emails", [pointer "nowhere" "Email"; pointer "e1" "Email"]);
    ("addresses", [pointer "a1" "Address"; pointer "a2" "Address";
                   pointer "a3" "Address"; pointer "a4" "Address"])
  ].

(** ** Following next links *)

(** A successful response carrying [data]. *)
Definition ok_response (data : page) : response :=
  {| status_code := 200; body := Some data |}.

(** The page links to a further page. *)
Definition has_next (data : page) : bool := url_truthy (people_next data).

Definition get_request (auth : value * value) (params : list (string * value))
    (url : string) : request :=
  {| rq_method := GET; rq_url := url; rq_auth := auth; rq_params := params |}.

(** The URLs requested while [pages] are read one after the other,
    starting at [url]; and the URL that the last of them links to. *)
Fixpoint followed_urls (url : option string) (pages : list page) : list string :=
  match pages with
  | [] => []
  | data :: rest => url_text url :: followed_urls (people_next data) rest
  end.

Fixpoint final_url (url : option string) (pages : list page) : option string :=
  match pages with
  | [] => url
  | data :: rest => final_url (people_next data) rest
  end.

(** The world after [rqs] were sent and [pending] is what remains to
    be received. *)
Definition advance (rqs : list request) (pending : list response) (w : world)
    : world :=
  {| incoming := pending; sent := sent w ++ rqs;
     stdout := stdout w; files := files w |}.

(** ** fetch_people: the records returned *)

(** The people of a page, each with the included set it is flattened
    against: that of its own page. *)
Definition page_people (data : page) : list (resource * list resource) :=
  map (fun person => (person, p_included data)) (p_data data).

(** The people of several pages, in page order. *)
Definition all_people (pages : list page) : list (resource * list resource) :=
  concat (map page_people pages).

(** Flattening one person after the other; the first exception ends it. *)
Fixpoint flatten_list (people : list (resource * list resource))
    : outcome (list (gmap string value)) :=
  match people with
  | [] => Returns []
  | (person, included) :: rest =>
      person_info ← flatten_person person included;
      infos ← flatten_list rest;
      Returns (person_info :: infos)
  end.

(** How many more records fit under the limit when [have] are there. *)
Definition room (limit : Z) (have : nat) : nat :=
  Z.to_nat (limit - Z.of_nat have).

(** The response is not an HTTP error and its body is [data]. *)
Definition served (r : response) (data : page) : Prop :=
  raise_for_status r = Returns tt ∧ body r = Some data.

(** Every page but the last leaves the count under the limit and links
    to a further page; [have] records were there before the first. *)
Fixpoint keeps_going (limit : Z) (have : nat) (pages : list page) : bool :=
  match pages with
  | [] => true
  | data :: rest =>
      match rest with
      | [] => true
      | _ :: _ =>
          (Z.of_nat (have + length (p_data data)) <? limit)
          && has_next data
          && keeps_going limit (have + length (p_data data)) rest
      end
  end.

(** After the last page the limit is reached or there is no next link. *)
Definition stops_after (limit : Z) (have : nat) (pages : list page) : Prop :=
  ∃ data, last pages = Some data
    ∧ (limit ≤ Z.of_nat (have + length (all_people pages))
       ∨ has_next data = false).

Definition people_url : string :=
  "https://api.planningcenteronline.com/people/v2/people".

Definition sample_person_numbered (id : string) : resource :=
  {| r_id := id; r_type := "Person";
     r_attributes := r_attributes sample_person;
     r_relationships := r_relationships sample_person |}.

Definition sample_page (ids : list string) (next : option string) : page :=
  {| p_data := map sample_person_numbered ids;
     p_included := sample_included;
     p_links := Some next |}.

(** Three pages of two, two and one people. *)
Definition sample_world : world :=
  {| incoming := [
       ok_response (sample_page ["1"; "2"] (Some "https://example.org/page2"));
       ok_response (sample_page ["3"; "4"] (Some "https://example.org/page3"));
       ok_response (sample_page ["5"] None)
     ];
     sent := []; stdout := [];
     files := {[ "pat.yaml" := YamlMapping
                   (list_to_map [("client_id", VStr "app");
                                 ("client_secret", VStr "secret")]) ]} |}.

(** ** HTTP failures on the two read paths *)

Definition diagnostic (status : Z) : string :=
  "Error fetching data: Status code " +:+ pretty status.

(** ** Clearing a team position: step 4 *)

Definition delete_request (auth : value * value)
    (service_type_id team_position_id : string) (assignment : resource)
    : request :=
  {| rq_method := DELETE;
     rq_url := base_url +:+ "/service_types/" +:+ service_type_id
       +:+ "/team_positions/" +:+ team_position_id
       +:+ "/person_team_position_assignments/" +:+ r_id assignment;
     rq_auth := auth; rq_params := [] |}.

(** The line printed for one assignment and the response to its delete. *)
Definition removal_line (team_position_name : option string)
    (service_type_name : string) (assignment : resource) (r : response)
    : string :=
  if status_code r =? 204 then
    success_message (r_id assignment) team_position_name service_type_name
  else failure_message (r_id assignment) (status_code r).

Definition is_success_line (line : string) : bool :=
  String.prefix "Successfully removed assignment " line.

Definition is_failure_line (line : string) : bool :=
  String.prefix "Failed to remove assignment " line.

Definition count_lines (p : string → bool) (lines : list string) : nat :=
  length (filter (fun line => p line = true) lines).

(** The assignments url of step 3. *)
Definition assignments_url (service_type_id team_position_id : string) : string :=
  base_url +:+ "/service_types/" +:+ service_type_id
    +:+ "/team_positions/" +:+ team_position_id
    +:+ "/person_team_position_assignments".

Definition named (id type name : string) : resource :=
  sample_resource id type [("name", VStr name)] [].

Definition listing (records : list resource) : response :=
  ok_response {| p_data := records; p_included := []; p_links := Some None |}.

Definition sample_deletes : list response := [
  {| status_code := 204; body := None |};
  {| status_code := 404; body := None |};
  {| status_code := 204; body := None |}
].

(** One page of service types, one of team positions, one of three
    assignments, and the answers to three deletes. *)
Definition clearing_world : world :=
  set_incoming
    ([listing [named "3" "ServiceType" "Youth Service";
               named "7" "ServiceType" "English Worship Service"];
      listing [named "31" "TeamPosition" "Drums"];
      listing [sample_resource "a" "PersonTeamPositionAssignment" [] [];
               sample_resource "b" "PersonTeamPositionAssignment" [] [];
               sample_resource "c" "PersonTeamPositionAssignment" [] []]]
     ++ sample_deletes)
    sample_world.

(** ** Credentials *)

Definition config_invalid : exn :=
  ValueError "The YAML file must contain both 'client_id' and 'client_secret'.".


(** ** fetch_teams: a listing of two pages *)

Definition teams_url : string :=
  "https://api.planningcenteronline.com/services/v2/teams".

(** A teams listing of two pages: the first links to the second. *)
Definition teams_world : world :=
  set_incoming
    [ok_response {| p_data := [named "1" "Team" "Band"; named "2" "Team" "Ushers"];
                    p_included := [];
                    p_links := Some (Some "https://example.org/teams?offset=2") |};
     ok_response {| p_data := [named "3" "Team" "Sound"];
                    p_included := []; p_links := Some None |}]
    sample_world.

(** ** A page whose only person cannot be flattened *)

(** The phone record that the person points to has no "number". *)
Definition broken_page : page :=
  {| p_data := [sample_resource "9" "Person" []
                  [("phone_numbers", [pointer "p9" "PhoneNumber"])]];
     p_included := [sample_resource "p9" "PhoneNumber" [] []];
     p_links := Some None |}.

(** ** What flattening asks of the included records *)

(** The record can stand where a pointer of relationship [rel_type]
    resolves to it: it has the attribute that the code indexes without
    a default, and the "member_count" of a household, when present, is
    a number. *)
Definition record_fits (rel_type : string) (rec : resource) : Prop :=
  (rel_type = "phone_numbers" → is_Some (r_attributes rec !! "number"))
  ∧ (rel_type = "emails" → is_Some (r_attributes rec !! "address"))
  ∧ (rel_type = "addresses" → is_Some (r_attributes rec !! "location"))
  ∧ (rel_type = "households" → r_type rec = "Household" →
     match r_attributes rec !! "member_count" with
     | None | Some (VInt _) | Some (VBool _) => True
     | Some _ => False
     end).

(** ** The keys of a person record *)

(** The 31 keys of the dictionary literal of lines 54-89, in its order. *)
Definition person_info_keys : list string := [
  "id"; "first_name"; "last_name"; "nickname"; "birthday"; "anniversary";
  "gender"; "marital_status"; "child"; "avatar"; "status"; "inactivated_at";
  "inactive_reason"; "membership"; "created_at"; "updated_at";
  "graduation_year"; "medical_notes"; "school_type"; "login_identifier";
  "household_count"; "home_street"; "home_city"; "home_state"; "home_zip";
  "work_street"; "work_city"; "work_state"; "work_zip";
  "phone_numbers"; "emails"
].

(** The keys (left) that are read from an attribute (right) of the
    person with [.get]; "birthday" is read from "birthdate". *)
Definition copied_attributes : list (string * string) := [
  ("first_name", "first_name"); ("last_name", "last_name");
  ("nickname", "nickname"); ("birthday", "birthdate");
  ("anniversary", "anniversary"); ("gender", "gender");
  ("marital_status", "marital_status"); ("child", "child");
  ("avatar", "avatar"); ("status", "status");
  ("inactivated_at", "inactivated_at"); ("inactive_reason", "inactive_reason");
  ("membership", "membership"); ("created_at", "created_at");
  ("updated_at", "updated_at"); ("graduation_year", "graduation_year");
  ("medical_notes", "medical_notes"); ("school_type", "school_type");
  ("login_identifier", "login_identifier")
].

(** The keys that the relationship loops assign (lines 93-128). *)
Definition written_keys : list string := [
  "household_count"; "home_street"; "home_city"; "home_state"; "home_zip";
  "work_street"; "work_city"; "work_state"; "work_zip";
  "phone_numbers"; "emails"
].

(** The loops have kept the keys of [base] and the values of the keys
    they do not assign. *)
Definition keeps_frame (base person_info : gmap string value) : Prop :=
  dom person_info = dom base
  ∧ ∀ k, k ∉ written_keys → person_info !! k = base !! k.

(** ** What flattening reads of a person *)

(** The four relationship names that lines 94-128 act on. *)
Definition known_relationship (rel_type : string) : bool :=
  String.eqb rel_type "phone_numbers" || String.eqb rel_type "emails"
  || String.eqb rel_type "addresses" || String.eqb rel_type "households".

Definition with_relationships (person : resource)
    (rels : list (string * list ref)) : resource :=
  {| r_id := r_id person; r_type := r_type person;
     r_attributes := r_attributes person; r_relationships := rels |}.

(** The pointer without its declared type. *)
Definition untyped (r : ref) : ref := {| ref_id := ref_id r; ref_type := "" |}.

(** The person without its declared type and the declared types of its
    pointers. *)
Definition without_types (person : resource) : resource :=
  {| r_id := r_id person; r_type := "";
     r_attributes := r_attributes person;
     r_relationships :=
       map (fun rel => (fst rel, map untyped (snd rel))) (r_relationships person) |}.

(** ** What fetch_teams returns *)

(** The dictionary built for a team that has a name (line 305). *)
Definition team_record (team : resource) : gmap string value :=
  list_to_map [
    ("id", VStr (r_id team));
    ("name", dict_get (r_attributes team) "name");
    ("positions", dict_get_default (r_attributes team) "positions" (VList []))
  ].

(** The teams of a page that [[:limit]] keeps: the first [limit] of
    them, or, for a negative limit, all but the last [-limit]. *)
Definition teams_kept (limit : Z) (teams : list resource) : list resource :=
  if 0 <=? limit then take (Z.to_nat limit) teams
  else take (length teams - Z.to_nat (- limit)) teams.

(** ** Looking a name up *)

(** The record has a name and it is not the one looked for. *)
Definition named_otherwise (name : option string) (r : resource) : Prop :=
  ∃ n, r_attributes r !! "name" = Some n ∧ eq_name n name = false.

(** ** The people command (lines 169-260) *)

(** Texts that Python and its libraries produce and that are left open
    here: [str(e)] of an exception that the program did not raise
    itself, [str(l)] of a list, and [sep.join(s)] of a string [s],
    which joins its characters. *)
Record rendering := {
  exn_text : exn → string;
  list_text : list value → string;
  chars_joined : string → string → string
}.

(** [type(v).__name__]. *)
Definition type_name (v : value) : string :=
  match v with
  | VNone => "NoneType"
  | VBool _ => "bool"
  | VInt _ => "int"
  | VStr _ => "str"
  | VList _ => "list"
  end.

(** [str(v)]. *)
Definition str_value (texts : rendering) (v : value) : string :=
  match v with
  | VNone => "None"
  | VBool true => "True"
  | VBool false => "False"
  | VInt z => pretty z
  | VStr s => s
  | VList items => list_text texts items
  end.

(** [str(e)]: an exception raised with a message, as the two of
    [load_authentication] are, shows that message. *)
Definition str_exn (texts : rendering) (e : exn) : string :=
  match e with
  | FileNotFoundError msg => msg
  | ValueError msg => msg
  | _ => exn_text texts e
  end.

(** [sep.join(items)] on strings. *)
Fixpoint join_strings (sep : string) (items : list string) : string :=
  match items with
  | [] => ""
  | s :: rest =>
      match rest with
      | [] => s
      | _ :: _ => s +:+ sep +:+ join_strings sep rest
      end
  end.

(** The check of [str.join] on the items of a list, from item [i] on:
    a [TypeError] at the first item that is not a string. *)
Fixpoint all_strings (i : Z) (items : list value) : outcome (list string) :=
  match items with
  | [] => Returns []
  | VStr s :: rest => rest' ← all_strings (i + 1) rest; Returns (s :: rest')
  | v :: _ =>
      Raises (TypeError ("sequence item " +:+ pretty i
                         +:+ ": expected str instance, " +:+ type_name v
                         +:+ " found"))
  end.

(** [sep.join(v)]. *)
Definition str_join (texts : rendering) (sep : string) (v : value)
    : outcome string :=
  match v with
  | VList items => cells ← all_strings 0 items; Returns (join_strings sep cells)
  | VStr s => Returns (chars_joined texts sep s)
  | _ => Raises (TypeError "can only join an iterable")
  end.

(** The separator ["\t"]. *)
Definition tab : string := String (Ascii.ascii_of_nat 9) "".

Definition headers : list string :=
  ["ID";
   "First Name";
   "Last Name";
   "Nickname";
   "Birthday";
   "Anniversary";
   "Gender";
   "Marital Status";
   "Child";
   "Avatar URL";
   "Status";
   "Inactivated At";
   "Inactive Reason";
   "Membership";
   "Created At";
   "Updated At";
   "Household Count";
   "Home Street";
   "Home City";
   "Home State";
   "Home Zip";
   "Work Street";
   "Work City";
   "Work State";
   "Work Zip";
   "Phone Numbers";
   "Emails"].

(** [person[key] or ""]. *)
Definition item_or_empty (person : gmap string value) (key : string)
    : outcome value :=
  v ← dict_item person key;
  Returns (if truthy v then v else VStr "").

(** [str(person[key]) if person[key] is not None else ""]. *)
Definition str_unless_none (texts : rendering) (person : gmap string value)
    (key : string) : outcome value :=
  v ← dict_item person key;
  Returns (VStr (match v with VNone => "" | _ => str_value texts v end)).

(** [str(person[key])]. *)
Definition str_item (texts : rendering) (person : gmap string value)
    (key : string) : outcome value :=
  v ← dict_item person key;
  Returns (VStr (str_value texts v)).

(** [", ".join(person[key])]. *)
Definition joined_item (texts : rendering) (person : gmap string value)
    (key : string) : outcome value :=
  v ← dict_item person key;
  joined ← str_join texts ", " v;
  Returns (VStr joined).

(** The elements of the list literal [row] (lines 220-250), each yet to
    be evaluated. *)
Definition row (texts : rendering) (person : gmap string value)
    : list (outcome value) :=
  [dict_item person "id";
   item_or_empty person "first_name";
   item_or_empty person "last_name";
   item_or_empty person "nickname";
   item_or_empty person "birthday";
   item_or_empty person "anniversary";
   item_or_empty person "gender";
   item_or_empty person "marital_status";
   str_unless_none texts person "child";
   item_or_empty person "avatar";
   item_or_empty person "status";
   item_or_empty person "inactivated_at";
   item_or_empty person "inactive_reason";
   item_or_empty person "membership";
   item_or_empty person "created_at";
   item_or_empty person "updated_at";
   str_item texts person "household_count";
   item_or_empty person "home_street";
   item_or_empty person "home_city";
   item_or_empty person "home_state";
   item_or_empty person "home_zip";
   item_or_empty person "work_street";
   item_or_empty person "work_city";
   item_or_empty person "work_state";
   item_or_empty person "work_zip";
   joined_item texts person "phone_numbers";
   joined_item texts person "emails"].

(** A list literal evaluates its elements from left to right and stops
    at the first that raises. *)
Fixpoint evaluate {A : Type} (elements : list (outcome A)) : outcome (list A) :=
  match elements with
  | [] => Returns []
  | element :: rest =>
      a ← element; others ← evaluate rest; Returns (a :: others)
  end.

(** ["\t".join(row)] for one person (lines 220-251): the line that is
    printed. *)
Definition row_line (texts : rendering) (person : gmap string value)
    : outcome string :=
  cells ← evaluate (row texts person);
  cells ← all_strings 0 cells;
  Returns (join_strings tab cells).

(** [for person in people: ... print("\t".join(row))] (lines 219-251). *)
Fixpoint print_rows (texts : rendering) (people : list (gmap string value))
    : io unit :=
  match people with
  | [] => mret tt
  | person :: rest =>
      line ← lift (row_line texts person);
      print line;;
      print_rows texts rest
  end.

(** The [except] clauses of lines 253-260, tried in order.  What
    [response.json()] raises on a body that is not JSON is a
    [ValueError] too, so the second clause takes it. *)
Definition people_error (texts : rendering) (config : string) (e : exn)
    : string :=
  match e with
  | FileNotFoundError _ =>
      "Error: " +:+ str_exn texts e
        +:+ ". Please ensure the configuration file exists at " +:+ config +:+ "."
  | ValueError _ | JSONDecodeError =>
      "Error: " +:+ str_exn texts e
        +:+ ". Please ensure the configuration file contains valid credentials."
  | HTTPError _ | ConnectionError =>
      "Error fetching data from Planning Center API: " +:+ str_exn texts e
  | _ => "An unexpected error occurred: " +:+ str_exn texts e
  end.

(** [try: m except ... as e: handler(e)]. *)
Definition try_except {A : Type} (m : io A) (handler : exn → io A) : io A :=
  fun w =>
  match m w with
  | (Returns a, w') => (Returns a, w')
  | (Raises e, w') => handler e w'
  end.

(** [def people(limit, config)] (lines 169-260). *)
Definition people (texts : rendering) (limit : Z) (config : string) : io unit :=
  try_except
    ('(client_id, client_secret) ← load_authentication config;
     people ← fetch_people client_id client_secret limit;
     print (join_strings tab headers);;
     print_rows texts people)
    (fun e => print (people_error texts config e)).

(** ** What the people command prints *)

(** The world in which [lines] were printed after those of [w]. *)
Definition printed (lines : list string) (w : world) : world :=
  {| incoming := incoming w; sent := sent w;
     stdout := stdout w ++ lines; files := files w |}.

(** The line of each person of the list is the line beside it. *)
Definition row_lines (texts : rendering) (people : list (gmap string value))
    (lines : list string) : Prop :=
  Forall2 (fun person line => row_line texts person = Returns line) people lines.

Definition is_text (v : value) : bool :=
  match v with
  | VStr _ => true
  | _ => false
  end.

(** A string, or a falsy value, which [or ""] replaces by a string. *)
Definition text_or_falsy (v : value) : bool := is_text v || negb (truthy v).

(** The keys that a row shows as [person[key] or ""]. *)
Definition keys_shown_or_empty : list string := [
  "first_name"; "last_name"; "nickname"; "birthday"; "anniversary"; "gender";
  "marital_status"; "avatar"; "status"; "inactivated_at"; "inactive_reason";
  "membership"; "created_at"; "updated_at";
  "home_street"; "home_city"; "home_state"; "home_zip";
  "work_street"; "work_city"; "work_state"; "work_zip"
].

(** The keys of a person record that no element of a row reads. *)
Definition keys_not_shown : list string :=
  ["graduation_year"; "medical_notes"; "school_type"; "login_identifier"].

Definition sample_texts : rendering :=
  {| exn_text := fun _ => "error";
     list_text := fun _ => "[...]";
     chars_joined := fun _ s => s |}.

(** The first response is not JSON. *)
Definition unreadable_world : world :=
  {| incoming := [{| status_code := 200; body := None |}];
     sent := []; stdout := []; files := files sample_world |}.

(** A person whose first name is a number. *)
Definition numbered_name : resource :=
  sample_resource "7" "Person" [("first_name", VInt 7)] [].

(** A page of three people, the second of which has no printable row. *)
Definition mixed_world : world :=
  {| incoming := [ok_response
       {| p_data := [sample_person; numbered_name; sample_person];
          p_included := sample_included; p_links := Some None |}];
     sent := []; stdout := []; files := files sample_world |}.

(** * Properties *)

(** ** Loops and their pure counterparts *)

Section simulation.
Context {A S T : Type}.
Variable R : S → T → Prop.
Variable ok : A → bool.
Variable f : A → T → T.
Variable body : A → S → outcome S.

Hypothesis body_sim : ∀ x s t, R s t →
  match body x s with
  | Returns s' => ok x = true ∧ R s' (f x t)
  | Raises _ => ok x = false
  end.

Lemma for_each_sim xs : ∀ s t, R s t →
  match for_each xs body s with
  | Returns s' => forallb ok xs = true ∧ R s' (foldl (flip f) t xs)
  | Raises _ => forallb ok xs = false
  end.
Proof.
  induction xs as [|x rest IH]; intros s t HR; simpl.
  - done.
  - specialize (body_sim x s t HR).
    destruct (body x s) as [s'|e]; simpl.
    + destruct body_sim as [-> HR']. simpl. by apply IH.
    + by rewrite body_sim.
Qed.
End simulation.

Lemma forallb_resolve included_data rel_type refs :
  forallb (ref_ok included_data rel_type) refs
  = forallb (resolved_ok rel_type) (resolve included_data refs).
Proof.
  induction refs as [|r refs IH]; simpl; [done|].
  unfold ref_ok at 1. destruct (included_data !! ref_id r); simpl; by rewrite IH.
Qed.

Lemma foldl_resolve included_data rel_type refs : ∀ v,
  foldl (flip (ref_view included_data rel_type)) v refs
  = foldl (flip (view_step rel_type)) v (resolve included_data refs).
Proof.
  induction refs as [|r refs IH]; intros v; simpl; [done|].
  unfold flip at 2, ref_view at 2.
  destruct (included_data !! ref_id r); simpl; by rewrite IH.
Qed.

Ltac lookup_keys :=
  repeat (rewrite lookup_insert_eq
          || rewrite lookup_insert_ne by discriminate).

Ltac observe_keys :=
  unfold observes, home_fields, work_fields, fields_of, dict_get in *; simpl;
  lookup_keys; simpl; repeat split; try done.

Lemma phone_step_sim included_data phone_id person_info v :
  observes person_info v →
  match phone_step included_data phone_id person_info with
  | Returns info' =>
      ref_ok included_data "phone_numbers" phone_id = true
      ∧ observes info' (ref_view included_data "phone_numbers" phone_id v)
  | Raises _ => ref_ok included_data "phone_numbers" phone_id = false
  end.
Proof.
  intros Hobs. unfold phone_step, ref_ok, ref_view.
  destruct (included_data !! ref_id phone_id) as [phone|]; [|done].
  unfold resolved_ok, view_step, dict_item, dict_append. simpl.
  destruct (r_attributes phone !! "number") as [number|] eqn:Hn; simpl; [|done].
  destruct Hobs as (Hc & Hp & He & Hh & Hw). rewrite Hp.
  split; [done|].
  unfold dict_get. rewrite Hn. simpl.
  observe_keys.
Qed.

Lemma email_step_sim included_data email_id person_info v :
  observes person_info v →
  match email_step included_data email_id person_info with
  | Returns info' =>
      ref_ok included_data "emails" email_id = true
      ∧ observes info' (ref_view included_data "emails" email_id v)
  | Raises _ => ref_ok included_data "emails" email_id = false
  end.
Proof.
  intros Hobs. unfold email_step, ref_ok, ref_view.
  destruct (included_data !! ref_id email_id) as [email|]; [|done].
  unfold resolved_ok, view_step, dict_item, dict_append. simpl.
  destruct (r_attributes email !! "address") as [address|] eqn:Hn; simpl; [|done].
  destruct Hobs as (Hc & Hp & He & Hh & Hw). rewrite He.
  split; [done|].
  unfold dict_get. rewrite Hn. simpl.
  observe_keys.
Qed.

Lemma located_home_not_work address :
  located "Home" address = true → located "Work" address = false.
Proof.
  unfold located, eq_str.
  destruct (dict_get (r_attributes address) "location"); try done.
  intros ->%String.eqb_eq. done.
Qed.

Lemma address_step_sim included_data address_id person_info v :
  observes person_info v →
  match address_step included_data address_id person_info with
  | Returns info' =>
      ref_ok included_data "addresses" address_id = true
      ∧ observes info' (ref_view included_data "addresses" address_id v)
  | Raises _ => ref_ok included_data "addresses" address_id = false
  end.
Proof.
  intros Hobs. unfold address_step, ref_ok, ref_view.
  destruct (included_data !! ref_id address_id) as [address|]; [|done].
  unfold resolved_ok, view_step, dict_item, located. simpl.
  destruct (r_attributes address !! "location") as [loc|] eqn:Hl; simpl; [|done].
  assert (Hg : dict_get (r_attributes address) "location" = loc).
  { unfold dict_get. by rewrite Hl. }
  rewrite Hg.
  destruct (eq_str loc "Home"); [|destruct (eq_str loc "Work")];
    (split; [done|]); [| |done].
  - destruct Hobs as (Hc & Hp & He & Hh & Hw). observe_keys.
  - destruct Hobs as (Hc & Hp & He & Hh & Hw). observe_keys.
Qed.

Lemma household_step_sim included_data household person_info v :
  observes person_info v →
  match household_step included_data household person_info with
  | Returns info' =>
      ref_ok included_data "households" household = true
      ∧ observes info' (ref_view included_data "households" household v)
  | Raises _ => ref_ok included_data "households" household = false
  end.
Proof.
  intros Hobs. unfold household_step, ref_ok, ref_view. simpl.
  destruct (included_data !! ref_id household) as [household_data|]; [|done].
  unfold resolved_ok, view_step, is_household, member_count_of. simpl.
  destruct (String.eqb (r_type household_data) "Household"); [|done].
  destruct Hobs as (Hc & Hp & He & Hh & Hw). rewrite Hc.
  destruct (dict_get_default (r_attributes household_data) "member_count" (VInt 0))
    as [|[]|z|s|items]; simpl; try done;
    (split; [done|]); observe_keys.
  by rewrite Z.add_0_r.
Qed.

Lemma rel_ok_other included_data rel_type rel_data :
  String.eqb rel_type "phone_numbers" = false →
  String.eqb rel_type "emails" = false →
  String.eqb rel_type "addresses" = false →
  String.eqb rel_type "households" = false →
  rel_ok included_data (rel_type, rel_data) = true
  ∧ ∀ v, rel_view included_data (rel_type, rel_data) v = v.
Proof.
  intros E1 E2 E3 E4. unfold rel_ok, rel_view. simpl.
  induction (resolve included_data rel_data) as [|rec recs [IHok IHv]];
    simpl; [done|].
  rewrite IHok. split.
  - unfold resolved_ok. by rewrite E1, E2, E3, E4.
  - intros v. rewrite IHv. unfold view_step. by rewrite E1, E2, E3, E4.
Qed.

Lemma relationship_step_sim included_data rel person_info v :
  observes person_info v →
  match relationship_step included_data rel person_info with
  | Returns info' =>
      rel_ok included_data rel = true
      ∧ observes info' (rel_view included_data rel v)
  | Raises _ => rel_ok included_data rel = false
  end.
Proof.
  intros Hobs. destruct rel as [rel_type rel_data].
  unfold relationship_step.
  destruct (String.eqb rel_type "phone_numbers") eqn:E1.
  { apply String.eqb_eq in E1 as ->. unfold rel_ok, rel_view. simpl.
    rewrite <- forallb_resolve, <- foldl_resolve.
    by apply (for_each_sim observes _ _ _ (phone_step_sim included_data)). }
  destruct (String.eqb rel_type "emails") eqn:E2.
  { apply String.eqb_eq in E2 as ->. unfold rel_ok, rel_view. simpl.
    rewrite <- forallb_resolve, <- foldl_resolve.
    by apply (for_each_sim observes _ _ _ (email_step_sim included_data)). }
  destruct (String.eqb rel_type "addresses") eqn:E3.
  { apply String.eqb_eq in E3 as ->. unfold rel_ok, rel_view. simpl.
    rewrite <- forallb_resolve, <- foldl_resolve.
    by apply (for_each_sim observes _ _ _ (address_step_sim included_data)). }
  destruct (String.eqb rel_type "households") eqn:E4.
  { apply String.eqb_eq in E4 as ->. unfold rel_ok, rel_view. simpl.
    rewrite <- forallb_resolve, <- foldl_resolve.
    by apply (for_each_sim observes _ _ _ (household_step_sim included_data)). }
  destruct (rel_ok_other included_data rel_type rel_data E1 E2 E3 E4) as [-> ->].
  done.
Qed.

Lemma new_person_info_observed person :
  observes (new_person_info person) initial_view.
Proof. unfold observes, home_fields, work_fields, dict_get. vm_compute. done. Qed.

(** The flattening returns exactly when the person is [flattenable], and
    its result then shows the view that the resolved records build. *)
Lemma flatten_person_sim person included :
  match flatten_person person included with
  | Returns person_info =>
      flattenable person included = true
      ∧ observes person_info
          (foldl (flip (rel_view (included_index included))) initial_view
                 (r_relationships person))
  | Raises _ => flattenable person included = false
  end.
Proof.
  unfold flatten_person, flattenable.
  apply (for_each_sim observes _ _ _
           (relationship_step_sim (included_index included))).
  apply new_person_info_observed.
Qed.

Lemma flatten_person_returns person included :
  flattenable person included = true ↔
  ∃ person_info, flatten_person person included = Returns person_info.
Proof.
  pose proof (flatten_person_sim person included) as H.
  destruct (flatten_person person included) as [info|e].
  - split; [eauto|]. intros _. apply H.
  - split; [congruence|]. intros [info Hinfo]. done.
Qed.

(** ** What the resolved records build *)

Lemma rel_refs_cons rel_type rel_data rels name :
  rel_refs ((rel_type, rel_data) :: rels) name
  = if String.eqb rel_type name then rel_data ++ rel_refs rels name
    else rel_refs rels name.
Proof.
  unfold rel_refs. destruct (String.eqb rel_type name) eqn:E.
  - rewrite filter_cons_True by done. done.
  - rewrite filter_cons_False; [done|]. simpl. congruence.
Qed.

Lemma resolve_app included_data refs1 refs2 :
  resolve included_data (refs1 ++ refs2)
  = resolve included_data refs1 ++ resolve included_data refs2.
Proof. apply omap_app. Qed.

Lemma sum_Z_app zs1 zs2 : sum_Z (zs1 ++ zs2) = sum_Z zs1 + sum_Z zs2.
Proof.
  unfold sum_Z. induction zs1 as [|z zs1 IH]; simpl; [done|]. rewrite IH. lia.
Qed.

Lemma household_total_app included_data refs1 refs2 :
  household_total included_data (refs1 ++ refs2)
  = household_total included_data refs1 + household_total included_data refs2.
Proof.
  unfold household_total.
  by rewrite resolve_app, filter_app, map_app, sum_Z_app.
Qed.

Lemma last_located_app {B} (g : resource → B) (d : B) loc recs1 recs2 :
  from_option g d (last_located loc (recs1 ++ recs2))
  = from_option g (from_option g d (last_located loc recs1))
      (last_located loc recs2).
Proof.
  unfold last_located. rewrite filter_app, last_app.
  by destruct (last (filter _ recs2)).
Qed.

Lemma phones_fold recs : ∀ v,
  foldl (flip (view_step "phone_numbers")) v recs
  = {| v_count := v_count v; v_home := v_home v; v_work := v_work v;
       v_phones := v_phones v ++ attr_values "number" recs;
       v_emails := v_emails v |}.
Proof.
  induction recs as [|rec recs IH]; intros v; simpl.
  - destruct v; simpl. by rewrite app_nil_r.
  - rewrite IH. unfold flip, view_step; simpl. by rewrite <- app_assoc.
Qed.

Lemma emails_fold recs : ∀ v,
  foldl (flip (view_step "emails")) v recs
  = {| v_count := v_count v; v_home := v_home v; v_work := v_work v;
       v_phones := v_phones v;
       v_emails := v_emails v ++ attr_values "address" recs |}.
Proof.
  induction recs as [|rec recs IH]; intros v; simpl.
  - destruct v; simpl. by rewrite app_nil_r.
  - rewrite IH. unfold flip, view_step; simpl. by rewrite <- app_assoc.
Qed.

Lemma households_fold recs : ∀ v,
  foldl (flip (view_step "households")) v recs
  = {| v_count := v_count v
         + sum_Z (map member_count_of
                    (filter (fun rec => is_household rec = true) recs));
       v_home := v_home v; v_work := v_work v;
       v_phones := v_phones v; v_emails := v_emails v |}.
Proof.
  induction recs as [|rec recs IH]; intros v; simpl.
  - destruct v; simpl. by rewrite Z.add_0_r.
  - rewrite IH. unfold flip, view_step; simpl.
    destruct (is_household rec) eqn:E.
    + rewrite filter_cons_True by done. simpl. f_equal. lia.
    + rewrite filter_cons_False; [done|]. congruence.
Qed.

Lemma last_located_cons loc rec recs :
  last_located loc (rec :: recs)
  = match last_located loc recs with
    | Some address => Some address
    | None => if located loc rec then Some rec else None
    end.
Proof.
  unfold last_located. destruct (located loc rec) eqn:E.
  - rewrite filter_cons_True by done. apply last_cons.
  - rewrite filter_cons_False by congruence. by destruct (last _).
Qed.

Lemma addresses_fold recs : ∀ v,
  foldl (flip (view_step "addresses")) v recs
  = {| v_count := v_count v;
       v_home := from_option fields_of (v_home v) (last_located "Home" recs);
       v_work := from_option fields_of (v_work v) (last_located "Work" recs);
       v_phones := v_phones v; v_emails := v_emails v |}.
Proof.
  induction recs as [|rec recs IH]; intros v; simpl.
  - by destruct v.
  - rewrite IH, !last_located_cons. unfold flip, view_step; simpl.
    destruct (located "Home" rec) eqn:EH.
    + rewrite (located_home_not_work _ EH). simpl.
      by destruct (last_located "Home" recs), (last_located "Work" recs).
    + destruct (located "Work" rec) eqn:EW; simpl;
        by destruct (last_located "Home" recs), (last_located "Work" recs).
Qed.

Lemma final_view_spec included_data rels : ∀ v,
  foldl (flip (rel_view included_data)) v rels
  = {| v_count := v_count v
         + household_total included_data (rel_refs rels "households");
       v_home := from_option fields_of (v_home v)
         (last_located "Home" (resolve included_data (rel_refs rels "addresses")));
       v_work := from_option fields_of (v_work v)
         (last_located "Work" (resolve included_data (rel_refs rels "addresses")));
       v_phones := v_phones v
         ++ attr_values "number"
              (resolve included_data (rel_refs rels "phone_numbers"));
       v_emails := v_emails v
         ++ attr_values "address"
              (resolve included_data (rel_refs rels "emails")) |}.
Proof.
  induction rels as [|[rel_type rel_data] rels IH]; intros v.
  { destruct v; simpl. unfold household_total. simpl.
    by rewrite Z.add_0_r, !app_nil_r. }
  simpl. rewrite IH. unfold flip. rewrite !rel_refs_cons.
  destruct (String.eqb rel_type "phone_numbers") eqn:E1.
  { apply String.eqb_eq in E1 as ->. unfold rel_view. simpl.
    rewrite phones_fold. simpl.
    by rewrite resolve_app, <- app_assoc; unfold attr_values; rewrite map_app. }
  destruct (String.eqb rel_type "emails") eqn:E2.
  { apply String.eqb_eq in E2 as ->. unfold rel_view. simpl.
    rewrite emails_fold. simpl.
    by rewrite resolve_app, <- app_assoc; unfold attr_values; rewrite map_app. }
  destruct (String.eqb rel_type "addresses") eqn:E3.
  { apply String.eqb_eq in E3 as ->. unfold rel_view. simpl.
    rewrite addresses_fold. simpl.
    by rewrite resolve_app, !last_located_app. }
  destruct (String.eqb rel_type "households") eqn:E4.
  { apply String.eqb_eq in E4 as ->. unfold rel_view. simpl.
    rewrite households_fold. simpl.
    rewrite household_total_app. unfold household_total at 2.
    f_equal. lia. }
  destruct (rel_ok_other included_data rel_type rel_data E1 E2 E3 E4) as [_ ->].
  done.
Qed.

(** What a returned person record contains in the keys that the
    relationship loops write. *)
Lemma flatten_person_result person included person_info :
  flatten_person person included = Returns person_info →
  let included_data := included_index included in
  let rels := r_relationships person in
  person_info !! "household_count"
    = Some (VInt (household_total included_data (rel_refs rels "households")))
  ∧ person_info !! "phone_numbers"
    = Some (VList (attr_values "number"
                     (resolve included_data (rel_refs rels "phone_numbers"))))
  ∧ person_info !! "emails"
    = Some (VList (attr_values "address"
                     (resolve included_data (rel_refs rels "emails"))))
  ∧ home_fields person_info
    = from_option fields_of no_fields
        (last_located "Home" (resolve included_data (rel_refs rels "addresses")))
  ∧ work_fields person_info
    = from_option fields_of no_fields
        (last_located "Work" (resolve included_data (rel_refs rels "addresses"))).
Proof.
  intros Hret. pose proof (flatten_person_sim person included) as H.
  rewrite Hret in H. destruct H as [_ H].
  rewrite final_view_spec in H. exact H.
Qed.

(** ** Reading the outcome of a run: lemmas *)

Lemma returned_eq {A : Type} (dflt : A) (run : outcome A * world) :
  returned run.1 = true → run = (Returns (result_or dflt run.1), run.2).
Proof. destruct run as [[a|e] w]; simpl; [done|discriminate]. Qed.

Lemma returned_outcome {A : Type} (dflt : A) (o : outcome A) :
  returned o = true → o = Returns (result_or dflt o).
Proof. destruct o; simpl; [done|discriminate]. Qed.

(** ** Flattening: households, addresses, phone numbers and emails *)

(** C2. The household count of a flattened person is the sum of the
    member counts (0 when the attribute is absent) of the records that
    the ids of the person's "households" relationship resolve to in the
    included set and whose type is "Household"; it is 0 when the
    relationship is absent or nothing resolves. *)
Theorem household_count_is_sum (person : resource) (included : list resource) :
  flattenable person included = true →
  ∃ person_info,
    flatten_person person included = Returns person_info
    ∧ person_info !! "household_count"
      = Some (VInt (sum_Z (map member_count_of
           (filter (fun rec => is_household rec = true)
              (resolve (included_index included)
                 (rel_refs (r_relationships person) "households"))))))
    ∧ (resolve (included_index included)
         (rel_refs (r_relationships person) "households") = []
       → person_info !! "household_count" = Some (VInt 0)).
Proof.
  intros Hok.
  apply flatten_person_returns in Hok as [person_info Hret].
  exists person_info. split; [done|].
  destruct (flatten_person_result _ _ _ Hret) as (Hc & _).
  split; [exact Hc|].
  intros Hnone. rewrite Hc. unfold household_total. by rewrite Hnone.
Qed.

Lemma household_count_is_sum_witness :
  ∃ person_info,
    flatten_person sample_person sample_included = Returns person_info
    ∧ person_info !! "household_count" = Some (VInt 7).
Proof.
  destruct (household_count_is_sum sample_person sample_included)
    as (person_info & Hret & Hc & _).
  - vm_compute. reflexivity.
  - exists person_info. split; [exact Hret|]. rewrite Hc. vm_compute. reflexivity.
Defined.

(** C3. Addresses are told apart by an exact, case-sensitive match of
    their "location" with "Home" and "Work".  The four home fields of a
    flattened person are those of the last resolved address, in the
    order of the relationship array, whose location is "Home" (all four
    of them, replacing whatever an earlier one set), and are empty when
    there is none; the four work fields depend in the same way on the
    "Work" addresses alone. *)
Theorem addresses_last_of_each_location (person : resource)
    (included : list resource) :
  flattenable person included = true →
  ∃ person_info,
    flatten_person person included = Returns person_info
    ∧ home_fields person_info
      = from_option fields_of no_fields
          (last (filter (fun address => located "Home" address = true)
             (resolve (included_index included)
                (rel_refs (r_relationships person) "addresses"))))
    ∧ work_fields person_info
      = from_option fields_of no_fields
          (last (filter (fun address => located "Work" address = true)
             (resolve (included_index included)
                (rel_refs (r_relationships person) "addresses")))).
Proof.
  intros Hok.
  apply flatten_person_returns in Hok as [person_info Hret].
  exists person_info. split; [done|].
  destruct (flatten_person_result _ _ _ Hret) as (_ & _ & _ & Hh & Hw).
  split; [exact Hh | exact Hw].
Qed.

Lemma addresses_last_of_each_location_witness :
  ∃ person_info,
    flatten_person sample_person sample_included = Returns person_info
    ∧ home_fields person_info
      = {| a_street := VStr "2 Oak Ave"; a_city := VNone;
           a_state := VNone; a_zip := VStr "62702" |}
    ∧ work_fields person_info
      = {| a_street := VStr "9 Office Rd"; a_city := VStr "Peoria";
           a_state := VStr "IL"; a_zip := VStr "61602" |}.
Proof.
  destruct (addresses_last_of_each_location sample_person sample_included)
    as (person_info & Hret & Hh & Hw).
  - vm_compute. reflexivity.
  - exists person_info. split; [exact Hret|]. rewrite Hh, Hw.
    split; vm_compute; reflexivity.
Defined.

(** C4. The phone numbers (emails) of a flattened person are the
    "number" ("address") values of the records that the ids of the
    "phone_numbers" ("emails") relationship resolve to in the included
    set, in the order of the relationship array.  An id that is absent
    from the included set is passed over: the step returns the record
    unchanged and raises nothing. *)
Theorem contact_lists_in_relationship_order (person : resource)
    (included : list resource) :
  (∀ r person_info,
     included_index included !! ref_id r = None →
     phone_step (included_index included) r person_info = Returns person_info
     ∧ email_step (included_index included) r person_info = Returns person_info)
  ∧ (flattenable person included = true →
     ∃ person_info,
       flatten_person person included = Returns person_info
       ∧ person_info !! "phone_numbers"
         = Some (VList (map (fun phone => dict_get (r_attributes phone) "number")
              (omap (fun r => included_index included !! ref_id r)
                 (rel_refs (r_relationships person) "phone_numbers"))))
       ∧ person_info !! "emails"
         = Some (VList (map (fun email => dict_get (r_attributes email) "address")
              (omap (fun r => included_index included !! ref_id r)
                 (rel_refs (r_relationships person) "emails"))))).
Proof.
  split.
  - intros r person_info Hnone. unfold phone_step, email_step.
    by rewrite Hnone.
  - intros Hok.
    apply flatten_person_returns in Hok as [person_info Hret].
    exists person_info. split; [done|].
    destruct (flatten_person_result _ _ _ Hret) as (_ & Hp & He & _).
    split; [exact Hp | exact He].
Qed.

Lemma contact_lists_in_relationship_order_witness :
  ∃ person_info,
    flatten_person sample_person sample_included = Returns person_info
    ∧ person_info !! "phone_numbers"
      = Some (VList [VStr "555-0199"; VStr "555-0100"])
    ∧ person_info !! "emails" = Some (VList [VStr "ann@example.org"]).
Proof.
  destruct (contact_lists_in_relationship_order sample_person sample_included)
    as (_ & Hflat).
  destruct Hflat as (person_info & Hret & Hp & He).
  - vm_compute. reflexivity.
  - exists person_info. split; [exact Hret|]. rewrite Hp, He.
    split; vm_compute; reflexivity.
Defined.

(** ** Following next links: the generic helper *)

Lemma log_request_advance rq pending w :
  log_request rq (set_incoming pending w) = advance [rq] pending w.
Proof. done. Qed.

Lemma advance_advance rqs1 rqs2 pending1 pending2 w :
  advance rqs2 pending2 (advance rqs1 pending1 w)
  = advance (rqs1 ++ rqs2) pending2 w.
Proof. unfold advance. simpl. by rewrite <- app_assoc. Qed.

Lemma set_incoming_advance rqs pending1 pending2 w :
  set_incoming pending2 (advance rqs pending1 w) = advance rqs pending2 w.
Proof. done. Qed.

Lemma final_url_truthy pages : ∀ url,
  url_truthy url = true → forallb has_next pages = true →
  url_truthy (final_url url pages) = true.
Proof.
  induction pages as [|data rest IH]; intros url Hurl Hnext; simpl in *; [done|].
  apply andb_prop in Hnext as [Hd Hrest]. by apply IH.
Qed.

(** The loops read [pending], not the [incoming] field of the world
    they are given. *)
Lemma get_paginated_results_loop_ext auth pending : ∀ url results w1 w2,
  sent w1 = sent w2 → stdout w1 = stdout w2 → files w1 = files w2 →
  get_paginated_results_loop auth pending url results w1
  = get_paginated_results_loop auth pending url results w2.
Proof.
  induction pending as [|response rest IH]; intros url results w1 w2 Hs Ho Hf;
    simpl; unfold log_request, set_incoming, print_line; simpl;
    rewrite Hs, Ho, Hf; [done|].
  destruct (url_truthy url); [|done].
  destruct (negb (status_code response =? 200)); [done|].
  destruct (json response) as [data|e]; [|done].
  destruct (p_links data) as [next|]; [|done].
  by apply IH.
Qed.

(** Pages that answer with status 200 and link on are read through:
    their records accumulate in order, one request each. *)
Lemma get_paginated_results_loop_follow auth pages : ∀ tail url results w,
  url_truthy url = true →
  forallb has_next pages = true →
  get_paginated_results_loop auth (map ok_response pages ++ tail) url results w
  = get_paginated_results_loop auth tail (final_url url pages)
      (results ++ concat (map p_data pages))
      (advance (map (get_request auth []) (followed_urls url pages)) tail w).
Proof.
  induction pages as [|data rest IH]; intros tail url results w Hurl Hnext.
  - simpl. rewrite app_nil_r. apply get_paginated_results_loop_ext; simpl;
      by rewrite ?app_nil_r.
  - simpl in Hnext. apply andb_prop in Hnext as [Hd Hrest].
    unfold has_next, people_next in Hd.
    destruct (p_links data) as [next|] eqn:Hl; [|done].
    assert (Hn : people_next data = next) by (unfold people_next; by rewrite Hl).
    simpl. rewrite Hurl. simpl. rewrite Hl, Hn.
    rewrite log_request_advance, IH by done.
    rewrite <- app_assoc. simpl.
    apply get_paginated_results_loop_ext; simpl; by rewrite <- ?app_assoc.
Qed.

(** ** fetch_people: the two loops *)

Lemma flatten_list_length people : ∀ infos,
  flatten_list people = Returns infos → length infos = length people.
Proof.
  induction people as [|[person included] rest IH]; intros infos H; simpl in H.
  - by inversion H.
  - destruct (flatten_person person included) as [info|e]; simpl in H; [|done].
    destruct (flatten_list rest) as [infos'|e]; simpl in H; [|done].
    inversion H; subst. simpl. f_equal. by apply IH.
Qed.

Lemma flatten_list_app people1 people2 :
  flatten_list (people1 ++ people2)
  = infos1 ← flatten_list people1;
    infos2 ← flatten_list people2;
    Returns (infos1 ++ infos2).
Proof.
  induction people1 as [|[person included] rest IH]; simpl.
  - by destruct (flatten_list people2).
  - destruct (flatten_person person included) as [info|e]; simpl; [|done].
    rewrite IH. destruct (flatten_list rest) as [infos1|e]; simpl; [|done].
    by destruct (flatten_list people2).
Qed.

Lemma room_full limit have :
  (Z.of_nat have >=? limit) = true → room limit have = 0%nat.
Proof. unfold room. rewrite Z.geb_leb. intros H%Z.leb_le. lia. Qed.

Lemma room_succ limit have :
  (Z.of_nat have >=? limit) = false →
  room limit have = S (room limit (have + 1)).
Proof. unfold room. rewrite Z.geb_leb. intros H%Z.leb_gt. lia. Qed.

(** The inner loop appends the flattened records that still fit. *)
Lemma people_page_loop_spec limit data persons : ∀ people_list,
  people_page_loop limit data persons people_list
  = infos ← flatten_list
      (take (room limit (length people_list))
            (map (fun person => (person, p_included data)) persons));
    Returns (people_list ++ infos).
Proof.
  induction persons as [|person rest IH]; intros people_list; simpl.
  - rewrite take_nil. simpl. by rewrite app_nil_r.
  - destruct (Z.of_nat (length people_list) >=? limit) eqn:E.
    + rewrite (room_full _ _ E). simpl. by rewrite app_nil_r.
    + rewrite (room_succ _ _ E). simpl.
      destruct (flatten_person person (p_included data)) as [info|e]; simpl;
        [|done].
      rewrite IH, length_app. simpl.
      destruct (flatten_list _) as [infos|e]; simpl; [|done].
      by rewrite <- app_assoc.
Qed.


(** One turn of [while next_page:] on a response that is served. *)
Lemma fetch_people_loop_step auth limit response rest next_page people_list
    data w :
  url_truthy next_page = true →
  served response data →
  fetch_people_loop auth limit (response :: rest) next_page people_list w
  = let w' := advance [get_request auth people_params (url_text next_page)]
                      rest w in
    match flatten_list (take (room limit (length people_list))
                             (page_people data)) with
    | Raises e => (Raises e, w')
    | Returns infos =>
        if limit <=? Z.of_nat (length people_list + length (p_data data))
        then (Returns (people_list ++ infos), w')
        else fetch_people_loop auth limit rest (people_next data)
               (people_list ++ infos) w'
    end.
Proof.
  intros Hurl [Hstatus Hbody]. simpl. rewrite Hurl, Hstatus.
  unfold json. rewrite Hbody. rewrite people_page_loop_spec.
  fold (page_people data). rewrite log_request_advance.
  destruct (flatten_list _) as [infos|e] eqn:Hflat; simpl; [|done].
  apply flatten_list_length in Hflat.
  rewrite length_take, length_app in *. unfold page_people in Hflat.
  rewrite length_map in Hflat. rewrite Hflat.
  assert (Hsame :
    (Z.of_nat (length people_list
               + (room limit (length people_list) `min` length (p_data data)))
       >=? limit)
    = (limit <=? Z.of_nat (length people_list + length (p_data data)))).
  { rewrite Z.geb_leb. unfold room.
    destruct (Z.leb_spec limit
                (Z.of_nat (length people_list + length (p_data data))));
      [apply Z.leb_le | apply Z.leb_gt]; lia. }
  rewrite Hsame. done.
Qed.

Lemma length_page_people data : length (page_people data) = length (p_data data).
Proof. unfold page_people. by rewrite length_map. Qed.

Lemma all_people_cons data pages :
  all_people (data :: pages) = page_people data ++ all_people pages.
Proof. done. Qed.

Lemma all_people_single data : all_people [data] = page_people data.
Proof. unfold all_people. simpl. by rewrite app_nil_r. Qed.

(** When the page does not reach the limit, all its people fit. *)
Lemma take_room_page limit have data others :
  (limit <=? Z.of_nat (have + length (p_data data))) = false →
  take (room limit have) (page_people data ++ others)
  = page_people data
    ++ take (room limit (have + length (p_data data))) others.
Proof.
  intros Hlt%Z.leb_gt. rewrite take_app, length_page_people.
  rewrite take_ge by (rewrite length_page_people; unfold room; lia).
  f_equal. f_equal. unfold room. lia.
Qed.

(** What a returning fetch has read and built. *)
Lemma fetch_people_loop_returns_inv auth limit pending :
  ∀ next_page people_list w result w',
  url_truthy next_page = true →
  fetch_people_loop auth limit pending next_page people_list w
    = (Returns result, w') →
  ∃ fetched pages infos,
    pending = fetched ++ incoming w'
    ∧ Forall2 served fetched pages
    ∧ sent w' = sent w ++ map (get_request auth people_params)
                              (followed_urls next_page pages)
    ∧ stdout w' = stdout w
    ∧ files w' = files w
    ∧ flatten_list (take (room limit (length people_list)) (all_people pages))
      = Returns infos
    ∧ result = people_list ++ infos
    ∧ keeps_going limit (length people_list) pages = true
    ∧ stops_after limit (length people_list) pages.
Proof.
  induction pending as [|response rest IH];
    intros next_page people_list w result w' Hurl H.
  { simpl in H. by rewrite Hurl in H. }
  destruct (raise_for_status response) as [[]|e] eqn:Hs;
    [|simpl in H; by rewrite Hurl, Hs in H].
  destruct (body response) as [data|] eqn:Hb;
    [|simpl in H; unfold json in H; by rewrite Hurl, Hs, Hb in H].
  assert (Hserved : served response data) by done.
  rewrite (fetch_people_loop_step _ _ _ _ _ _ data) in H by done.
  simpl in H.
  destruct (flatten_list _) as [infos|e] eqn:Hflat; [|done].
  destruct (limit <=? _) eqn:Hstop.
  - inversion H; subst; clear H. exists [response], [data], infos.
    rewrite all_people_single. simpl.
    repeat split; try done.
    + by constructor.
    + exists data. split; [done|]. left.
      rewrite all_people_single, length_page_people.
      by apply Z.leb_le in Hstop.
  - assert (Hall : infos = infos ∧ length infos = length (p_data data)).
    { split; [done|]. apply flatten_list_length in Hflat.
      rewrite length_take, length_page_people in Hflat.
      apply Z.leb_gt in Hstop. unfold room in Hflat. lia. }
    destruct Hall as [_ Hlen].
    assert (Hfull : flatten_list (page_people data) = Returns infos).
    { rewrite <- Hflat. f_equal. symmetry. apply take_ge.
      rewrite length_page_people. apply Z.leb_gt in Hstop. unfold room. lia. }
    destruct (url_truthy (people_next data)) eqn:Hn.
    + apply IH in H as (fetched & pages & infos2 & Hp & Hf & Hsent & Hout
                        & Hfiles & Hflat2 & Hres & Hgo & Hstops); [|done].
      rewrite length_app, Hlen in *.
      exists (response :: fetched), (data :: pages), (infos ++ infos2).
      simpl in Hsent. rewrite <- app_assoc in Hsent. simpl in Hsent.
      repeat split; try done.
      * simpl. by rewrite <- Hp.
      * by constructor.
      * rewrite all_people_cons, take_room_page by done.
        rewrite flatten_list_app, Hfull. simpl. by rewrite Hflat2.
      * by rewrite Hres, <- app_assoc.
      * destruct Hstops as (d & Hlast & _).
        destruct pages as [|data' pages']; [done|].
        simpl. simpl in Hgo. rewrite Hgo.
        unfold has_next. rewrite Hn.
        apply Z.leb_gt in Hstop. apply Z.ltb_lt in Hstop. by rewrite Hstop.
      * destruct Hstops as (d & Hlast & Hwhy).
        exists d. split.
        { destruct pages; [done|]. by rewrite last_cons_cons. }
        rewrite all_people_cons, length_app, length_page_people.
        destruct Hwhy as [Hwhy|Hwhy]; [left; lia | by right].
    + destruct rest as [|response' rest']; simpl in H; rewrite Hn in H;
        inversion H; subst; clear H;
        exists [response], [data], infos; rewrite all_people_single; simpl;
        (repeat split; try done; [by constructor|]);
        exists data; (split; [done|]); by right.
Qed.

(** A fetch over pages that are served, link on until the last and stop
    there, returns their flattened people. *)
Lemma fetch_people_loop_returns auth limit pages :
  ∀ fetched tail next_page people_list w infos,
  url_truthy next_page = true →
  Forall2 served fetched pages →
  keeps_going limit (length people_list) pages = true →
  stops_after limit (length people_list) pages →
  flatten_list (take (room limit (length people_list)) (all_people pages))
    = Returns infos →
  fetch_people_loop auth limit (fetched ++ tail) next_page people_list w
  = (Returns (people_list ++ infos),
     advance (map (get_request auth people_params)
                  (followed_urls next_page pages)) tail w).
Proof.
  induction pages as [|data pages IH];
    intros fetched tail next_page people_list w infos Hurl Hf Hgo Hstops Hflat.
  { by destruct Hstops as (d & Hlast & _). }
  unfold stops_after in *.
  inversion Hf as [|response ? fetched' ? Hserved Hf']; subst. clear Hf.
  simpl app. rewrite (fetch_people_loop_step _ _ _ _ _ _ data) by done.
  simpl. destruct pages as [|data' pages'].
  - inversion Hf'; subst. rewrite all_people_single in Hflat, Hstops.
    rewrite Hflat. simpl.
    destruct (limit <=? _) eqn:Hstop; [done|].
    destruct Hstops as (d & Hlast & [Hwhy|Hwhy]).
    + apply Z.leb_gt in Hstop. rewrite length_page_people in Hwhy. lia.
    + simpl in Hlast. inversion Hlast; subst. unfold has_next in Hwhy.
      destruct tail; simpl; by rewrite Hwhy.
  - simpl in Hgo. apply andb_prop in Hgo as [Hgo Hrest].
    apply andb_prop in Hgo as [Hlt Hnext].
    assert (Hstop : (limit <=? Z.of_nat (length people_list + length (p_data data)))
                    = false).
    { apply Z.leb_gt. by apply Z.ltb_lt in Hlt. }
    rewrite all_people_cons, take_room_page, flatten_list_app in Hflat by done.
    destruct (flatten_list (page_people data)) as [infos1|e] eqn:H1;
      simpl in Hflat; [|done].
    destruct (flatten_list (take _ (all_people _))) as [infos2|e] eqn:H2;
      simpl in Hflat; [|done].
    inversion Hflat; subst. clear Hflat.
    pose proof (flatten_list_length _ _ H1) as Hlen.
    rewrite length_page_people in Hlen.
    rewrite take_ge
      by (rewrite length_page_people; apply Z.leb_gt in Hstop; unfold room; lia).
    rewrite H1, Hstop.
    rewrite (IH fetched' tail (people_next data) (people_list ++ infos1) _ infos2);
      try done.
    + rewrite advance_advance. simpl. by rewrite <- app_assoc.
    + by rewrite length_app, Hlen.
    + destruct Hstops as (d & Hlast & Hwhy). exists d.
      split; [by rewrite last_cons_cons in Hlast|].
      rewrite all_people_cons, length_app, length_page_people in Hwhy.
      rewrite length_app, Hlen.
      destruct Hwhy as [Hwhy|Hwhy]; [left; lia | by right].
    + by rewrite length_app, Hlen.
Qed.


Lemma keeps_going_lookup limit pages : ∀ have i data,
  keeps_going limit have pages = true →
  pages !! i = Some data →
  (S i < length pages)%nat →
  has_next data = true
  ∧ Z.of_nat (have + length (all_people (take (S i) pages))) < limit.
Proof.
  induction pages as [|first pages IH]; intros have i data Hgo Hi Hlen; [done|].
  destruct pages as [|second pages]; [simpl in Hlen; lia|].
  simpl in Hgo. apply andb_prop in Hgo as [Hgo Hrest].
  apply andb_prop in Hgo as [Hlt Hnext]. apply Z.ltb_lt in Hlt.
  destruct i as [|i].
  - simpl in Hi. inversion Hi; subst. split; [done|].
    rewrite firstn_cons, take_0, all_people_single, length_page_people. done.
  - simpl in Hi. simpl in Hlen.
    destruct (IH (have + length (p_data first))%nat i data Hrest Hi) as [Hn Hc];
      [simpl; lia|].
    split; [done|].
    rewrite firstn_cons, all_people_cons, length_app, length_page_people. lia.
Qed.

Lemma length_followed_urls pages : ∀ url,
  length (followed_urls url pages) = length pages.
Proof. induction pages as [|d pages IH]; intros url; simpl; by rewrite ?IH. Qed.

(** ** fetch_people: the limit *)

(** C1. A people fetch returns the flattening, each person against the
    included set of its own page, of the first min(limit, total) people
    of the pages it fetched, in page order: at most [limit] records
    when the limit is not negative, and no record at all when it is
    negative.  The pages are fetched by following the next links, and
    a page is fetched only while fewer than [limit] records are there:
    when the limit falls inside a page, the rest of that page is
    dropped and no further request is made. *)
Theorem fetch_people_up_to_limit (client_id client_secret : value) (limit : Z)
    (w w' : world) (people : list (gmap string value)) :
  fetch_people client_id client_secret limit w = (Returns people, w') →
  ∃ fetched pages,
    incoming w = fetched ++ incoming w'
    ∧ Forall2 served fetched pages
    ∧ sent w' = sent w
        ++ map (get_request (client_id, client_secret) people_params)
               (followed_urls (Some people_url) pages)
    ∧ (0 ≤ limit → Z.of_nat (length people) ≤ limit)
    ∧ Z.of_nat (length people)
      = Z.max 0 (Z.min limit (Z.of_nat (length (all_people pages))))
    ∧ flatten_list
        (take (Z.to_nat (Z.min limit (Z.of_nat (length (all_people pages)))))
              (all_people pages))
      = Returns people
    ∧ (∀ i data, pages !! i = Some data → (S i < length pages)%nat →
         has_next data = true
         ∧ Z.of_nat (length (all_people (take (S i) pages))) < limit)
    ∧ (∃ data, last pages = Some data
         ∧ (limit ≤ Z.of_nat (length (all_people pages))
            ∨ has_next data = false)).
Proof.
  intros H. unfold fetch_people in H.
  apply fetch_people_loop_returns_inv in H
    as (fetched & pages & infos & Hp & Hf & Hsent & _ & _ & Hflat & Hres
        & Hgo & Hstops); [|done].
  simpl in Hres. subst infos. simpl in Hflat, Hgo, Hstops.
  exists fetched, pages.
  assert (Htake :
    take (Z.to_nat (Z.min limit (Z.of_nat (length (all_people pages)))))
         (all_people pages)
    = take (room limit 0) (all_people pages)).
  { unfold room. destruct (Z.le_ge_cases limit (Z.of_nat (length (all_people pages)))).
    - rewrite Z.min_l by done. f_equal. lia.
    - rewrite Z.min_r by done. rewrite !take_ge; [done| |]; lia. }
  pose proof (flatten_list_length _ _ Hflat) as Hlen.
  rewrite length_take in Hlen. unfold room in Hlen.
  repeat split; try done.
  - lia.
  - lia.
  - by rewrite Htake.
  - by destruct (keeps_going_lookup _ _ _ _ _ Hgo H H0).
  - by destruct (keeps_going_lookup _ _ _ _ _ Hgo H H0).
Qed.

Lemma fetch_people_up_to_limit_witness :
  ∃ people w',
    fetch_people (VStr "app") (VStr "secret") 3 sample_world = (Returns people, w')
    ∧ Z.of_nat (length people) ≤ 3
    ∧ ∃ fetched pages,
        incoming sample_world = fetched ++ incoming w'
        ∧ Forall2 served fetched pages
        ∧ flatten_list (take 3 (all_people pages)) = Returns people.
Proof.
  pose proof (returned_eq []
    (fetch_people (VStr "app") (VStr "secret") 3 sample_world)) as Hrun.
  eexists _, _. split; [apply Hrun; vm_compute; reflexivity|].
  specialize (Hrun ltac:(vm_compute; reflexivity)).
  destruct (fetch_people_up_to_limit _ _ 3 _ _ _ Hrun)
    as (fetched & pages & Hp & Hf & _ & Hle & Hmin & Hflat & _ & _).
  split; [apply Hle; lia|].
  exists fetched, pages. split; [exact Hp|]. split; [exact Hf|].
  assert (Htake :
    take (Z.to_nat (Z.min 3 (Z.of_nat (length (all_people pages)))))
         (all_people pages)
    = take 3 (all_people pages)).
  { destruct (Z.le_ge_cases 3 (Z.of_nat (length (all_people pages)))).
    - rewrite Z.min_l by done. done.
    - rewrite Z.min_r by done. rewrite !take_ge; [done| |]; lia. }
  rewrite Htake in Hflat. exact Hflat.
Defined.

(** The claim C1 as stated fails for a negative limit, which the
    [--limit] option accepts: with the limit -3 the fetch sends its one
    request and returns the empty list, and 0 records are more than
    -3. *)
Lemma negative_limit_is_exceeded :
  ∃ people w',
    fetch_people (VStr "app") (VStr "secret") (-3) sample_world
    = (Returns people, w')
    ∧ people = []
    ∧ ¬ (Z.of_nat (length people) ≤ -3)
    ∧ length (sent w') = 1%nat.
Proof.
  pose proof (returned_eq []
    (fetch_people (VStr "app") (VStr "secret") (-3) sample_world)) as Hrun.
  specialize (Hrun ltac:(vm_compute; reflexivity)).
  eexists _, _. split; [exact Hrun|].
  assert (result_or []
            (fetch_people (VStr "app") (VStr "secret") (-3) sample_world).1 = [])
    as Hnone by (vm_compute; reflexivity).
  split; [exact Hnone|]. split.
  - rewrite Hnone. simpl. lia.
  - vm_compute. reflexivity.
Qed.

(** The converse: over pages that are served, link on until the last
    and stop there, the fetch returns. *)
Lemma fetch_people_returns client_id client_secret limit w fetched pages tail
    infos :
  incoming w = fetched ++ tail →
  Forall2 served fetched pages →
  keeps_going limit 0 pages = true →
  stops_after limit 0 pages →
  flatten_list (take (room limit 0) (all_people pages)) = Returns infos →
  fetch_people client_id client_secret limit w
  = (Returns infos,
     advance (map (get_request (client_id, client_secret) people_params)
                  (followed_urls (Some people_url) pages)) tail w).
Proof.
  intros Hin Hf Hgo Hstops Hflat. unfold fetch_people. rewrite Hin.
  by rewrite (fetch_people_loop_returns _ _ pages fetched tail _ [] w infos).
Qed.

(** ** HTTP failures on the two read paths: properties *)




(** ** Clearing a team position: the deletes *)

Lemma remove_assignments_run auth service_type_id team_position_id
    team_position_name service_type_name assignments :
  ∀ deletes tail w,
  incoming w = deletes ++ tail →
  length deletes = length assignments →
  remove_assignments auth service_type_id team_position_id
    team_position_name service_type_name assignments w
  = (Returns tt,
     {| incoming := tail;
        sent := sent w ++ map (delete_request auth service_type_id team_position_id)
                              assignments;
        stdout := stdout w ++ zip_with (removal_line team_position_name
                                          service_type_name) assignments deletes;
        files := files w |}).
Proof.
  induction assignments as [|assignment rest IH]; intros deletes tail w Hin Hlen.
  - destruct deletes; [|done]. simpl in *. unfold mret, io_ret.
    destruct w; simpl in *. by rewrite Hin, !app_nil_r.
  - destruct deletes as [|r deletes]; [done|]. simpl in Hlen.
    simpl remove_assignments. unfold mbind, io_bind, requests_delete.
    rewrite Hin. simpl.
    unfold removal_line at 1.
    destruct (status_code r =? 204); unfold print; simpl;
      (rewrite (IH deletes tail); [|done|lia]); simpl;
      by rewrite <- !app_assoc.
Qed.

Lemma prefix_append p s : String.prefix p (p +:+ s) = true.
Proof.
  induction p as [|a p IH]; simpl; [by destruct s|].
  by destruct (Ascii.ascii_dec a a).
Qed.

Lemma removal_line_success team_position_name service_type_name assignment r :
  is_success_line (removal_line team_position_name service_type_name assignment r)
  = (status_code r =? 204).
Proof.
  unfold removal_line, is_success_line, success_message, failure_message.
  destruct (status_code r =? 204); [apply prefix_append | reflexivity].
Qed.

Lemma removal_line_failure team_position_name service_type_name assignment r :
  is_failure_line (removal_line team_position_name service_type_name assignment r)
  = negb (status_code r =? 204).
Proof.
  unfold removal_line, is_failure_line, success_message, failure_message.
  destruct (status_code r =? 204); [reflexivity | apply prefix_append].
Qed.

Lemma count_removal_lines team_position_name service_type_name assignments :
  ∀ deletes,
  length deletes = length assignments →
  let lines := zip_with (removal_line team_position_name service_type_name)
                        assignments deletes in
  let removed := length (filter (fun r => status_code r = 204) deletes) in
  count_lines is_success_line lines = removed
  ∧ count_lines is_failure_line lines = (length assignments - removed)%nat.
Proof.
  induction assignments as [|assignment rest IH]; intros deletes Hlen.
  { by destruct deletes. }
  destruct deletes as [|r deletes]; [done|]. simpl in Hlen.
  destruct (IH deletes ltac:(lia)) as [IHs IHf]. simpl in IHs, IHf.
  pose proof (length_filter (fun r => status_code r = 204) deletes) as Hle.
  simpl. unfold count_lines in *.
  destruct (Z.eqb_spec (status_code r) 204) as [Heq|Hne].
  - rewrite filter_cons_True
      by (rewrite removal_line_success; by apply Z.eqb_eq).
    rewrite (filter_cons_False (fun line => is_failure_line line = true))
      by (rewrite removal_line_failure, (proj2 (Z.eqb_eq _ _) Heq); done).
    rewrite (filter_cons_True (fun r => status_code r = 204)) by done.
    simpl. rewrite IHs, IHf. split; [done|lia].
  - rewrite filter_cons_False
      by (rewrite removal_line_success, (proj2 (Z.eqb_neq _ _) Hne); done).
    rewrite (filter_cons_True (fun line => is_failure_line line = true))
      by (rewrite removal_line_failure, (proj2 (Z.eqb_neq _ _) Hne); done).
    rewrite (filter_cons_False (fun r => status_code r = 204)) by done.
    simpl. rewrite IHs, IHf. split; [done|lia].
Qed.

(** ** Clearing a team position: the whole command *)

(** The run of the command when the three look-ups succeed and the
    server answers every delete. *)
Lemma team_position_run config service_type_name team_position_name w
    client_id client_secret service_types w1 service_type_id
    team_positions w2 team_position_id assignments w3 deletes tail :
  load_authentication config w = (Returns (client_id, client_secret), w) →
  get_paginated_results (base_url +:+ "/service_types")
    (client_id, client_secret) w = (Returns service_types, w1) →
  first_id_named service_types (Some service_type_name)
    = Returns (Some service_type_id) →
  service_type_id ≠ "" →
  get_paginated_results
    (base_url +:+ "/service_types/" +:+ service_type_id +:+ "/team_positions")
    (client_id, client_secret) w1 = (Returns team_positions, w2) →
  first_id_named team_positions team_position_name
    = Returns (Some team_position_id) →
  team_position_id ≠ "" →
  get_paginated_results (assignments_url service_type_id team_position_id)
    (client_id, client_secret) w2 = (Returns assignments, w3) →
  incoming w3 = deletes ++ tail →
  length deletes = length assignments →
  team_position config service_type_name team_position_name w
  = (Returns tt,
     {| incoming := tail;
        sent := sent w3
          ++ map (delete_request (client_id, client_secret)
                    service_type_id team_position_id) assignments;
        stdout := (stdout w3
          ++ zip_with (removal_line team_position_name service_type_name)
               assignments deletes)
          ++ [summary_message team_position_name service_type_name];
        files := files w3 |}).
Proof.
  intros Hauth H1 Hst Hsid H2 Htp Hpid H3 Hin Hlen.
  unfold team_position, mbind, io_bind, lift.
  rewrite Hauth. simpl. rewrite H1, Hst.
  destruct service_type_id as [|a sid]; [done|].
  rewrite H2, Htp.
  destruct team_position_id as [|b pid]; [done|].
  unfold assignments_url in H3. rewrite H3.
  rewrite (remove_assignments_run _ _ _ _ _ _ deletes tail) by done.
  done.
Qed.

(** C6. When the three look-ups of the clearing command succeed and
    each of the N assignments fetched gets an answer to its delete, the
    command returns without raising; it has sent one delete per
    assignment, whatever the earlier answers were, and printed one line
    per assignment, a success line exactly for a status 204 and a
    failure line for any other status: M success lines and N - M
    failure lines when M answers are 204. *)
Theorem deletion_reports_each_assignment config service_type_name
    team_position_name w client_id client_secret service_types w1
    service_type_id team_positions w2 team_position_id assignments w3
    deletes tail :
  load_authentication config w = (Returns (client_id, client_secret), w) →
  get_paginated_results (base_url +:+ "/service_types")
    (client_id, client_secret) w = (Returns service_types, w1) →
  first_id_named service_types (Some service_type_name)
    = Returns (Some service_type_id) →
  service_type_id ≠ "" →
  get_paginated_results
    (base_url +:+ "/service_types/" +:+ service_type_id +:+ "/team_positions")
    (client_id, client_secret) w1 = (Returns team_positions, w2) →
  first_id_named team_positions team_position_name
    = Returns (Some team_position_id) →
  team_position_id ≠ "" →
  get_paginated_results (assignments_url service_type_id team_position_id)
    (client_id, client_secret) w2 = (Returns assignments, w3) →
  incoming w3 = deletes ++ tail →
  length deletes = length assignments →
  ∃ w' lines,
    team_position config service_type_name team_position_name w
      = (Returns tt, w')
    ∧ stdout w' = stdout w3 ++ lines
    ∧ lines = zip_with (removal_line team_position_name service_type_name)
                assignments deletes
              ++ [summary_message team_position_name service_type_name]
    ∧ count_lines is_success_line lines
      = length (filter (fun r => status_code r = 204) deletes)
    ∧ count_lines is_failure_line lines
      = Nat.sub (length assignments)
          (length (filter (fun r => status_code r = 204) deletes))
    ∧ sent w' = sent w3
        ++ map (delete_request (client_id, client_secret)
                  service_type_id team_position_id) assignments
    ∧ incoming w' = tail.
Proof.
  intros Hauth H1 Hst Hsid H2 Htp Hpid H3 Hin Hlen.
  eexists _, _. split.
  { by eapply team_position_run. }
  simpl. split; [by rewrite <- app_assoc|]. split; [done|].
  destruct (count_removal_lines team_position_name service_type_name
              assignments deletes Hlen) as [Hs Hf].
  simpl in Hs, Hf. unfold count_lines in *.
  rewrite !filter_app, !length_app, Hs, Hf.
  rewrite (filter_cons_False (fun line => is_success_line line = true))
    by done.
  rewrite (filter_cons_False (fun line => is_failure_line line = true))
    by done.
  simpl. repeat split; lia.
Qed.

Lemma deletion_reports_each_assignment_witness :
  ∃ w' lines,
    team_position "pat.yaml" "English Worship Service" (Some "Drums")
      clearing_world = (Returns tt, w')
    ∧ stdout w' = lines
    ∧ count_lines is_success_line lines = 2%nat
    ∧ count_lines is_failure_line lines = 1%nat
    ∧ incoming w' = [].
Proof.
  pose (auth := (VStr "app", VStr "secret")).
  pose (run1 := get_paginated_results (base_url +:+ "/service_types") auth
                  clearing_world).
  pose (run2 := get_paginated_results
                  (base_url +:+ "/service_types/" +:+ "7" +:+ "/team_positions")
                  auth run1.2).
  pose (run3 := get_paginated_results (assignments_url "7" "31") auth run2.2).
  destruct (deletion_reports_each_assignment "pat.yaml"
              "English Worship Service" (Some "Drums") clearing_world
              (VStr "app") (VStr "secret")
              (result_or [] run1.1) run1.2 "7"
              (result_or [] run2.1) run2.2 "31"
              (result_or [] run3.1) run3.2 sample_deletes [])
    as (w' & lines & Hrun & Hout & _ & Hs & Hf & _ & Hin).
  - vm_compute. reflexivity.
  - apply (returned_eq [] run1). vm_compute. reflexivity.
  - vm_compute. reflexivity.
  - discriminate.
  - apply (returned_eq [] run2). vm_compute. reflexivity.
  - vm_compute. reflexivity.
  - discriminate.
  - apply (returned_eq [] run3). vm_compute. reflexivity.
  - vm_compute. reflexivity.
  - vm_compute. reflexivity.
  - exists w', lines. split; [exact Hrun|].
    split; [rewrite Hout; vm_compute; reflexivity|].
    split; [rewrite Hs; vm_compute; reflexivity|].
    split; [rewrite Hf; vm_compute; reflexivity | exact Hin].
Defined.

(** C9. When the clearing command has gone through its assignments, the
    last line it prints is the summary that all assignments have been
    removed, whatever the statuses of the deletes were. *)
Theorem summary_is_always_printed config service_type_name
    team_position_name w client_id client_secret service_types w1
    service_type_id team_positions w2 team_position_id assignments w3
    deletes tail :
  load_authentication config w = (Returns (client_id, client_secret), w) →
  get_paginated_results (base_url +:+ "/service_types")
    (client_id, client_secret) w = (Returns service_types, w1) →
  first_id_named service_types (Some service_type_name)
    = Returns (Some service_type_id) →
  service_type_id ≠ "" →
  get_paginated_results
    (base_url +:+ "/service_types/" +:+ service_type_id +:+ "/team_positions")
    (client_id, client_secret) w1 = (Returns team_positions, w2) →
  first_id_named team_positions team_position_name
    = Returns (Some team_position_id) →
  team_position_id ≠ "" →
  get_paginated_results (assignments_url service_type_id team_position_id)
    (client_id, client_secret) w2 = (Returns assignments, w3) →
  incoming w3 = deletes ++ tail →
  length deletes = length assignments →
  ∃ w',
    team_position config service_type_name team_position_name w
      = (Returns tt, w')
    ∧ last (stdout w')
      = Some ("All assignments have been removed from "
              +:+ show_name team_position_name +:+ " in "
              +:+ service_type_name +:+ ".")
    ∧ (Forall (fun r => status_code r ≠ 204) deletes →
       count_lines is_success_line (drop (length (stdout w3)) (stdout w')) = 0%nat).
Proof.
  intros Hauth H1 Hst Hsid H2 Htp Hpid H3 Hin Hlen.
  eexists. split.
  { by eapply team_position_run. }
  simpl. split; [by rewrite last_snoc|].
  intros Hnone.
  rewrite <- app_assoc, drop_app_length.
  destruct (count_removal_lines team_position_name service_type_name
              assignments deletes Hlen) as [Hs _].
  simpl in Hs. unfold count_lines in *.
  rewrite filter_app, length_app, Hs.
  rewrite (filter_cons_False (fun line => is_success_line line = true))
    by done.
  simpl.
  assert (Hzero : filter (fun r => status_code r = 204) deletes = []).
  { clear -Hnone. induction Hnone as [|r rs Hr _ IH]; [done|].
    by rewrite filter_cons_False. }
  by rewrite Hzero.
Qed.

Lemma summary_is_always_printed_witness :
  ∃ w',
    team_position "pat.yaml" "English Worship Service" (Some "Drums")
      clearing_world = (Returns tt, w')
    ∧ last (stdout w')
      = Some "All assignments have been removed from Drums in English Worship Service.".
Proof.
  pose (auth := (VStr "app", VStr "secret")).
  pose (run1 := get_paginated_results (base_url +:+ "/service_types") auth
                  clearing_world).
  pose (run2 := get_paginated_results
                  (base_url +:+ "/service_types/" +:+ "7" +:+ "/team_positions")
                  auth run1.2).
  pose (run3 := get_paginated_results (assignments_url "7" "31") auth run2.2).
  destruct (summary_is_always_printed "pat.yaml"
              "English Worship Service" (Some "Drums") clearing_world
              (VStr "app") (VStr "secret")
              (result_or [] run1.1) run1.2 "7"
              (result_or [] run2.1) run2.2 "31"
              (result_or [] run3.1) run3.2 sample_deletes [])
    as (w' & Hrun & Hlast & _).
  - vm_compute. reflexivity.
  - apply (returned_eq [] run1). vm_compute. reflexivity.
  - vm_compute. reflexivity.
  - discriminate.
  - apply (returned_eq [] run2). vm_compute. reflexivity.
  - vm_compute. reflexivity.
  - discriminate.
  - apply (returned_eq [] run3). vm_compute. reflexivity.
  - vm_compute. reflexivity.
  - vm_compute. reflexivity.
  - exists w'. split; [exact Hrun | exact Hlast].
Defined.

(** ** Credentials: properties *)

Lemma load_authentication_inv config_path w o w' :
  load_authentication config_path w = (o, w') →
  w' = w
  ∧ ∀ client_id client_secret, o = Returns (client_id, client_secret) →
      truthy client_id = true ∧ truthy client_secret = true.
Proof.
  unfold load_authentication. intros H.
  destruct (files w !! config_path) as [[config|v|]|];
    try (inversion H; subst; split; [done|]; intros ? ? Heq; discriminate).
  destruct (truthy (dict_get config "client_id")) eqn:E1;
    destruct (truthy (dict_get config "client_secret")) eqn:E2;
    simpl in H; inversion H; subst; (split; [done|]); intros ? ? Heq;
    try discriminate.
  inversion Heq; subst. done.
Qed.








(** ** fetch_teams and init: properties *)

(** [fetch_teams] sends one request and reads one response, whatever
    that response links to. *)
Lemma fetch_teams_single_request client_id client_secret limit w o w' :
  fetch_teams client_id client_secret limit w = (o, w') →
  sent w' = sent w ++ [get_request (client_id, client_secret) [] teams_url]
  ∧ incoming w' = tail (incoming w).
Proof.
  unfold fetch_teams. intros H.
  destruct (incoming w) as [|response rest] eqn:Hin.
  { inversion H; subst. simpl. by rewrite Hin. }
  destruct (raise_for_status response); [|by inversion H].
  destruct (json response) as [data|e]; [|by inversion H].
  destruct (team_entries (p_data data)); by inversion H.
Qed.

(** C7, at a listing of two pages: [fetch_teams] with limit 10 returns
    the two teams of the first page only; it has sent one request and
    left the second page unread, although the first page links to it. *)
Lemma fetch_teams_reads_first_page_only :
  ∃ teams w',
    fetch_teams (VStr "app") (VStr "secret") 10 teams_world = (Returns teams, w')
    ∧ map (fun team => team !! "name") teams
      = [Some (VStr "Band"); Some (VStr "Ushers")]
    ∧ length (sent w') = 1%nat
    ∧ map (fun r => p_data <$> body r) (incoming w')
      = [Some [named "3" "Team" "Sound"]]
    ∧ (has_next <$> (head (incoming teams_world) ≫= body)) = Some true.
Proof.
  pose proof (returned_eq []
    (fetch_teams (VStr "app") (VStr "secret") 10 teams_world)) as Hrun.
  eexists _, _. split; [apply Hrun; vm_compute; reflexivity|].
  repeat split; vm_compute; reflexivity.
Qed.

(** C8, as the code has it: [init] calls [create_default_config], which
    is declared without parameters, with one argument; the call raises
    [TypeError] before the body runs, so no file is written and nothing
    is printed, for every configuration path. *)
Theorem init_raises_type_error (home config : string) (w : world) :
  init home config w
  = (Raises (TypeError
       "create_default_config() takes 0 positional arguments but 1 was given"),
     w).
Proof. reflexivity. Qed.

(** The body of [create_default_config], were it reached, writes the
    placeholder to the default path, not to the path given to [init]. *)
Lemma create_default_config_without_arguments home w :
  ∃ w', create_default_config home [] w = (Returns tt, w')
    ∧ files w' !! DEFAULT_CONFIG_PATH home
      = Some (YamlMapping (list_to_map
          [("client_id", VStr "your_client_id_here");
           ("client_secret", VStr "your_client_secret_here")])).
Proof.
  exists (print_line
            ("Default configuration created at " +:+ DEFAULT_CONFIG_PATH home
             +:+ ". Please update it with your credentials.")
            (write_file (DEFAULT_CONFIG_PATH home)
               (YamlMapping (list_to_map
                  [("client_id", VStr "your_client_id_here");
                   ("client_secret", VStr "your_client_secret_here")])) w)).
  split; [reflexivity|]. simpl. apply lookup_insert_eq.
Qed.

(** * Further properties of the code *)

(** ** get_paginated_results: complete runs *)

Lemma followed_urls_snoc pages : ∀ url data,
  followed_urls url (pages ++ [data])
  = followed_urls url pages ++ [url_text (final_url url pages)].
Proof.
  induction pages as [|first pages IH]; intros url data; simpl; [done|].
  by rewrite IH.
Qed.

Lemma url_truthy_text url : url ≠ "" → url_truthy (Some url) = true.
Proof. intros H. simpl. apply negb_true_iff. by apply String.eqb_neq. Qed.

(** X1. When every page answers 200 and links on until a last page
    whose links carry no next URL, the generic helper returns the
    records of all pages in order; it has sent one request per page,
    to the start URL and then to each next link, and printed nothing. *)
Theorem get_paginated_results_reads_every_page url auth w pages last tail :
  url ≠ "" →
  incoming w = map ok_response (pages ++ [last]) ++ tail →
  forallb has_next pages = true →
  is_Some (p_links last) →
  has_next last = false →
  get_paginated_results url auth w
  = (Returns (concat (map p_data (pages ++ [last]))),
     advance (map (get_request auth [])
                  (followed_urls (Some url) (pages ++ [last]))) tail w).
Proof.
  intros Hurl Hin Hnext [next Hlinks] Hlast.
  pose proof (url_truthy_text _ Hurl) as Htruthy.
  unfold get_paginated_results. rewrite Hin, map_app, <- app_assoc.
  rewrite get_paginated_results_loop_follow by done.
  pose proof (final_url_truthy pages _ Htruthy Hnext) as Hfinal.
  simpl. rewrite Hfinal, Hlinks.
  unfold has_next, people_next in Hlast. rewrite Hlinks in Hlast.
  rewrite followed_urls_snoc, !map_app, concat_app. simpl.
  rewrite app_nil_r.
  destruct tail; simpl; rewrite Hlast; unfold advance, log_request, set_incoming;
    simpl; by rewrite <- app_assoc.
Qed.

Lemma get_paginated_results_reads_every_page_witness :
  ∃ w', get_paginated_results "https://example.org/items" (VStr "app", VStr "secret")
          (set_incoming
             [ok_response (sample_page ["1"; "2"] (Some "https://example.org/page2"));
              ok_response (sample_page ["3"] None);
              {| status_code := 500; body := None |}] sample_world)
        = (Returns (map sample_person_numbered ["1"; "2"; "3"]), w')
    ∧ map rq_url (sent w') = ["https://example.org/items"; "https://example.org/page2"]
    ∧ stdout w' = []
    ∧ length (incoming w') = 1%nat.
Proof.
  eexists. split.
  - apply (get_paginated_results_reads_every_page _ _ _
             [sample_page ["1"; "2"] (Some "https://example.org/page2")]
             (sample_page ["3"] None)
             [{| status_code := 500; body := None |}]).
    + discriminate.
    + reflexivity.
    + reflexivity.
    + by eexists.
    + reflexivity.
  - repeat split.
Defined.

Lemma get_paginated_results_loop_returns_inv auth pending :
  ∀ url results0 w results w',
  get_paginated_results_loop auth pending url results0 w = (Returns results, w') →
  ∃ pages stop,
    pending = map ok_response pages ++ stop ++ incoming w'
    ∧ results = results0 ++ concat (map p_data pages)
    ∧ Forall (fun data => is_Some (p_links data)) pages
    ∧ files w' = files w
    ∧ (stop = []
       ∧ url_truthy (final_url url pages) = false
       ∧ sent w' = sent w
           ++ map (get_request auth []) (followed_urls url pages)
       ∧ stdout w' = stdout w
       ∨ ∃ bad, stop = [bad] ∧ status_code bad ≠ 200
           ∧ url_truthy (final_url url pages) = true
           ∧ sent w' = sent w
               ++ map (get_request auth [])
                      (followed_urls url pages ++ [url_text (final_url url pages)])
           ∧ stdout w' = stdout w ++ [diagnostic (status_code bad)]).
Proof.
  induction pending as [|response rest IH]; intros url results0 w results w' H;
    simpl in H; destruct (url_truthy url) eqn:Hurl; try done.
  - inversion H; subst. exists [], []. simpl. rewrite !app_nil_r.
    repeat split; try done. left. by repeat split.
  - destruct (Z.eqb_spec (status_code response) 200) as [H200|Hbad]; simpl in H.
    + destruct (body response) as [data|] eqn:Hbody; unfold json in H;
        rewrite Hbody in H; [|done].
      destruct (p_links data) as [next|] eqn:Hlinks; [|done].
      apply IH in H as (pages & stop & Hp & Hres & Hall & Hfiles & Hstop).
      exists (data :: pages), stop. simpl in *.
      assert (Hnext : people_next data = next)
        by (unfold people_next; by rewrite Hlinks).
      rewrite Hnext.
      split; [|split; [|split; [|split]]].
      * destruct response; simpl in *; subst. unfold ok_response. by f_equal.
      * by rewrite Hres, <- app_assoc.
      * constructor; [by rewrite Hlinks|done].
      * done.
      * destruct Hstop as [(-> & Hfinal & Hsent & Hout)
                          |(bad & -> & Hbad & Hfinal & Hsent & Hout)].
        -- left. repeat split; try done. by rewrite Hsent, <- app_assoc.
        -- right. exists bad. repeat split; try done.
           by rewrite Hsent, <- app_assoc.
    + inversion H; subst. exists [], [response]. simpl. rewrite app_nil_r.
      repeat split; try done. right. exists response. by repeat split.
  - inversion H; subst. exists [], []. simpl. rewrite !app_nil_r.
    repeat split; try done. left. by repeat split.
Qed.

(** X2. Whatever the server answers, what the generic helper returns
    is the concatenation, in order, of the records of the pages it read
    with status 200, each of which has links.  It stopped for one of
    two reasons.  Either the last page read has no next URL (or the
    start URL was empty): then it has sent one request per page, to the
    start URL and then to each next link, and printed nothing.  Or the
    URL it had come to was answered with a status other than 200: then
    it has sent that one request more and printed one diagnostic for
    it.  It leaves the files alone. *)
Theorem get_paginated_results_returns_pages_read url auth w results w' :
  get_paginated_results url auth w = (Returns results, w') →
  ∃ pages stop,
    incoming w = map ok_response pages ++ stop ++ incoming w'
    ∧ results = concat (map p_data pages)
    ∧ Forall (fun data => is_Some (p_links data)) pages
    ∧ files w' = files w
    ∧ (stop = []
       ∧ url_truthy (final_url (Some url) pages) = false
       ∧ sent w' = sent w
           ++ map (get_request auth []) (followed_urls (Some url) pages)
       ∧ stdout w' = stdout w
       ∨ ∃ bad, stop = [bad] ∧ status_code bad ≠ 200
           ∧ url_truthy (final_url (Some url) pages) = true
           ∧ sent w' = sent w
               ++ map (get_request auth [])
                      (followed_urls (Some url) pages
                       ++ [url_text (final_url (Some url) pages)])
           ∧ stdout w' = stdout w ++ [diagnostic (status_code bad)]).
Proof.
  unfold get_paginated_results. intros H.
  by apply get_paginated_results_loop_returns_inv in H.
Qed.

Lemma get_paginated_results_returns_pages_read_witness :
  ∃ results w' pages (stop : list response),
    get_paginated_results "https://example.org/items" (VStr "app", VStr "secret")
      (set_incoming
         [ok_response (sample_page ["1"; "2"] (Some "https://example.org/page2"));
          {| status_code := 429; body := None |};
          ok_response (sample_page ["3"] None)] sample_world)
    = (Returns results, w')
    ∧ [ok_response (sample_page ["1"; "2"] (Some "https://example.org/page2"));
       {| status_code := 429; body := None |};
       ok_response (sample_page ["3"] None)]
      = map ok_response pages ++ stop ++ incoming w'
    ∧ results = concat (map p_data pages).
Proof.
  pose proof (returned_eq []
    (get_paginated_results "https://example.org/items" (VStr "app", VStr "secret")
      (set_incoming
         [ok_response (sample_page ["1"; "2"] (Some "https://example.org/page2"));
          {| status_code := 429; body := None |};
          ok_response (sample_page ["3"] None)] sample_world))) as Hrun.
  specialize (Hrun ltac:(vm_compute; reflexivity)).
  destruct (get_paginated_results_returns_pages_read _ _ _ _ _ Hrun)
    as (pages & stop & Hin & Hres & _).
  eexists _, _, pages, stop. split; [exact Hrun|]. split; [exact Hin | exact Hres].
Defined.

(** ** A page without links *)

Lemma served_ok_responses pages : Forall2 served (map ok_response pages) pages.
Proof. induction pages; simpl; constructor; done. Qed.

Lemma keeps_going_snoc limit pages : ∀ have data,
  forallb has_next pages = true →
  Z.of_nat (have + length (all_people pages)) < limit →
  keeps_going limit have (pages ++ [data]) = true.
Proof.
  induction pages as [|first pages IH]; intros have data Hnext Hlt; [done|].
  simpl in Hnext. apply andb_prop in Hnext as [Hfirst Hrest].
  rewrite all_people_cons, length_app, length_page_people in Hlt.
  simpl. destruct (pages ++ [data]) as [|second others] eqn:Hshape.
  { by destruct pages. }
  rewrite <- Hshape, Hfirst, IH; [|done|lia].
  rewrite !andb_true_r. apply Z.ltb_lt. lia.
Qed.

(** X3. A page that answers 200 but has no "links" member ends the two
    read paths differently: the generic helper raises [KeyError] for
    "links" and the records of the pages read before are lost, while
    the people fetch takes the page for the last one and returns. *)
Theorem page_without_links :
  (∀ url auth w pages bad tail,
     url ≠ "" →
     incoming w = map ok_response (pages ++ [bad]) ++ tail →
     forallb has_next pages = true →
     p_links bad = None →
     ∃ w', get_paginated_results url auth w = (Raises (KeyError "links"), w')
       ∧ incoming w' = tail)
  ∧ (∀ client_id client_secret limit w pages bad tail infos,
       incoming w = map ok_response (pages ++ [bad]) ++ tail →
       forallb has_next pages = true →
       p_links bad = None →
       Z.of_nat (length (all_people pages)) < limit →
       flatten_list (take (Z.to_nat limit) (all_people (pages ++ [bad])))
         = Returns infos →
       ∃ w', fetch_people client_id client_secret limit w = (Returns infos, w')
         ∧ incoming w' = tail).
Proof.
  split.
  - intros url auth w pages bad tail Hurl Hin Hnext Hlinks.
    pose proof (url_truthy_text _ Hurl) as Htruthy.
    unfold get_paginated_results. rewrite Hin, map_app, <- app_assoc.
    rewrite get_paginated_results_loop_follow by done.
    pose proof (final_url_truthy pages _ Htruthy Hnext) as Hfinal.
    simpl. rewrite Hfinal, Hlinks. by eexists.
  - intros client_id client_secret limit w pages bad tail infos
      Hin Hnext Hlinks Hlt Hflat.
    eexists. split.
    + apply (fetch_people_returns _ _ _ _ (map ok_response (pages ++ [bad]))
               (pages ++ [bad]) tail); try done.
      * apply served_ok_responses.
      * by apply keeps_going_snoc.
      * exists bad. split; [by rewrite last_snoc|]. right.
        unfold has_next, people_next. by rewrite Hlinks.
      * unfold room. simpl. by rewrite Z.sub_0_r.
    + done.
Qed.

Lemma page_without_links_witness :
  (∃ w', get_paginated_results "https://example.org/items" (VStr "app", VStr "secret")
           (set_incoming
              [ok_response (sample_page ["1"] (Some "https://example.org/page2"));
               ok_response {| p_data := [sample_person_numbered "2"];
                              p_included := sample_included; p_links := None |}]
              sample_world)
         = (Raises (KeyError "links"), w'))
  ∧ (∃ infos w', fetch_people (VStr "app") (VStr "secret") 10
           (set_incoming
              [ok_response (sample_page ["1"] (Some "https://example.org/page2"));
               ok_response {| p_data := [sample_person_numbered "2"];
                              p_included := sample_included; p_links := None |}]
              sample_world)
         = (Returns infos, w') ∧ incoming w' = []).
Proof.
  destruct page_without_links as [Hhelper Hpeople]. split.
  - destruct (Hhelper "https://example.org/items" (VStr "app", VStr "secret")
               (set_incoming
                  [ok_response (sample_page ["1"] (Some "https://example.org/page2"));
                   ok_response {| p_data := [sample_person_numbered "2"];
                                  p_included := sample_included; p_links := None |}]
                  sample_world)
               [sample_page ["1"] (Some "https://example.org/page2")]
               {| p_data := [sample_person_numbered "2"];
                  p_included := sample_included; p_links := None |} [])
      as (w' & Hrun & _); try reflexivity; [discriminate|].
    by exists w'.
  - destruct (Hpeople (VStr "app") (VStr "secret") 10
               (set_incoming
                  [ok_response (sample_page ["1"] (Some "https://example.org/page2"));
                   ok_response {| p_data := [sample_person_numbered "2"];
                                  p_included := sample_included; p_links := None |}]
                  sample_world)
               [sample_page ["1"] (Some "https://example.org/page2")]
               {| p_data := [sample_person_numbered "2"];
                  p_included := sample_included; p_links := None |} []
               (result_or [] (flatten_list (take (Z.to_nat 10) (all_people
                  ([sample_page ["1"] (Some "https://example.org/page2")] ++
                   [{| p_data := [sample_person_numbered "2"];
                       p_included := sample_included; p_links := None |}]))))))
      as (w' & Hrun & Hin).
    + reflexivity.
    + reflexivity.
    + reflexivity.
    + vm_compute. reflexivity.
    + apply returned_outcome. vm_compute. reflexivity.
    + eexists _, w'. split; [exact Hrun | exact Hin].
Defined.

(** ** What the fetches leave behind *)

Lemma fetch_people_loop_footprint auth limit pending :
  ∀ next_page people_list w o w',
  fetch_people_loop auth limit pending next_page people_list w = (o, w') →
  stdout w' = stdout w ∧ files w' = files w
  ∧ ∃ consumed urls,
      pending = consumed ++ incoming w'
      ∧ sent w' = sent w ++ map (get_request auth people_params) urls
      ∧ (length urls = length consumed
         ∨ o = Raises ConnectionError ∧ length urls = S (length consumed))
      ∧ (url_truthy next_page = true →
         ∃ others, urls = url_text next_page :: others).
Proof.
  induction pending as [|response rest IH]; intros next_page people_list w o w' H;
    simpl in H; destruct (url_truthy next_page) eqn:Hurl.
  - inversion H; subst. simpl. repeat split. exists [], [url_text next_page].
    simpl. repeat split; eauto.
  - inversion H; subst. simpl. repeat split. exists [], []. simpl.
    rewrite app_nil_r. repeat split; eauto. done.
  - assert (Hone : ∀ o0, (o, w') = (o0, log_request
        {| rq_method := GET; rq_url := url_text next_page; rq_auth := auth;
           rq_params := people_params |} (set_incoming rest w)) →
      stdout w' = stdout w ∧ files w' = files w
      ∧ ∃ consumed urls,
          response :: rest = consumed ++ incoming w'
          ∧ sent w' = sent w ++ map (get_request auth people_params) urls
          ∧ (length urls = length consumed
             ∨ o = Raises ConnectionError ∧ length urls = S (length consumed))
          ∧ (true = true → ∃ others, urls = url_text next_page :: others)).
    { intros o0 Heq. inversion Heq; subst. simpl. repeat split.
      exists [response], [url_text next_page]. simpl. repeat split; eauto. }
    destruct (raise_for_status response); [|by eapply Hone].
    destruct (json response) as [data|e]; [|by eapply Hone].
    destruct (people_page_loop _ _ _ _) as [people|e]; [|by eapply Hone].
    destruct (_ >=? _); [by eapply Hone|].
    apply IH in H as (Hout & Hfiles & consumed & urls & Hp & Hsent & Hlen & _).
    simpl in *. repeat split; try done.
    exists (response :: consumed), (url_text next_page :: urls). simpl.
    rewrite Hsent, <- app_assoc, Hp. repeat split; eauto.
    destruct Hlen as [Hlen|[Ho Hlen]]; [left|right]; by rewrite ?Hlen.
  - inversion H; subst. simpl. repeat split. exists [], []. simpl.
    rewrite app_nil_r. repeat split; eauto. done.
Qed.

(** X4. Whatever the server answers and whether it returns or raises,
    a people fetch prints nothing and leaves the files alone; it sends
    at least one request, also when the limit is 0, the first to the
    people endpoint; every request is a GET with the include and
    per_page parameters and the given credentials; and it has sent one
    request per response read, plus one when the server gave no
    further response. *)
Theorem fetch_people_footprint client_id client_secret limit w o w' :
  fetch_people client_id client_secret limit w = (o, w') →
  stdout w' = stdout w ∧ files w' = files w
  ∧ ∃ consumed others,
      incoming w = consumed ++ incoming w'
      ∧ sent w' = sent w
          ++ map (get_request (client_id, client_secret)
                    [("include", VStr "phone_numbers,emails,addresses,households");
                     ("per_page", VInt 100)])
                 (people_url :: others)
      ∧ (S (length others) = length consumed
         ∨ o = Raises ConnectionError ∧ length others = length consumed).
Proof.
  unfold fetch_people. intros H.
  apply fetch_people_loop_footprint in H
    as (Hout & Hfiles & consumed & urls & Hp & Hsent & Hlen & Hfirst).
  destruct (Hfirst eq_refl) as [others ->].
  repeat split; try done. exists consumed, others.
  repeat split; try done.
  destruct Hlen as [Hlen|[Ho Hlen]]; [left | right]; simpl in Hlen; [done|].
  split; [done|]. by inversion Hlen.
Qed.

Lemma fetch_people_footprint_witness :
  ∃ o w', fetch_people (VStr "app") (VStr "secret") 0 sample_world = (o, w')
    ∧ stdout w' = [] ∧ length (sent w') = 1%nat ∧ length (incoming w') = 2%nat.
Proof.
  destruct (fetch_people (VStr "app") (VStr "secret") 0 sample_world) as [o w']
    eqn:Hrun.
  exists o, w'. split; [done|].
  destruct (fetch_people_footprint _ _ _ _ _ _ Hrun)
    as (Hout & _ & consumed & others & Hin & Hsent & _).
  split; [exact Hout|].
  assert (Hfacts : length (sent w') = 1%nat ∧ length (incoming w') = 2%nat).
  { replace w' with (fetch_people (VStr "app") (VStr "secret") 0 sample_world).2
      by (by rewrite Hrun).
    vm_compute. done. }
  exact Hfacts.
Defined.

(** ** fetch_people: limits that are not positive, and people that raise *)

(** X5. With a limit of 0 or less, a people fetch whose first response
    is served still sends its one request, flattens nobody and returns
    the empty list: the people of the page are not looked at, so even a
    page whose people cannot be flattened raises nothing. *)
Theorem fetch_people_without_room client_id client_secret limit w response
    data tail :
  limit ≤ 0 →
  incoming w = response :: tail →
  served response data →
  fetch_people client_id client_secret limit w
  = (Returns [],
     advance [get_request (client_id, client_secret) people_params people_url]
             tail w).
Proof.
  intros Hlimit Hin Hserved. unfold fetch_people. rewrite Hin.
  rewrite (fetch_people_loop_step _ _ _ _ _ _ data) by done.
  simpl. assert (Hroom : room limit 0 = 0%nat) by (unfold room; lia).
  rewrite Hroom. simpl.
  assert (Hstop : (limit <=? Z.of_nat (length (p_data data))) = true)
    by (apply Z.leb_le; lia).
  by rewrite Hstop.
Qed.

Lemma fetch_people_without_room_witness :
  flatten_list (page_people broken_page) = Raises (KeyError "number")
  ∧ ∃ w', fetch_people (VStr "app") (VStr "secret") (-3)
            (set_incoming [ok_response broken_page] sample_world)
          = (Returns [], w')
      ∧ length (sent w') = 1%nat.
Proof.
  split; [vm_compute; reflexivity|].
  eexists. split.
  - apply (fetch_people_without_room _ _ _ _ (ok_response broken_page)
             broken_page []); [lia | reflexivity | done].
  - reflexivity.
Defined.

Lemma fetch_people_loop_raises auth limit pages :
  ∀ fetched tail next_page people_list w e,
  url_truthy next_page = true →
  Forall2 served fetched pages →
  keeps_going limit (length people_list) pages = true →
  flatten_list (take (room limit (length people_list)) (all_people pages))
    = Raises e →
  (fetch_people_loop auth limit (fetched ++ tail) next_page people_list w).1
  = Raises e.
Proof.
  induction pages as [|data pages IH];
    intros fetched tail next_page people_list w e Hurl Hf Hgo Hflat.
  { unfold all_people in Hflat. simpl in Hflat. by rewrite take_nil in Hflat. }
  inversion Hf as [|response ? fetched' ? Hserved Hf']; subst. clear Hf.
  simpl app. rewrite (fetch_people_loop_step _ _ _ _ _ _ data) by done.
  simpl. destruct pages as [|data' pages'].
  - rewrite all_people_single in Hflat. by rewrite Hflat.
  - simpl in Hgo. apply andb_prop in Hgo as [Hgo Hrest].
    apply andb_prop in Hgo as [Hlt Hnext].
    assert (Hstop : (limit <=? Z.of_nat (length people_list + length (p_data data)))
                    = false).
    { apply Z.leb_gt. by apply Z.ltb_lt in Hlt. }
    rewrite all_people_cons, take_room_page, flatten_list_app in Hflat by done.
    rewrite take_ge
      by (rewrite length_page_people; apply Z.leb_gt in Hstop; unfold room; lia).
    destruct (flatten_list (page_people data)) as [infos1|e1] eqn:H1;
      simpl in Hflat; [|by inversion Hflat].
    pose proof (flatten_list_length _ _ H1) as Hlen.
    rewrite length_page_people in Hlen.
    rewrite Hstop.
    destruct (flatten_list (take _ (all_people _))) as [infos2|e2] eqn:H2;
      simpl in Hflat; [done|]. inversion Hflat; subst.
    apply (IH fetched' tail); try done.
    + by rewrite length_app, Hlen.
    + by rewrite length_app, Hlen.
Qed.

(** X6. One person that cannot be flattened aborts the whole people
    fetch: when the pages read link on under the limit and flattening
    the first [limit] people of them raises, the fetch raises the same
    exception and returns none of the people flattened before. *)
Theorem fetch_people_raises_with_its_people client_id client_secret limit w
    fetched pages tail e :
  incoming w = fetched ++ tail →
  Forall2 served fetched pages →
  keeps_going limit 0 pages = true →
  flatten_list (take (Z.to_nat limit) (all_people pages)) = Raises e →
  (fetch_people client_id client_secret limit w).1 = Raises e.
Proof.
  intros Hin Hf Hgo Hflat. unfold fetch_people. rewrite Hin.
  apply (fetch_people_loop_raises _ _ pages); try done.
  unfold room. simpl. by rewrite Z.sub_0_r.
Qed.

Lemma fetch_people_raises_with_its_people_witness :
  (fetch_people (VStr "app") (VStr "secret") 10
     (set_incoming
        [ok_response (sample_page ["1"; "2"] (Some "https://example.org/page2"));
         ok_response broken_page] sample_world)).1
  = Raises (KeyError "number").
Proof.
  apply (fetch_people_raises_with_its_people _ _ _ _
           [ok_response (sample_page ["1"; "2"] (Some "https://example.org/page2"));
            ok_response broken_page]
           [sample_page ["1"; "2"] (Some "https://example.org/page2"); broken_page]
           []).
  - reflexivity.
  - repeat constructor.
  - reflexivity.
  - vm_compute. reflexivity.
Defined.

(** ** flatten_person: when it raises *)

Lemma resolved_ok_fits rel_type rec :
  resolved_ok rel_type rec = true ↔ record_fits rel_type rec.
Proof.
  unfold resolved_ok, record_fits, is_household, dict_get_default.
  destruct (String.eqb_spec rel_type "phone_numbers") as [->|N1].
  { rewrite bool_decide_eq_true. split; [intros H; by repeat split|].
    intros (H & _). by apply H. }
  destruct (String.eqb_spec rel_type "emails") as [->|N2].
  { rewrite bool_decide_eq_true. split; [intros H; by repeat split|].
    intros (_ & H & _). by apply H. }
  destruct (String.eqb_spec rel_type "addresses") as [->|N3].
  { rewrite bool_decide_eq_true. split; [intros H; by repeat split|].
    intros (_ & _ & H & _). by apply H. }
  destruct (String.eqb_spec rel_type "households") as [->|N4].
  { destruct (String.eqb_spec (r_type rec) "Household") as [Ht|Ht].
    - split.
      + intros H. repeat split; try done. intros _ _.
        by destruct (r_attributes rec !! "member_count") as [[]|].
      + intros (_ & _ & _ & H). specialize (H eq_refl Ht).
        by destruct (r_attributes rec !! "member_count") as [[]|].
    - split; [|done]. intros _. by repeat split. }
  split; [|done]. intros _. by repeat split.
Qed.

(** X7. Flattening a person returns exactly when every record that one
    of the person's pointers resolves to fits its relationship: a
    resolved phone number has "number", an email "address", an address
    "location", and the "member_count" of a resolved record of type
    "Household" is absent or a number.  Otherwise it raises; pointers
    that do not resolve never make it raise. *)
Theorem flatten_person_returns_iff_records_fit (person : resource)
    (included : list resource) :
  (∃ person_info, flatten_person person included = Returns person_info)
  ↔ ∀ rel_type rel_data r rec,
      (rel_type, rel_data) ∈ r_relationships person →
      r ∈ rel_data →
      included_index included !! ref_id r = Some rec →
      record_fits rel_type rec.
Proof.
  rewrite <- flatten_person_returns. unfold flattenable.
  rewrite forallb_forall. split.
  - intros H rel_type rel_data r rec Hrel Hr Hrec.
    apply list_elem_of_In, H in Hrel. unfold rel_ok in Hrel. simpl in Hrel.
    rewrite forallb_forall in Hrel. apply resolved_ok_fits, Hrel.
    apply list_elem_of_In, list_elem_of_omap. by exists r.
  - intros H [rel_type rel_data] Hrel%list_elem_of_In. unfold rel_ok. simpl.
    apply forallb_forall.
    intros rec (r & Hr & Hrec)%list_elem_of_In%list_elem_of_omap.
    apply resolved_ok_fits. by eapply H.
Qed.

Lemma flatten_person_returns_iff_records_fit_witness :
  (∃ person_info,
     flatten_person sample_person sample_included = Returns person_info)
  ∧ (∀ rel_type rel_data r rec,
       (rel_type, rel_data) ∈ r_relationships sample_person →
       r ∈ rel_data →
       included_index sample_included !! ref_id r = Some rec →
       record_fits rel_type rec).
Proof.
  assert (∃ person_info,
            flatten_person sample_person sample_included = Returns person_info)
    as Hreturns.
  { eexists. apply (returned_outcome ∅). vm_compute. reflexivity. }
  split; [exact Hreturns|].
  exact (proj1 (flatten_person_returns_iff_records_fit sample_person
                  sample_included) Hreturns).
Defined.

(** ** flatten_person: the keys and the copied attributes *)

Section invariant.
Context {A S : Type}.
Variable P : S → Prop.
Variable body : A → S → outcome S.

Hypothesis body_keeps : ∀ x s s', P s → body x s = Returns s' → P s'.

Lemma for_each_keeps xs : ∀ s s',
  P s → for_each xs body s = Returns s' → P s'.
Proof.
  induction xs as [|x rest IH]; intros s s' HP H; simpl in H.
  - by inversion H; subst.
  - destruct (body x s) as [s1|e] eqn:Hx; simpl in H; [|done].
    eapply IH; [|exact H]. by eapply body_keeps.
Qed.
End invariant.

Lemma keeps_frame_insert base person_info k v :
  k ∈ written_keys → is_Some (person_info !! k) →
  keeps_frame base person_info → keeps_frame base (<[k := v]> person_info).
Proof.
  intros Hk Hsome [Hdom Hrest]. split.
  - by rewrite dom_insert_lookup_L.
  - intros k' Hk'. rewrite lookup_insert_ne; [by apply Hrest|].
    intros ->. done.
Qed.

Lemma new_person_info_has_key person k :
  k ∈ person_info_keys → is_Some (new_person_info person !! k).
Proof.
  intros Hk. apply elem_of_dom. unfold new_person_info.
  rewrite dom_list_to_map_L.
  apply elem_of_list_to_set. exact Hk.
Qed.

Lemma keeps_frame_has_key person person_info k :
  keeps_frame (new_person_info person) person_info →
  k ∈ person_info_keys → is_Some (person_info !! k).
Proof.
  intros [Hdom _] Hk. apply elem_of_dom. rewrite Hdom. apply elem_of_dom.
  by apply new_person_info_has_key.
Qed.

Ltac in_keys := apply (bool_decide_unpack _); vm_compute; exact I.

Lemma keeps_frame_assign person person_info k v :
  k ∈ written_keys → k ∈ person_info_keys →
  keeps_frame (new_person_info person) person_info →
  keeps_frame (new_person_info person) (<[k := v]> person_info).
Proof.
  intros Hw Hk HP. apply keeps_frame_insert; [done| |done].
  by eapply keeps_frame_has_key.
Qed.

Lemma relationship_step_keeps_frame person included_data rel person_info info' :
  keeps_frame (new_person_info person) person_info →
  relationship_step included_data rel person_info = Returns info' →
  keeps_frame (new_person_info person) info'.
Proof.
  destruct rel as [rel_type rel_data]. unfold relationship_step.
  intros HP H.
  destruct (String.eqb rel_type "phone_numbers").
  { revert HP H. apply for_each_keeps. clear. intros r s s' HP H.
    unfold phone_step in H.
    destruct (included_data !! ref_id r) as [phone|]; [|by inversion H; subst].
    destruct (dict_item _ _) as [number|]; simpl in H; [|done].
    unfold dict_append in H.
    destruct (s !! "phone_numbers") as [[]|] eqn:Hs; inversion H; subst.
    apply keeps_frame_insert; [in_keys | by rewrite Hs | done]. }
  destruct (String.eqb rel_type "emails").
  { revert HP H. apply for_each_keeps. clear. intros r s s' HP H.
    unfold email_step in H.
    destruct (included_data !! ref_id r) as [email|]; [|by inversion H; subst].
    destruct (dict_item _ _) as [address|]; simpl in H; [|done].
    unfold dict_append in H.
    destruct (s !! "emails") as [[]|] eqn:Hs; inversion H; subst.
    apply keeps_frame_insert; [in_keys | by rewrite Hs | done]. }
  destruct (String.eqb rel_type "addresses").
  { revert HP H. apply for_each_keeps. clear. intros r s s' HP H.
    unfold address_step in H.
    destruct (included_data !! ref_id r) as [address|]; [|by inversion H; subst].
    destruct (dict_item _ _) as [location|]; simpl in H; [|done].
    destruct (eq_str location "Home"); [|destruct (eq_str location "Work")];
      injection H as <-; [| |exact HP];
      do 4 (apply keeps_frame_assign; [in_keys|in_keys|]); exact HP. }
  destruct (String.eqb rel_type "households").
  { revert HP H. apply for_each_keeps. clear. intros r s s' HP H.
    unfold household_step in H. simpl in H.
    destruct (included_data !! ref_id r) as [household|]; [|by inversion H; subst].
    destruct (String.eqb _ _); [|by inversion H; subst].
    destruct (s !! "household_count") as [[]|] eqn:Hs; try done.
    destruct (int_add _ _) as [total|]; simpl in H; [|done].
    inversion H; subst.
    apply keeps_frame_insert; [in_keys | by rewrite Hs | done]. }
  by inversion H; subst.
Qed.

Lemma flatten_person_keeps_frame person included person_info :
  flatten_person person included = Returns person_info →
  keeps_frame (new_person_info person) person_info.
Proof.
  unfold flatten_person.
  apply (for_each_keeps (keeps_frame (new_person_info person))).
  - intros rel s s'. apply relationship_step_keeps_frame.
  - by split.
Qed.

(** X8. A flattened person record has exactly the 31 keys of the
    dictionary literal, whatever relationships the person has and
    whatever they resolve to: the loops add no key and remove none. *)
Theorem flattened_record_has_the_31_keys person included person_info :
  flatten_person person included = Returns person_info →
  length person_info_keys = 31%nat
  ∧ ∀ k, is_Some (person_info !! k) ↔ k ∈ person_info_keys.
Proof.
  intros [Hdom _]%flatten_person_keeps_frame. split; [done|].
  intros k. rewrite <- elem_of_dom, Hdom. unfold new_person_info.
  rewrite dom_list_to_map_L. apply elem_of_list_to_set.
Qed.

Lemma flattened_record_has_the_31_keys_witness :
  flatten_person sample_person sample_included
    = Returns (result_or ∅ (flatten_person sample_person sample_included))
  ∧ length person_info_keys = 31%nat
  ∧ ∀ k, is_Some (result_or ∅ (flatten_person sample_person sample_included) !! k)
         ↔ k ∈ person_info_keys.
Proof.
  assert (flatten_person sample_person sample_included
          = Returns (result_or ∅ (flatten_person sample_person sample_included)))
    as Hreturns.
  { apply returned_outcome. vm_compute. reflexivity. }
  split; [exact Hreturns|].
  exact (flattened_record_has_the_31_keys sample_person sample_included _
           Hreturns).
Defined.

(** X9. The relationship loops leave the person's own fields alone: in
    a flattened record "id" is the person's id and each of the 19
    copied keys holds the attribute it is read from, [None] when the
    person has no such attribute; "birthday" holds the attribute
    "birthdate". *)
Theorem flattened_record_copies_attributes person included person_info :
  flatten_person person included = Returns person_info →
  person_info !! "id" = Some (VStr (r_id person))
  ∧ person_info !! "birthday"
    = Some (default VNone (r_attributes person !! "birthdate"))
  ∧ ∀ key attribute, (key, attribute) ∈ copied_attributes →
      person_info !! key
      = Some (default VNone (r_attributes person !! attribute)).
Proof.
  intros [_ Hframe]%flatten_person_keeps_frame.
  assert (Hcopied : ∀ key attribute, (key, attribute) ∈ copied_attributes →
    person_info !! key = Some (default VNone (r_attributes person !! attribute))).
  { intros key attribute Hin. unfold copied_attributes in Hin.
    repeat (apply elem_of_cons in Hin as [Hin|Hin];
            [injection Hin as -> ->;
             rewrite Hframe by (apply (bool_decide_unpack _); vm_compute; exact I);
             vm_compute; reflexivity|]).
    by apply elem_of_nil in Hin. }
  split; [|split; [|exact Hcopied]].
  - rewrite Hframe by (apply (bool_decide_unpack _); vm_compute; exact I).
    vm_compute. reflexivity.
  - apply Hcopied. apply (bool_decide_unpack _). vm_compute. exact I.
Qed.

Lemma flattened_record_copies_attributes_witness :
  result_or ∅ (flatten_person sample_person sample_included) !! "first_name"
  = Some (VStr "Ann")
  ∧ result_or ∅ (flatten_person sample_person sample_included) !! "birthday"
    = Some VNone.
Proof.
  destruct (flattened_record_copies_attributes sample_person sample_included
              (result_or ∅ (flatten_person sample_person sample_included)))
    as (_ & Hbirthday & Hcopied).
  { apply returned_outcome. vm_compute. reflexivity. }
  split.
  - rewrite (Hcopied "first_name" "first_name")
      by (apply (bool_decide_unpack _); vm_compute; exact I).
    vm_compute. reflexivity.
  - rewrite Hbirthday. vm_compute. reflexivity.
Defined.

(** ** flatten_person: what it does not read *)

Lemma for_each_cons {A S : Type} (body : A → S → outcome S) x xs s :
  for_each (x :: xs) body s
  = match body x s with
    | Returns s' => for_each xs body s'
    | Raises e => Raises e
    end.
Proof. done. Qed.

Lemma relationship_step_unknown included_data rel_type rel_data person_info :
  known_relationship rel_type = false →
  relationship_step included_data (rel_type, rel_data) person_info
  = Returns person_info.
Proof.
  unfold known_relationship, relationship_step. intros H.
  apply orb_false_elim in H as [H H4]. apply orb_false_elim in H as [H H3].
  apply orb_false_elim in H as [H1 H2]. by rewrite H1, H2, H3, H4.
Qed.

Lemma for_each_known included_data rels : ∀ person_info,
  for_each rels (relationship_step included_data) person_info
  = for_each (filter (fun rel => known_relationship (fst rel) = true) rels)
      (relationship_step included_data) person_info.
Proof.
  induction rels as [|[rel_type rel_data] rels IH]; intros person_info; [done|].
  destruct (known_relationship rel_type) eqn:Hknown.
  - rewrite filter_cons_True by done. rewrite !for_each_cons.
    destruct (relationship_step _ _ _); [apply IH | done].
  - rewrite filter_cons_False by (simpl; congruence). rewrite for_each_cons.
    rewrite relationship_step_unknown by done. apply IH.
Qed.

(** X10. Relationships other than "phone_numbers", "emails",
    "addresses" and "households" play no part: flattening a person
    gives the same record, or raises the same exception, as flattening
    the person with those relationships removed. *)
Theorem other_relationships_are_ignored (person : resource)
    (included : list resource) :
  flatten_person person included
  = flatten_person
      (with_relationships person
         (filter (fun rel => known_relationship (fst rel) = true)
                 (r_relationships person)))
      included.
Proof. unfold flatten_person. simpl. apply for_each_known. Qed.

Lemma for_each_map {A B S : Type} (g : A → B) (body : B → S → outcome S) xs :
  ∀ s, for_each (map g xs) body s = for_each xs (fun x => body (g x)) s.
Proof.
  induction xs as [|x xs IH]; intros s; [done|].
  rewrite map_cons, !for_each_cons.
  destruct (body (g x) s); [apply IH | done].
Qed.

Lemma relationship_step_untyped included_data rel person_info :
  relationship_step included_data (fst rel, map untyped (snd rel)) person_info
  = relationship_step included_data rel person_info.
Proof.
  destruct rel as [rel_type rel_data]. unfold relationship_step. simpl.
  by rewrite !for_each_map.
Qed.

(** X11. Resolution goes by id alone: neither the declared type of the
    person nor the declared type of any of its pointers is read, so
    flattening the person without them gives the same outcome. *)
Theorem declared_types_of_pointers_are_not_read (person : resource)
    (included : list resource) :
  flatten_person (without_types person) included
  = flatten_person person included.
Proof.
  unfold flatten_person. simpl.
  change (new_person_info (without_types person)) with (new_person_info person).
  rewrite for_each_map.
  generalize (new_person_info person).
  induction (r_relationships person) as [|rel rels IH]; intros person_info;
    [done|].
  rewrite !for_each_cons, relationship_step_untyped.
  destruct (relationship_step _ _ _); [apply IH | done].
Qed.

(** ** The index of the included records *)

Lemma included_index_snoc included item :
  included_index (included ++ [item])
  = <[r_id item := item]> (included_index included).
Proof. unfold included_index. by rewrite foldl_app. Qed.

(** X12. The included records are indexed by id alone, whatever their
    type: an id resolves to the last record of the "included" array
    that carries it, records that come earlier with the same id are
    shadowed, and an id that no record carries does not resolve. *)
Theorem included_index_keeps_the_last (included : list resource) (id : string) :
  included_index included !! id
  = last (filter (fun item => r_id item = id) included).
Proof.
  induction included as [|item included IH] using rev_ind; [done|].
  rewrite included_index_snoc, filter_app, lookup_insert.
  destruct (decide (r_id item = id)) as [Heq|Hne].
  - rewrite (filter_cons_True (fun item => r_id item = id)) by done.
    rewrite filter_nil. by rewrite last_snoc.
  - rewrite (filter_cons_False (fun item => r_id item = id)) by done.
    rewrite filter_nil, app_nil_r. exact IH.
Qed.

(** An instance: two records of different types that share an id
    collide.  A person whose phone pointer carries the id of a later included email
    record gets that email record, and the fetch of its number raises
    [KeyError]; with the two included records in the other order the
    phone number is found. *)
Lemma shared_id_across_types :
  let phone := sample_resource "7" "PhoneNumber" [("number", VStr "555-0100")] [] in
  let email := sample_resource "7" "Email" [("address", VStr "ann@example.org")] [] in
  let person := sample_resource "1" "Person" []
                  [("phone_numbers", [pointer "7" "PhoneNumber"])] in
  flatten_person person [phone; email] = Raises (KeyError "number")
  ∧ (result_or ∅ (flatten_person person [email; phone])) !! "phone_numbers"
    = Some (VList [VStr "555-0100"]).
Proof. split; vm_compute; reflexivity. Qed.

(** ** fetch_teams: the slice and the names *)

Lemma team_entries_named teams :
  Forall (fun team => is_Some (r_attributes team !! "name")) teams →
  team_entries teams = Returns (map team_record teams).
Proof.
  induction 1 as [|team teams [name Hname] _ IH]; [done|].
  simpl. unfold team_entry, dict_item. rewrite Hname, IH. simpl.
  unfold team_record, dict_get. by rewrite Hname.
Qed.

Lemma team_entries_unnamed teams team :
  team ∈ teams → r_attributes team !! "name" = None →
  team_entries teams = Raises (KeyError "name").
Proof.
  intros Hin Hnone. induction teams as [|first teams IH]; [by apply elem_of_nil in Hin|].
  simpl. unfold team_entry at 1, dict_item.
  destruct (r_attributes first !! "name") as [name|] eqn:Hname; [|done].
  simpl. apply elem_of_cons in Hin as [->|Hin]; [congruence|].
  by rewrite IH.
Qed.

Lemma slice_to_team_records teams limit :
  slice_to (map team_record teams) limit
  = map team_record (teams_kept limit teams).
Proof.
  unfold slice_to, teams_kept. rewrite length_map.
  destruct (0 <=? limit) eqn:Hsign.
  - symmetry. apply fmap_take.
  - apply Z.leb_gt in Hsign.
    replace (Z.to_nat (Z.of_nat (length teams) + limit))
      with (length teams - Z.to_nat (- limit))%nat by lia.
    symmetry. apply fmap_take.
Qed.

(** X13. When the response is served and every team of the page has a
    name, [fetch_teams] returns one record per kept team, in order,
    with the team's id, its name and its positions (the empty list when
    absent).  A limit of 0 or more keeps the first [limit] teams; a
    negative limit -k does not give the empty list but all teams except
    the last k. *)
Theorem fetch_teams_keeps_a_slice client_id client_secret limit w response
    data tail :
  incoming w = response :: tail →
  served response data →
  Forall (fun team => is_Some (r_attributes team !! "name")) (p_data data) →
  ∃ w', fetch_teams client_id client_secret limit w
        = (Returns (map team_record (teams_kept limit (p_data data))), w')
    ∧ Z.of_nat (length (teams_kept limit (p_data data)))
      = (if 0 <=? limit
         then Z.min limit (Z.of_nat (length (p_data data)))
         else Z.max 0 (Z.of_nat (length (p_data data)) + limit)).
Proof.
  intros Hin [Hstatus Hbody] Hnames. unfold fetch_teams.
  rewrite Hin, Hstatus. unfold json. rewrite Hbody.
  rewrite team_entries_named, slice_to_team_records by done.
  eexists. split; [done|].
  unfold teams_kept. destruct (0 <=? limit) eqn:Hsign; rewrite length_take.
  - apply Z.leb_le in Hsign. lia.
  - apply Z.leb_gt in Hsign. lia.
Qed.

Lemma fetch_teams_keeps_a_slice_witness :
  ∃ w', fetch_teams (VStr "app") (VStr "secret") (-1) teams_world
        = (Returns [team_record (named "1" "Team" "Band")], w').
Proof.
  destruct (fetch_teams_keeps_a_slice (VStr "app") (VStr "secret") (-1)
              teams_world
              (ok_response {| p_data := [named "1" "Team" "Band";
                                         named "2" "Team" "Ushers"];
                              p_included := [];
                              p_links := Some (Some "https://example.org/teams?offset=2") |})
              {| p_data := [named "1" "Team" "Band"; named "2" "Team" "Ushers"];
                 p_included := [];
                 p_links := Some (Some "https://example.org/teams?offset=2") |}
              [ok_response {| p_data := [named "3" "Team" "Sound"];
                              p_included := []; p_links := Some None |}])
    as (w' & Hrun & _).
  - reflexivity.
  - done.
  - repeat constructor; by eexists.
  - exists w'. exact Hrun.
Defined.

(** X14. The records are built for every team of the page before the
    slice is taken: one team without a name makes [fetch_teams] raise
    [KeyError] for "name" whatever the limit, also when that team lies
    beyond the limit. *)
Theorem fetch_teams_needs_every_name client_id client_secret limit w response
    data tail team :
  incoming w = response :: tail →
  served response data →
  team ∈ p_data data →
  r_attributes team !! "name" = None →
  (fetch_teams client_id client_secret limit w).1 = Raises (KeyError "name").
Proof.
  intros Hin [Hstatus Hbody] Hteam Hnone. unfold fetch_teams.
  rewrite Hin, Hstatus. unfold json. rewrite Hbody.
  by rewrite (team_entries_unnamed _ team).
Qed.

Lemma fetch_teams_needs_every_name_witness :
  (fetch_teams (VStr "app") (VStr "secret") 1
     (set_incoming
        [ok_response {| p_data := [named "1" "Team" "Band";
                                   sample_resource "2" "Team" [] []];
                        p_included := []; p_links := Some None |}]
        sample_world)).1
  = Raises (KeyError "name").
Proof.
  apply (fetch_teams_needs_every_name _ _ _ _
           (ok_response {| p_data := [named "1" "Team" "Band";
                                      sample_resource "2" "Team" [] []];
                           p_included := []; p_links := Some None |})
           {| p_data := [named "1" "Team" "Band"; sample_resource "2" "Team" [] []];
              p_included := []; p_links := Some None |}
           [] (sample_resource "2" "Team" [] [])).
  - reflexivity.
  - done.
  - simpl. rewrite !elem_of_cons. right. by left.
  - reflexivity.
Defined.

Lemma first_id_named_skips before name : ∀ others,
  Forall (named_otherwise name) before →
  first_id_named (before ++ others) name = first_id_named others name.
Proof.
  induction before as [|r before IH]; intros others Hall; [done|].
  inversion Hall as [|? ? (n & Hn & Hne) Hrest]; subst.
  simpl. unfold dict_item. rewrite Hn. simpl. rewrite Hne. by apply IH.
Qed.

(** X15. The look-up by name returns the id of the first record, in
    listing order, whose name equals the name looked for, and does not
    look at the records after it; it returns nothing when every record
    has another name; and a record without a name that comes before any
    match raises [KeyError], even when a match follows. *)
Theorem first_id_named_takes_the_first_match (name : option string)
    (before after : list resource) (r : resource) :
  Forall (named_otherwise name) before →
  first_id_named before name = Returns None
  ∧ ((∃ n, r_attributes r !! "name" = Some n ∧ eq_name n name = true) →
     first_id_named (before ++ r :: after) name = Returns (Some (r_id r)))
  ∧ (r_attributes r !! "name" = None →
     first_id_named (before ++ r :: after) name = Raises (KeyError "name")).
Proof.
  intros Hall. split; [|split].
  - rewrite <- (app_nil_r before). by rewrite first_id_named_skips.
  - intros (n & Hn & Heq). rewrite first_id_named_skips by done.
    simpl. unfold dict_item. rewrite Hn. simpl. by rewrite Heq.
  - intros Hnone. rewrite first_id_named_skips by done.
    simpl. unfold dict_item. by rewrite Hnone.
Qed.

Lemma first_id_named_takes_the_first_match_witness :
  first_id_named
    ([named "3" "ServiceType" "Youth Service"]
     ++ named "7" "ServiceType" "English Worship Service"
     :: [named "8" "ServiceType" "English Worship Service";
         sample_resource "9" "ServiceType" [] []])
    (Some "English Worship Service")
  = Returns (Some "7").
Proof.
  destruct (first_id_named_takes_the_first_match
              (Some "English Worship Service")
              [named "3" "ServiceType" "Youth Service"]
              [named "8" "ServiceType" "English Worship Service";
               sample_resource "9" "ServiceType" [] []]
              (named "7" "ServiceType" "English Worship Service"))
    as (_ & Hfirst & _).
  - repeat constructor. exists (VStr "Youth Service"). by split.
  - apply Hfirst. exists (VStr "English Worship Service"). by split.
Defined.

(** ** Clearing a team position: when a name is not found *)

Lemma get_paginated_results_loop_gets auth pending :
  ∀ url results w o w',
  get_paginated_results_loop auth pending url results w = (o, w') →
  ∃ rqs, sent w' = sent w ++ rqs ∧ Forall (fun rq => rq_method rq = GET) rqs.
Proof.
  induction pending as [|response rest IH]; intros url results w o w' H;
    simpl in H; destruct (url_truthy url).
  - inversion H; subst. simpl. eexists. split; [done|]. by constructor.
  - inversion H; subst. exists []. by rewrite app_nil_r.
  - destruct (negb (status_code response =? 200)).
    { inversion H; subst. simpl. eexists. split; [done|]. by constructor. }
    destruct (json response) as [data|e].
    2:{ inversion H; subst. simpl. eexists. split; [done|]. by constructor. }
    destruct (p_links data) as [next|].
    2:{ inversion H; subst. simpl. eexists. split; [done|]. by constructor. }
    apply IH in H as (rqs & Hsent & Hall). simpl in Hsent.
    eexists. rewrite Hsent, <- app_assoc. split; [done|]. by constructor.
  - inversion H; subst. exists []. by rewrite app_nil_r.
Qed.

Lemma get_paginated_results_gets url auth w o w' :
  get_paginated_results url auth w = (o, w') →
  ∃ rqs, sent w' = sent w ++ rqs ∧ Forall (fun rq => rq_method rq = GET) rqs.
Proof. apply get_paginated_results_loop_gets. Qed.

(** X16. When no service type of the listing has the name asked for,
    or no team position of the service type has, the clearing command
    prints that it was not found and returns; the requests it has sent
    are GETs only: nothing is deleted. *)
Theorem nothing_is_deleted_when_a_name_is_not_found config service_type_name
    team_position_name w client_id client_secret service_types w1 :
  load_authentication config w = (Returns (client_id, client_secret), w) →
  get_paginated_results (base_url +:+ "/service_types")
    (client_id, client_secret) w = (Returns service_types, w1) →
  (first_id_named service_types (Some service_type_name) = Returns None →
   ∃ w' rqs,
     team_position config service_type_name team_position_name w
       = (Returns tt, w')
     ∧ stdout w' = stdout w1
         ++ ["Service type '" +:+ service_type_name +:+ "' not found."]
     ∧ sent w' = sent w ++ rqs
     ∧ Forall (fun rq => rq_method rq = GET) rqs)
  ∧ (∀ service_type_id team_positions w2,
       first_id_named service_types (Some service_type_name)
         = Returns (Some service_type_id) →
       service_type_id ≠ "" →
       get_paginated_results
         (base_url +:+ "/service_types/" +:+ service_type_id +:+ "/team_positions")
         (client_id, client_secret) w1 = (Returns team_positions, w2) →
       first_id_named team_positions team_position_name = Returns None →
       ∃ w' rqs,
         team_position config service_type_name team_position_name w
           = (Returns tt, w')
         ∧ stdout w' = stdout w2
             ++ ["Team position '" +:+ show_name team_position_name
                 +:+ "' not found in service type '" +:+ service_type_name
                 +:+ "'."]
         ∧ sent w' = sent w ++ rqs
         ∧ Forall (fun rq => rq_method rq = GET) rqs).
Proof.
  intros Hauth H1.
  destruct (get_paginated_results_gets _ _ _ _ _ H1) as (rqs1 & Hs1 & Hg1).
  split.
  - intros Hnone. exists (print_line
      ("Service type '" +:+ service_type_name +:+ "' not found.") w1), rqs1.
    unfold team_position, mbind, io_bind, lift.
    rewrite Hauth. simpl. rewrite H1, Hnone. by repeat split.
  - intros service_type_id team_positions w2 Hst Hsid H2 Hnone.
    destruct (get_paginated_results_gets _ _ _ _ _ H2) as (rqs2 & Hs2 & Hg2).
    exists (print_line
      ("Team position '" +:+ show_name team_position_name
       +:+ "' not found in service type '" +:+ service_type_name +:+ "'.") w2),
      (rqs1 ++ rqs2).
    unfold team_position, mbind, io_bind, lift.
    rewrite Hauth. simpl. rewrite H1, Hst.
    destruct service_type_id as [|a sid]; [done|].
    rewrite H2, Hnone. simpl. rewrite Hs2, Hs1, <- app_assoc.
    repeat split. by apply Forall_app.
Qed.

Lemma nothing_is_deleted_when_a_name_is_not_found_witness :
  ∃ w', team_position "pat.yaml" "Evening Service" (Some "Drums") clearing_world
        = (Returns tt, w')
    ∧ stdout w' = ["Service type 'Evening Service' not found."]
    ∧ length (sent w') = 1%nat.
Proof.
  pose (run1 := get_paginated_results (base_url +:+ "/service_types")
                  (VStr "app", VStr "secret") clearing_world).
  destruct (nothing_is_deleted_when_a_name_is_not_found "pat.yaml"
              "Evening Service" (Some "Drums") clearing_world
              (VStr "app") (VStr "secret") (result_or [] run1.1) run1.2)
    as [Hnone _].
  - vm_compute. reflexivity.
  - apply (returned_eq [] run1). vm_compute. reflexivity.
  - destruct Hnone as (w' & rqs & Hrun & Hout & Hsent & _).
    + vm_compute. reflexivity.
    + exists w'. split; [exact Hrun|]. split.
      * rewrite Hout. vm_compute. reflexivity.
      * replace w' with (team_position "pat.yaml" "Evening Service" (Some "Drums")
                           clearing_world).2 by (by rewrite Hrun).
        vm_compute. reflexivity.
Defined.

(** X17. A first listing that answers with a status other than 200,
    such as 401 for wrong credentials, is not told apart from an empty
    listing: the clearing command prints the diagnostic of the helper
    and then that the service type was not found, and returns after
    that one request. *)
Theorem http_failure_reads_as_not_found config service_type_name
    team_position_name w client_id client_secret bad tail :
  load_authentication config w = (Returns (client_id, client_secret), w) →
  incoming w = bad :: tail →
  status_code bad ≠ 200 →
  team_position config service_type_name team_position_name w
  = (Returns tt,
     {| incoming := tail;
        sent := sent w ++ [get_request (client_id, client_secret) []
                             (base_url +:+ "/service_types")];
        stdout := stdout w
          ++ ["Error fetching data: Status code " +:+ pretty (status_code bad);
              "Service type '" +:+ service_type_name +:+ "' not found."];
        files := files w |}).
Proof.
  intros Hauth Hin Hbad.
  unfold team_position, mbind, io_bind, lift. rewrite Hauth. simpl.
  unfold get_paginated_results. rewrite Hin. simpl.
  assert (Hne : negb (status_code bad =? 200) = true).
  { apply negb_true_iff. by apply Z.eqb_neq. }
  rewrite Hne. simpl. unfold print, print_line, log_request, set_incoming. simpl.
  by rewrite <- app_assoc.
Qed.

Lemma http_failure_reads_as_not_found_witness :
  ∃ w', team_position "pat.yaml" "English Worship Service" (Some "Drums")
          (set_incoming [{| status_code := 401; body := None |}] sample_world)
        = (Returns tt, w')
    ∧ stdout w' = ["Error fetching data: Status code 401";
                   "Service type 'English Worship Service' not found."].
Proof.
  eexists. split.
  - apply (http_failure_reads_as_not_found _ _ _ _ (VStr "app") (VStr "secret")
             {| status_code := 401; body := None |} []).
    + vm_compute. reflexivity.
    + reflexivity.
    + simpl. lia.
  - vm_compute. reflexivity.
Defined.

(** ** The configuration file *)

(** X18. [load_authentication] returns a pair of credentials exactly
    when the file at the path is a mapping that holds them under
    "client_id" and "client_secret" and both are truthy; it then
    returns these two values as they are, and it never changes the
    world (no request, no output, no file written). *)
Theorem load_authentication_returns_the_stored_pair config_path w w'
    client_id client_secret :
  load_authentication config_path w = (Returns (client_id, client_secret), w')
  ↔ w' = w
    ∧ ∃ config,
        files w !! config_path = Some (YamlMapping config)
        ∧ config !! "client_id" = Some client_id
        ∧ config !! "client_secret" = Some client_secret
        ∧ truthy client_id = true ∧ truthy client_secret = true.
Proof.
  unfold load_authentication. split.
  - intros H. destruct (files w !! config_path) as [[config|v|]|]; try done.
    unfold dict_get in H.
    destruct (config !! "client_id") as [id|] eqn:Hid; simpl in H; [|done].
    destruct (truthy id) eqn:Htid; simpl in H; [|done].
    destruct (config !! "client_secret") as [secret|] eqn:Hsecret; simpl in H;
      [|done].
    destruct (truthy secret) eqn:Htsecret; simpl in H; [|done].
    inversion H; subst. split; [done|]. by exists config.
  - intros (-> & config & Hfile & Hid & Hsecret & Htid & Htsecret).
    rewrite Hfile. unfold dict_get. rewrite Hid, Hsecret. simpl.
    by rewrite Htid, Htsecret.
Qed.

Lemma load_authentication_returns_the_stored_pair_witness :
  load_authentication "pat.yaml" sample_world
  = (Returns (VStr "app", VStr "secret"), sample_world).
Proof.
  apply load_authentication_returns_the_stored_pair. split; [done|].
  eexists. split; [vm_compute; reflexivity|].
  repeat split; vm_compute; reflexivity.
Defined.

(** X19. Called without arguments, [create_default_config] replaces
    whatever file was at the default path by the placeholder, touches
    no other file and sends nothing; and the placeholder passes the
    check of [load_authentication], which returns the two dummy values
    as credentials. *)
Theorem placeholder_config_is_accepted (home : string) (w : world) :
  ∃ w',
    create_default_config home [] w = (Returns tt, w')
    ∧ load_authentication (DEFAULT_CONFIG_PATH home) w'
      = (Returns (VStr "your_client_id_here", VStr "your_client_secret_here"), w')
    ∧ (∀ path, path ≠ DEFAULT_CONFIG_PATH home → files w' !! path = files w !! path)
    ∧ sent w' = sent w
    ∧ stdout w' = stdout w
        ++ ["Default configuration created at " +:+ DEFAULT_CONFIG_PATH home
            +:+ ". Please update it with your credentials."].
Proof.
  exists (print_line
            ("Default configuration created at " +:+ DEFAULT_CONFIG_PATH home
             +:+ ". Please update it with your credentials.")
            (write_file (DEFAULT_CONFIG_PATH home)
               (YamlMapping (list_to_map
                  [("client_id", VStr "your_client_id_here");
                   ("client_secret", VStr "your_client_secret_here")])) w)).
  split; [reflexivity|]. split.
  - unfold load_authentication. simpl. rewrite lookup_insert_eq. reflexivity.
  - repeat split. intros path Hpath. simpl. by rewrite lookup_insert_ne.
Qed.

(** ** What the generic helper leaves behind *)

Lemma get_paginated_results_loop_footprint auth pending :
  ∀ url results w o w',
  get_paginated_results_loop auth pending url results w = (o, w') →
  files w' = files w
  ∧ ∃ consumed urls,
      pending = consumed ++ incoming w'
      ∧ sent w' = sent w ++ map (get_request auth []) urls
      ∧ (length urls = length consumed
         ∨ o = Raises ConnectionError ∧ length urls = S (length consumed))
      ∧ (url_truthy url = true → ∃ others, urls = url_text url :: others)
      ∧ (url_truthy url = false → urls = [] ∧ o = Returns results).
Proof.
  induction pending as [|response rest IH]; intros url results w o w' H;
    simpl in H; destruct (url_truthy url) eqn:Hurl.
  - inversion H; subst. simpl. split; [done|]. exists [], [url_text url].
    simpl. repeat split; eauto; done.
  - inversion H; subst. simpl. split; [done|]. exists [], []. simpl.
    rewrite app_nil_r. repeat split; eauto; done.
  - assert (Hone : ∀ o0 line,
      (o, w') = (o0, line (log_request
        {| rq_method := GET; rq_url := url_text url; rq_auth := auth;
           rq_params := [] |} (set_incoming rest w))) →
      (∀ v, files (line v) = files v ∧ sent (line v) = sent v
            ∧ incoming (line v) = incoming v) →
      files w' = files w
      ∧ ∃ consumed urls,
          response :: rest = consumed ++ incoming w'
          ∧ sent w' = sent w ++ map (get_request auth []) urls
          ∧ (length urls = length consumed
             ∨ o = Raises ConnectionError ∧ length urls = S (length consumed))
          ∧ (true = true → ∃ others, urls = url_text url :: others)
          ∧ (true = false → urls = [] ∧ o = Returns results)).
    { intros o0 line Heq Hline. inversion Heq; subst.
      destruct (Hline (log_request
        {| rq_method := GET; rq_url := url_text url; rq_auth := auth;
           rq_params := [] |} (set_incoming rest w))) as (Hf & Hs & Hi).
      rewrite Hf. split; [done|].
      exists [response], [url_text url]. rewrite Hs, Hi. simpl.
      repeat split; eauto; done. }
    destruct (negb (status_code response =? 200)).
    { apply (Hone _ (print_line _) (eq_sym H)). by intros v. }
    destruct (json response) as [data|e];
      [|apply (Hone _ (fun v => v) (eq_sym H)); by intros v].
    destruct (p_links data) as [next|];
      [|apply (Hone _ (fun v => v) (eq_sym H)); by intros v].
    apply IH in H as (Hfiles & consumed & urls & Hp & Hsent & Hlen & _).
    simpl in *. split; [done|].
    exists (response :: consumed), (url_text url :: urls). simpl.
    rewrite Hsent, <- app_assoc, Hp. repeat split; eauto; try done.
    destruct Hlen as [Hlen|[Ho Hlen]]; [left|right]; by rewrite ?Hlen.
  - inversion H; subst. simpl. split; [done|]. exists [], []. simpl.
    rewrite app_nil_r. repeat split; eauto; done.
Qed.

(** X20. Whatever the server answers and whether it returns or raises,
    the generic helper leaves the files alone and sends GET requests
    only, without parameters and with the credentials it was given, one
    per response read, plus one when the server gave no further
    response; with an empty start URL it sends nothing and returns the
    empty list. *)
Theorem get_paginated_results_footprint url auth w o w' :
  get_paginated_results url auth w = (o, w') →
  files w' = files w
  ∧ ∃ consumed urls,
      incoming w = consumed ++ incoming w'
      ∧ sent w' = sent w ++ map (get_request auth []) urls
      ∧ (length urls = length consumed
         ∨ o = Raises ConnectionError ∧ length urls = S (length consumed))
      ∧ (url ≠ "" → ∃ others, urls = url :: others)
      ∧ (url = "" → urls = [] ∧ o = Returns []).
Proof.
  unfold get_paginated_results. intros H.
  apply get_paginated_results_loop_footprint in H
    as (Hfiles & consumed & urls & Hp & Hsent & Hlen & Hfirst & Hempty).
  split; [done|]. exists consumed, urls.
  split; [done|]. split; [done|]. split; [done|]. split.
  - intros Hurl. apply Hfirst. by apply url_truthy_text.
  - intros ->. by apply Hempty.
Qed.

Lemma get_paginated_results_footprint_witness :
  ∃ o w', get_paginated_results "" (VStr "app", VStr "secret") sample_world = (o, w')
    ∧ files w' = files sample_world ∧ o = Returns [].
Proof.
  destruct (get_paginated_results "" (VStr "app", VStr "secret") sample_world)
    as [o w'] eqn:Hrun.
  exists o, w'. split; [done|].
  destruct (get_paginated_results_footprint _ _ _ _ _ Hrun)
    as (Hfiles & consumed & urls & _ & _ & _ & _ & Hempty).
  split; [exact Hfiles|]. by apply Hempty.
Defined.

(** ** flatten_person: the order of the relationships *)

Lemma filter_by_name_short rels name :
  NoDup (map fst rels) →
  (length (filter (fun rel : string * list ref => String.eqb (fst rel) name = true)
                  rels) ≤ 1)%nat.
Proof.
  induction rels as [|[rel_type rel_data] rels IH]; intros Hnodup; [simpl; lia|].
  simpl in Hnodup. apply NoDup_cons in Hnodup as [Hfresh Hnodup].
  destruct (String.eqb_spec rel_type name) as [->|Hne].
  - rewrite filter_cons_True by (simpl; apply String.eqb_refl).
    assert (Hnone : filter (fun rel : string * list ref =>
                              String.eqb (fst rel) name = true) rels = []).
    { clear -Hfresh. induction rels as [|[n d] rels IH]; [done|].
      simpl in Hfresh. apply not_elem_of_cons in Hfresh as [Hne Hfresh].
      rewrite filter_cons_False; [by apply IH|].
      simpl. intros Heq%String.eqb_eq. congruence. }
    rewrite Hnone. simpl. lia.
  - rewrite filter_cons_False; [by apply IH|].
    simpl. intros Heq%String.eqb_eq. done.
Qed.

Lemma rel_refs_permutation rels rels' name :
  NoDup (map fst rels) → rels' ≡ₚ rels →
  rel_refs rels' name = rel_refs rels name.
Proof.
  intros Hnodup Hperm. unfold rel_refs.
  assert (Hfilter :
    filter (fun rel : string * list ref => String.eqb (fst rel) name = true) rels'
    ≡ₚ filter (fun rel => String.eqb (fst rel) name = true) rels)
    by (by rewrite Hperm).
  pose proof (filter_by_name_short rels name Hnodup) as Hshort.
  destruct (filter _ rels) as [|rel [|rel2 others]]; simpl in Hshort; [| |lia].
  - apply Permutation_nil_r in Hfilter. by rewrite Hfilter.
  - apply Permutation_singleton_r in Hfilter. by rewrite Hfilter.
Qed.

Lemma flattenable_permutation person included rels' :
  rels' ≡ₚ r_relationships person →
  flattenable (with_relationships person rels') included
  = flattenable person included.
Proof.
  intros Hperm. unfold flattenable. simpl.
  apply eq_true_iff_eq. rewrite !forallb_forall.
  split; intros H rel Hin%list_elem_of_In; apply H, list_elem_of_In.
  - by rewrite Hperm.
  - by rewrite <- Hperm.
Qed.

Lemma lookup_of_dict_get (d : gmap string value) k :
  is_Some (d !! k) → d !! k = Some (dict_get d k).
Proof. intros [v Hv]. unfold dict_get. by rewrite Hv. Qed.

(** A returned record is fixed by the person's own fields and by what
    each of the four relationships points to. *)
Lemma flatten_person_determined person included rels' person_info info' :
  flatten_person person included = Returns person_info →
  flatten_person (with_relationships person rels') included = Returns info' →
  (∀ name, rel_refs rels' name = rel_refs (r_relationships person) name) →
  info' = person_info.
Proof.
  intros H H' Hrefs.
  pose proof (flatten_person_keeps_frame _ _ _ H) as HF.
  pose proof (flatten_person_keeps_frame _ _ _ H') as HF'.
  change (new_person_info (with_relationships person rels'))
    with (new_person_info person) in HF'.
  apply flatten_person_result in H as (Hc & Hp & He & Hh & Hw).
  apply flatten_person_result in H' as (Hc' & Hp' & He' & Hh' & Hw').
  simpl in Hc', Hp', He', Hh', Hw'. rewrite !Hrefs in *.
  rewrite <- Hh in Hh'. rewrite <- Hw in Hw'.
  unfold home_fields in Hh'. unfold work_fields in Hw'.
  injection Hh' as Hh1 Hh2 Hh3 Hh4. injection Hw' as Hw1 Hw2 Hw3 Hw4.
  assert (Hkey : ∀ k, k ∈ person_info_keys →
            dict_get info' k = dict_get person_info k → info' !! k = person_info !! k).
  { intros k Hk Heq.
    rewrite (lookup_of_dict_get info') by (by eapply keeps_frame_has_key).
    rewrite (lookup_of_dict_get person_info) by (by eapply keeps_frame_has_key).
    by rewrite Heq. }
  apply map_eq. intros k.
  destruct (decide (k ∈ written_keys)) as [Hin|Hout].
  - unfold written_keys in Hin.
    repeat (apply elem_of_cons in Hin as [->|Hin];
            [first [ by rewrite Hc, Hc' | by rewrite Hp, Hp' | by rewrite He, He'
                   | (apply Hkey; [in_keys | assumption]) ]|]).
    by apply elem_of_nil in Hin.
  - destruct HF as [_ HF], HF' as [_ HF']. by rewrite HF, HF'.
Qed.

(** X21. The order in which the relationships come in the person's
    JSON object does not matter to the record: when each relationship
    name occurs once and flattening returns, flattening the person with
    its relationships in any other order returns the same record. *)
Theorem relationship_order_does_not_matter person included rels' person_info :
  NoDup (map fst (r_relationships person)) →
  rels' ≡ₚ r_relationships person →
  flatten_person person included = Returns person_info →
  flatten_person (with_relationships person rels') included
  = Returns person_info.
Proof.
  intros Hnodup Hperm H.
  assert (Hok : flattenable (with_relationships person rels') included = true).
  { rewrite flattenable_permutation by done.
    apply flatten_person_returns. by exists person_info. }
  apply flatten_person_returns in Hok as [info' H'].
  rewrite H'. f_equal.
  apply (flatten_person_determined person included rels'); try done.
  intros name. by apply rel_refs_permutation.
Qed.

Lemma relationship_order_does_not_matter_witness :
  flatten_person
    (with_relationships sample_person (reverse (r_relationships sample_person)))
    sample_included
  = Returns (result_or ∅ (flatten_person sample_person sample_included)).
Proof.
  apply relationship_order_does_not_matter.
  - apply (bool_decide_unpack _). vm_compute. exact I.
  - apply reverse_Permutation.
  - apply returned_outcome. vm_compute. reflexivity.
Defined.

(** ** The people command: errors, header and rows *)

Lemma evaluate_returns {A : Type} (elements : list (outcome A)) :
  ∀ values,
  evaluate elements = Returns values
  ↔ Forall2 (fun element v => element = Returns v) elements values.
Proof.
  induction elements as [|element rest IH]; intros values; simpl.
  - split.
    + intros H. inversion H. constructor.
    + intros H. inversion H. done.
  - split.
    + intros H. destruct element as [a|e]; simpl in H; [|done].
      destruct (evaluate rest) as [others|e] eqn:Hrest; simpl in H; [|done].
      inversion H; subst. constructor; [done|]. by apply IH.
    + intros H. inversion H as [|? v ? others Hel Hrest]; subst. simpl.
      apply IH in Hrest. by rewrite Hrest.
Qed.

Lemma evaluate_raises {A : Type} (elements : list (outcome A)) e :
  evaluate elements = Raises e → Raises e ∈ elements.
Proof.
  induction elements as [|element rest IH]; simpl; [done|].
  destruct element as [a|e']; simpl.
  - destruct (evaluate rest) as [others|e''] eqn:Hrest; simpl; [done|].
    intros H. inversion H; subst. right. by apply IH.
  - intros H. inversion H; subst. by left.
Qed.

Lemma all_strings_returns items : ∀ i cells,
  all_strings i items = Returns cells ↔ items = map VStr cells.
Proof.
  induction items as [|v rest IH]; intros i cells; simpl.
  - split.
    + intros H. inversion H. done.
    + intros H. by destruct cells.
  - split.
    + intros H. destruct v; try done.
      destruct (all_strings (i + 1) rest) as [rest'|e] eqn:Hrest; simpl in H;
        [|done].
      inversion H; subst. simpl. f_equal. by eapply IH.
    + intros H. destruct cells as [|s cells]; [done|].
      simpl in H. inversion H; subst.
      assert (all_strings (i + 1) (map VStr cells) = Returns cells) as ->
        by by apply IH.
      done.
Qed.

Lemma all_strings_raises items : ∀ i e,
  all_strings i items = Raises e → ∃ msg, e = TypeError msg.
Proof.
  induction items as [|v rest IH]; intros i e; simpl; [done|].
  destruct v; try (intros H; inversion H; eauto; fail).
  destruct (all_strings (i + 1) rest) as [rest'|e'] eqn:Hrest; simpl; [done|].
  intros H. inversion H; subst. by eapply IH.
Qed.

Lemma all_strings_text items : ∀ i,
  returned (all_strings i items) = forallb is_text items.
Proof.
  induction items as [|v rest IH]; intros i; simpl; [done|].
  destruct v; simpl; try done.
  rewrite <- (IH (i + 1)). by destruct (all_strings (i + 1) rest).
Qed.

Lemma dict_item_raises d k e : dict_item d k = Raises e → e = KeyError k.
Proof. unfold dict_item. destruct (d !! k); [done|]. by inversion 1. Qed.

Lemma row_raises texts person e :
  Raises e ∈ row texts person →
  (∃ key, e = KeyError key) ∨ (∃ msg, e = TypeError msg).
Proof.
  assert (Hitem : ∀ key, item_or_empty person key = Raises e →
                         ∃ key, e = KeyError key).
  { intros key. unfold item_or_empty.
    destruct (dict_item person key) eqn:Hk; simpl; [done|].
    inversion 1; subst. apply dict_item_raises in Hk. eauto. }
  assert (Hjoined : ∀ key, joined_item texts person key = Raises e →
            (∃ key, e = KeyError key) ∨ (∃ msg, e = TypeError msg)).
  { intros key. unfold joined_item.
    destruct (dict_item person key) as [v|e'] eqn:Hk; simpl.
    - destruct v; simpl; try (inversion 1; eauto; fail).
      destruct (all_strings 0 items) eqn:Hall; simpl; [done|].
      inversion 1; subst. right. by eapply all_strings_raises.
    - inversion 1; subst. apply dict_item_raises in Hk. eauto. }
  unfold row. rewrite !elem_of_cons, elem_of_nil.
  unfold str_unless_none, str_item.
  intros H.
  repeat (destruct H as [H|H];
          [first [ symmetry in H; apply dict_item_raises in H; by eauto
                 | symmetry in H; apply Hitem in H; by eauto
                 | symmetry in H; apply Hjoined in H; done
                 | destruct (dict_item person _) eqn:Hk in H; simpl in H;
                   [done|]; inversion H; subst;
                   apply dict_item_raises in Hk; by eauto ]
          |]).
  done.
Qed.

Lemma row_line_raises texts person e :
  row_line texts person = Raises e →
  (∃ key, e = KeyError key) ∨ (∃ msg, e = TypeError msg).
Proof.
  unfold row_line.
  destruct (evaluate (row texts person)) as [cells|e'] eqn:Hrow.
  - change (Returns cells ≫= _)
      with (cells' ← all_strings 0 cells; Returns (join_strings tab cells')).
    destruct (all_strings 0 cells) eqn:Hall; simpl; [done|].
    inversion 1; subst. right. by eapply all_strings_raises.
  - inversion 1; subst. apply evaluate_raises in Hrow.
    by eapply row_raises.
Qed.

Lemma people_error_of_a_row texts config e :
  (∃ key, e = KeyError key) ∨ (∃ msg, e = TypeError msg) →
  people_error texts config e
  = "An unexpected error occurred: " +:+ exn_text texts e.
Proof. by intros [[? ->]|[? ->]]. Qed.

Lemma print_rows_all texts people : ∀ lines w,
  row_lines texts people lines →
  print_rows texts people w = (Returns tt, printed lines w).
Proof.
  induction people as [|person rest IH]; intros lines w H.
  - inversion H; subst. simpl. unfold mret, io_ret, printed.
    rewrite app_nil_r. by destruct w.
  - inversion H as [|? line ? lines' Hline Hrest]; subst. simpl.
    unfold mbind, io_bind, lift. rewrite Hline. unfold print at 1.
    rewrite (IH lines' _ Hrest). unfold printed, print_line; simpl.
    by rewrite <- app_assoc.
Qed.

Lemma print_rows_stops texts shown : ∀ lines bad rest e w,
  row_lines texts shown lines →
  row_line texts bad = Raises e →
  print_rows texts (shown ++ bad :: rest) w = (Raises e, printed lines w).
Proof.
  induction shown as [|person others IH]; intros lines bad rest e w H Hbad.
  - inversion H; subst. simpl. unfold mbind, io_bind, lift. rewrite Hbad.
    unfold printed. rewrite app_nil_r. by destruct w.
  - inversion H as [|? line ? lines' Hline Hrest]; subst. simpl.
    unfold mbind, io_bind, lift. rewrite Hline. unfold print at 1.
    rewrite (IH lines' _ _ _ _ Hrest Hbad). unfold printed, print_line; simpl.
    by rewrite <- app_assoc.
Qed.

Lemma people_after_load texts limit config w client_id client_secret :
  load_authentication config w = (Returns (client_id, client_secret), w) →
  people texts limit config w
  = match fetch_people client_id client_secret limit w with
    | (Returns people_list, w1) =>
        match print_rows texts people_list
                (print_line (join_strings tab headers) w1) with
        | (Returns _, w2) => (Returns tt, w2)
        | (Raises e, w2) => (Returns tt, print_line (people_error texts config e) w2)
        end
    | (Raises e, w1) => (Returns tt, print_line (people_error texts config e) w1)
    end.
Proof.
  intros Hload. unfold people, try_except, mbind, io_bind. rewrite Hload.
  destruct (fetch_people client_id client_secret limit w) as [[people_list|e] w1];
    [|done].
  unfold print at 1.
  destruct (print_rows texts people_list _) as [[[]|e] w2]; done.
Qed.

(** X22. A configuration problem ends the people command before any
    request: whatever [load_authentication] raises, the command itself
    returns, having printed one line and sent nothing.  For a missing
    file that line names the path twice; for a mapping with a falsy
    [client_id] or [client_secret] it names both keys; for a file that
    is no mapping (an empty one, say) it is the line of an unexpected
    error. *)
Theorem people_stops_at_a_configuration_error texts limit config w :
  (∀ e w1, load_authentication config w = (Raises e, w1) →
     people texts limit config w
     = (Returns tt, printed [people_error texts config e] w))
  ∧ (files w !! config = None →
     people texts limit config w
     = (Returns tt,
        printed ["Error: "
                 +:+ ("Configuration file not found at " +:+ config
                      +:+ ". Please create it.")
                 +:+ ". Please ensure the configuration file exists at "
                 +:+ config +:+ "."] w))
  ∧ (∀ mapping, files w !! config = Some (YamlMapping mapping) →
     truthy (dict_get mapping "client_id") = false
     ∨ truthy (dict_get mapping "client_secret") = false →
     people texts limit config w
     = (Returns tt,
        printed ["Error: The YAML file must contain both 'client_id' and 'client_secret'."
                 +:+ ". Please ensure the configuration file contains valid credentials."] w))
  ∧ (∀ v, files w !! config = Some (YamlOther v) →
     ∃ e, people texts limit config w
          = (Returns tt,
             printed ["An unexpected error occurred: " +:+ exn_text texts e] w)).
Proof.
  assert (Hraised : ∀ e w1, load_authentication config w = (Raises e, w1) →
            people texts limit config w
            = (Returns tt, printed [people_error texts config e] w)).
  { intros e w1 Hload.
    destruct (load_authentication_inv _ _ _ _ Hload) as [-> _].
    unfold people, try_except, mbind, io_bind. by rewrite Hload. }
  split; [exact Hraised|]. split; [|split].
  - intros Hfile.
    rewrite (Hraised (FileNotFoundError
               ("Configuration file not found at " +:+ config
                +:+ ". Please create it.")) w); [reflexivity|].
    unfold load_authentication. by rewrite Hfile.
  - intros mapping Hfile Hfalsy.
    rewrite (Hraised config_invalid w); [reflexivity|].
    unfold load_authentication. rewrite Hfile.
    destruct Hfalsy as [-> | ->]; [done|]. by rewrite orb_true_r.
  - intros v Hfile. exists (AttributeError "object has no attribute 'get'").
    rewrite (Hraised (AttributeError "object has no attribute 'get'") w);
      [reflexivity|].
    unfold load_authentication. by rewrite Hfile.
Qed.

Lemma people_stops_at_a_configuration_error_witness :
  files sample_world !! "nowhere.yaml" = None
  ∧ people sample_texts 10 "nowhere.yaml" sample_world
    = (Returns tt,
       printed ["Error: Configuration file not found at nowhere.yaml. Please create it.. Please ensure the configuration file exists at nowhere.yaml."]
               sample_world).
Proof.
  assert (files sample_world !! "nowhere.yaml" = None) as Hfile
    by (vm_compute; reflexivity).
  split; [exact Hfile|].
  exact (proj1 (proj2 (people_stops_at_a_configuration_error
                         sample_texts 10 "nowhere.yaml" sample_world)) Hfile).
Defined.

(** X23. When the fetch raises, the people command prints one line for
    it and nothing else: no header and no row, whatever pages were read
    before.  It returns, and the line says "Error fetching data from
    Planning Center API" when a response was an HTTP error or the
    server gave no further response. *)
Theorem people_reports_a_failed_fetch_in_one_line texts limit config w
    client_id client_secret e w1 :
  load_authentication config w = (Returns (client_id, client_secret), w) →
  fetch_people client_id client_secret limit w = (Raises e, w1) →
  ∃ w', people texts limit config w = (Returns tt, w')
    ∧ stdout w' = stdout w ++ [people_error texts config e]
    ∧ incoming w' = incoming w1 ∧ sent w' = sent w1 ∧ files w' = files w
    ∧ ((∃ status, e = HTTPError status) ∨ e = ConnectionError →
       people_error texts config e
       = "Error fetching data from Planning Center API: " +:+ exn_text texts e).
Proof.
  intros Hload Hfetch.
  exists (print_line (people_error texts config e) w1).
  rewrite (people_after_load _ _ _ _ _ _ Hload), Hfetch.
  unfold fetch_people in Hfetch.
  apply fetch_people_loop_footprint in Hfetch as (Hout & Hfiles & _).
  simpl. rewrite Hout, Hfiles. repeat split; try done.
  by intros [[status ->] | ->].
Qed.

Lemma people_reports_a_failed_fetch_in_one_line_witness :
  ∃ w', people sample_texts 10 "pat.yaml"
          {| incoming := [{| status_code := 401; body := None |}];
             sent := []; stdout := []; files := files sample_world |}
        = (Returns tt, w')
    ∧ stdout w' = ["Error fetching data from Planning Center API: error"].
Proof.
  destruct (people_reports_a_failed_fetch_in_one_line sample_texts 10 "pat.yaml"
              {| incoming := [{| status_code := 401; body := None |}];
                 sent := []; stdout := []; files := files sample_world |}
              (VStr "app") (VStr "secret") (HTTPError 401)
              {| incoming := [];
                 sent := [get_request (VStr "app", VStr "secret") people_params
                            people_url];
                 stdout := []; files := files sample_world |})
    as (w' & Hrun & Hout & _).
  - vm_compute. reflexivity.
  - vm_compute. reflexivity.
  - exists w'. split; [exact Hrun|]. exact Hout.
Defined.

(** X24. A response whose body is not JSON is reported as a problem
    with the credentials: what [response.json()] raises is a
    [ValueError], which the clause meant for the configuration file
    takes before the clause for request errors is tried. *)
Theorem unreadable_body_is_reported_as_bad_credentials texts limit config w
    client_id client_secret response tail :
  load_authentication config w = (Returns (client_id, client_secret), w) →
  incoming w = response :: tail →
  raise_for_status response = Returns tt →
  body response = None →
  ∃ w', people texts limit config w = (Returns tt, w')
    ∧ stdout w' = stdout w
        ++ ["Error: " +:+ exn_text texts JSONDecodeError
            +:+ ". Please ensure the configuration file contains valid credentials."].
Proof.
  intros Hload Hincoming Hstatus Hbody.
  rewrite (people_after_load _ _ _ _ _ _ Hload).
  unfold fetch_people. rewrite Hincoming. simpl.
  rewrite Hstatus. unfold json. rewrite Hbody.
  eexists. split; [reflexivity|]. done.
Qed.

Lemma unreadable_body_is_reported_as_bad_credentials_witness :
  ∃ w', people sample_texts 10 "pat.yaml" unreadable_world = (Returns tt, w')
    ∧ stdout w'
      = ["Error: error. Please ensure the configuration file contains valid credentials."].
Proof.
  apply (unreadable_body_is_reported_as_bad_credentials sample_texts 10
           "pat.yaml" unreadable_world (VStr "app") (VStr "secret")
           {| status_code := 200; body := None |} []);
    vm_compute; reflexivity.
Defined.

Lemma row_lines_evaluated texts people :
  returned (evaluate (map (row_line texts) people)) = true →
  row_lines texts people
    (result_or [] (evaluate (map (row_line texts) people))).
Proof.
  intros H. apply (returned_outcome []) in H.
  apply evaluate_returns in H. by apply Forall2_fmap_l in H.
Qed.

Lemma lookup_of_length {A : Type} (dflt : A) (l : list A) (i : nat) :
  (i <? length l)%nat = true →
  l = take i l ++ default dflt (l !! i) :: drop (S i) l.
Proof.
  intros H. apply Nat.ltb_lt in H.
  destruct (lookup_lt_is_Some_2 l i H) as [x Hx]. rewrite Hx. simpl.
  by rewrite take_drop_middle.
Qed.

(** X25. After a fetch that returns, the people command prints the
    header line and then one line per person, in order.  A person
    whose row cannot be built ends the table there: the lines of the
    people before it stay printed, one line for the unexpected error
    follows, the people after it are not shown, and the command
    returns all the same. *)
Theorem people_prints_header_then_rows texts limit config w
    client_id client_secret people_list w1 :
  load_authentication config w = (Returns (client_id, client_secret), w) →
  fetch_people client_id client_secret limit w = (Returns people_list, w1) →
  (∀ lines, row_lines texts people_list lines →
     people texts limit config w
     = (Returns tt,
        {| incoming := incoming w1; sent := sent w1;
           stdout := stdout w ++ join_strings tab headers :: lines;
           files := files w |}))
  ∧ (∀ shown lines bad rest e,
       people_list = shown ++ bad :: rest →
       row_lines texts shown lines →
       row_line texts bad = Raises e →
       people texts limit config w
       = (Returns tt,
          {| incoming := incoming w1; sent := sent w1;
             stdout := stdout w ++ join_strings tab headers :: lines
                         ++ ["An unexpected error occurred: " +:+ exn_text texts e];
             files := files w |})).
Proof.
  intros Hload Hfetch.
  pose proof Hfetch as Hprint. unfold fetch_people in Hprint.
  apply fetch_people_loop_footprint in Hprint as (Hout & Hfiles & _).
  split.
  - intros lines Hlines.
    rewrite (people_after_load _ _ _ _ _ _ Hload), Hfetch.
    rewrite (print_rows_all _ _ _ _ Hlines).
    unfold printed, print_line; simpl. rewrite Hout, Hfiles.
    by rewrite <- app_assoc.
  - intros shown lines bad rest e -> Hlines Hbad.
    rewrite (people_after_load _ _ _ _ _ _ Hload), Hfetch.
    rewrite (print_rows_stops _ _ _ _ _ _ _ Hlines Hbad).
    rewrite (people_error_of_a_row _ _ _ (row_line_raises _ _ _ Hbad)).
    unfold printed, print_line; simpl. rewrite Hout, Hfiles.
    by rewrite <- !app_assoc.
Qed.

Lemma people_prints_header_then_rows_witness :
  ∃ line w',
    people sample_texts 10 "pat.yaml" mixed_world = (Returns tt, w')
    ∧ stdout w' = [join_strings tab headers; line;
                   "An unexpected error occurred: error"].
Proof.
  pose (run := fetch_people (VStr "app") (VStr "secret") 10 mixed_world).
  assert (run = (Returns (result_or [] run.1), run.2)) as Hfetch.
  { apply returned_eq. vm_compute. reflexivity. }
  assert (load_authentication "pat.yaml" mixed_world
          = (Returns (VStr "app", VStr "secret"), mixed_world)) as Hload.
  { vm_compute. reflexivity. }
  destruct (people_prints_header_then_rows sample_texts 10 "pat.yaml"
              mixed_world (VStr "app") (VStr "secret") _ _ Hload Hfetch)
    as [_ Hstops].
  pose (shown := take 1 (result_or [] run.1)).
  pose (lines := result_or [] (evaluate (map (row_line sample_texts) shown))).
  exists (default "" (lines !! 0%nat)). eexists. split.
  - apply (Hstops shown lines (default ∅ (result_or [] run.1 !! 1%nat))
             (drop 2 (result_or [] run.1))
             (TypeError "sequence item 1: expected str instance, int found")).
    + apply lookup_of_length. vm_compute. reflexivity.
    + apply row_lines_evaluated. vm_compute. reflexivity.
    + vm_compute. reflexivity.
  - vm_compute. reflexivity.
Defined.

(** X26. Every printed row has one cell per header: the line of a
    person is 27 texts joined by tabs, as the header line is, although
    a person record has 31 keys. *)
Theorem rows_have_one_cell_per_header texts person line :
  row_line texts person = Returns line →
  ∃ cells, line = join_strings tab cells
    ∧ length cells = length headers ∧ length headers = 27%nat.
Proof.
  unfold row_line. intros H.
  destruct (evaluate (row texts person)) as [values|e] eqn:Hrow; [|done].
  change (Returns values ≫= _)
    with (cells ← all_strings 0 values; Returns (join_strings tab cells)) in H.
  destruct (all_strings 0 values) as [cells|e] eqn:Hall; simpl in H; [|done].
  inversion H; subst. exists cells. split; [done|].
  apply evaluate_returns, Forall2_length in Hrow.
  apply all_strings_returns in Hall. subst values.
  rewrite length_map in Hrow. rewrite <- Hrow. done.
Qed.

Lemma rows_have_one_cell_per_header_witness :
  ∃ cells,
    result_or "" (row_line sample_texts
                    (result_or ∅ (flatten_person sample_person sample_included)))
    = join_strings tab cells
    ∧ length cells = length headers ∧ length headers = 27%nat.
Proof.
  apply (rows_have_one_cell_per_header sample_texts
           (result_or ∅ (flatten_person sample_person sample_included))).
  apply returned_outcome. vm_compute. reflexivity.
Defined.

Lemma or_empty_text v :
  is_text (if truthy v then v else VStr "") = text_or_falsy v.
Proof.
  unfold text_or_falsy. destruct v as [|[]|z|s|items]; simpl; try done.
  - by destruct (z =? 0).
  - by destruct (negb (String.eqb s "")).
  - by destruct (negb (bool_decide (items = []))).
Qed.

Ltac has_key Hframe key :=
  let v := fresh "v" in
  let Hk := fresh "Hk" in
  destruct (keeps_frame_has_key _ _ key Hframe ltac:(in_keys)) as [v Hk].

Lemma flattened_row_returned texts person included person_info :
  flatten_person person included = Returns person_info →
  ∃ numbers addresses,
    person_info !! "phone_numbers" = Some (VList numbers)
    ∧ person_info !! "emails" = Some (VList addresses)
    ∧ returned (row_line texts person_info)
      = forallb (fun key => text_or_falsy (dict_get person_info key))
                keys_shown_or_empty
        && forallb is_text numbers && forallb is_text addresses.
Proof.
  intros H.
  pose proof (flatten_person_keeps_frame _ _ _ H) as Hframe.
  destruct (flatten_person_result _ _ _ H) as (Hcount & Hphones & Hemails & _).
  do 2 eexists. split; [exact Hphones|]. split; [exact Hemails|].
  assert (Hid : person_info !! "id" = Some (VStr (r_id person))).
  { destruct Hframe as [_ Hkept]. rewrite Hkept by (apply (bool_decide_unpack _); vm_compute; exact I).
    vm_compute. reflexivity. }
  has_key Hframe "first_name". has_key Hframe "last_name".
  has_key Hframe "nickname". has_key Hframe "birthday".
  has_key Hframe "anniversary". has_key Hframe "gender".
  has_key Hframe "marital_status". has_key Hframe "child".
  has_key Hframe "avatar". has_key Hframe "status".
  has_key Hframe "inactivated_at". has_key Hframe "inactive_reason".
  has_key Hframe "membership". has_key Hframe "created_at".
  has_key Hframe "updated_at".
  has_key Hframe "home_street". has_key Hframe "home_city".
  has_key Hframe "home_state". has_key Hframe "home_zip".
  has_key Hframe "work_street". has_key Hframe "work_city".
  has_key Hframe "work_state". has_key Hframe "work_zip".
  unfold row_line, row, item_or_empty, str_unless_none, str_item, joined_item,
    dict_item, keys_shown_or_empty, dict_get, str_join.
  simpl forallb.
  repeat match goal with
         | Hk : person_info !! _ = Some _ |- _ => rewrite !Hk; clear Hk
         end.
  generalize (attr_values "number"
                (resolve (included_index included)
                   (rel_refs (r_relationships person) "phone_numbers"))).
  generalize (attr_values "address"
                (resolve (included_index included)
                   (rel_refs (r_relationships person) "emails"))).
  generalize (household_total (included_index included)
                (rel_refs (r_relationships person) "households")).
  intros count addresses numbers.
  rewrite <- (all_strings_text numbers 0), <- (all_strings_text addresses 0).
  cbv [mbind outcome_bind evaluate default id].
  destruct (all_strings 0 numbers) as [ns|e1];
    destruct (all_strings 0 addresses) as [ads|e2];
    cbv [returned]; rewrite ?andb_false_r, ?andb_true_r; try reflexivity.
  match goal with
  | |- match match ?o with _ => _ end with _ => _ end = _ =>
      transitivity (returned o); [by destruct o|]
  end.
  rewrite all_strings_text. cbn [forallb]. rewrite !or_empty_text.
  cbn [is_text andb]. by rewrite ?andb_true_r.
Qed.

Lemma forallb_all_true {A : Type} (f : A → bool) (l : list A) :
  forallb f l = true ↔ Forall (fun x => f x = true) l.
Proof.
  induction l as [|x l IH]; simpl.
  - split; [constructor|done].
  - rewrite andb_true_iff, IH, Forall_cons. done.
Qed.

(** X27. The row of a flattened person can be built exactly when each
    of the 22 fields shown as [person[key] or ""] holds a string or a
    falsy value, and every resolved phone number and email address is a
    string.  One field with a number or [True] in it, which the
    flattening accepts, is enough to end the table at that person. *)
Theorem flattened_row_is_printed_iff_it_is_text texts person included
    person_info :
  flatten_person person included = Returns person_info →
  (∃ line, row_line texts person_info = Returns line)
  ↔ Forall (fun key => text_or_falsy (dict_get person_info key) = true)
           keys_shown_or_empty
    ∧ ∀ key items, key ∈ ["phone_numbers"; "emails"] →
        person_info !! key = Some (VList items) →
        Forall (fun v => is_text v = true) items.
Proof.
  intros H.
  destruct (flattened_row_returned texts _ _ _ H)
    as (numbers & addresses & Hnumbers & Haddresses & Hreturned).
  assert (Hiff : (∃ line, row_line texts person_info = Returns line)
                 ↔ returned (row_line texts person_info) = true).
  { split.
    - by intros [line ->].
    - intros Hr. eexists. by apply (returned_outcome ""). }
  rewrite Hiff, Hreturned, !andb_true_iff, !forallb_all_true.
  split.
  - intros [[Hkeys Hn] Ha]. split; [done|].
    intros key items Hkey Hitems.
    apply elem_of_cons in Hkey as [->|Hkey].
    + rewrite Hnumbers in Hitems. by inversion Hitems; subst.
    + apply elem_of_cons in Hkey as [->|Hkey]; [|by apply elem_of_nil in Hkey].
      rewrite Haddresses in Hitems. by inversion Hitems; subst.
  - intros [Hkeys Hlists]. split; [split; [done|]|].
    + apply (Hlists "phone_numbers"); [by left|done].
    + apply (Hlists "emails"); [right; by left|done].
Qed.

Lemma flattened_row_is_printed_iff_it_is_text_witness :
  ¬ (∃ line,
       row_line sample_texts
         (result_or ∅ (flatten_person numbered_name sample_included))
       = Returns line)
  ∧ text_or_falsy
      (dict_get (result_or ∅ (flatten_person numbered_name sample_included))
         "first_name") = false.
Proof.
  assert (text_or_falsy
            (dict_get (result_or ∅ (flatten_person numbered_name sample_included))
               "first_name") = false) as Hname.
  { vm_compute. reflexivity. }
  assert (flatten_person numbered_name sample_included
          = Returns (result_or ∅ (flatten_person numbered_name sample_included)))
    as Hflat.
  { apply returned_outcome. vm_compute. reflexivity. }
  split; [|exact Hname].
  intros Hline.
  apply (proj1 (flattened_row_is_printed_iff_it_is_text sample_texts
                  numbered_name sample_included _ Hflat)) in Hline as [Hkeys _].
  apply Forall_cons in Hkeys as [Hfirst _].
  rewrite Hname in Hfirst. discriminate.
Defined.

(** X28. Four of the fields that are copied into a person record,
    "graduation_year", "medical_notes", "school_type" and
    "login_identifier", are never shown: the row of a record does not
    depend on what they hold, nor on whether they are there. *)
Theorem four_fields_are_never_shown texts person_info key :
  key ∈ keys_not_shown →
  key ∈ person_info_keys
  ∧ (∀ v, row_line texts (<[key := v]> person_info) = row_line texts person_info)
  ∧ row_line texts (delete key person_info) = row_line texts person_info.
Proof.
  intros Hkey. unfold keys_not_shown in Hkey.
  unfold row_line, row, item_or_empty, str_unless_none, str_item, joined_item,
    dict_item.
  repeat (apply elem_of_cons in Hkey as [->|Hkey];
          [split; [in_keys|split];
           [intros v; by rewrite !lookup_insert_ne by discriminate
           |by rewrite !lookup_delete_ne by discriminate]|]).
  by apply elem_of_nil in Hkey.
Qed.

Lemma four_fields_are_never_shown_witness :
  "medical_notes" ∈ person_info_keys
  ∧ (∀ v, row_line sample_texts (<["medical_notes" := v]> ∅)
          = row_line sample_texts ∅)
  ∧ row_line sample_texts (delete "medical_notes" ∅) = row_line sample_texts ∅.
Proof.
  apply (four_fields_are_never_shown sample_texts ∅ "medical_notes").
  apply (bool_decide_unpack _). vm_compute. exact I.
Defined.
